(** * taskflowManage: task delegation and the realtime chat bridge

    A shallow embedding of the delegation routes of the tasks router
    ([src/unnamed/part_004]), the chat-history route of the chat router
    (second part of [src/backend/routes/projects.js]) and the socket handlers
    ([src/backend/socket/handlers.js]), with the properties their
    specification states.

    Documents are records, collections are lists in insertion order, socket
    rooms are a finite map from room name to a finite set of socket ids.
    A handler is a function from its request and the store to its response
    (or emitted events) and the new store; the [try]/[catch] around every
    handler body is an exception monad whose [Throw] the handler turns into
    its generic error answer. The user a handler receives is the one the
    authentication middleware attached to the request or the socket: an
    active user with [company] and [teams] populated. *)

From stdpp Require Import gmap strings list pretty sorting.

Open Scope string_scope.
Open Scope list_scope.
Open Scope nat_scope.

(** ** JavaScript exceptions *)

Inductive Exn :=
  | TypeError (what : string)
  | ValidationError (path : string)
  | CastError (path : string).

Inductive Js (A : Type) :=
  | Ret (a : A)
  | Throw (e : Exn).
Arguments Ret {A} a.
Arguments Throw {A} e.

#[global] Instance Js_ret : MRet Js := @Ret.
#[global] Instance Js_bind : MBind Js := λ A B f m,
  match m with
  | Ret a => f a
  | Throw e => Throw e
  end.

(** [Array.prototype.find] with a callback that may throw: elements are
    visited in order, the first one the callback accepts is returned, and an
    exception of the callback leaves the loop at once. *)
Fixpoint find_js {A} (f : A → Js bool) (l : list A) : Js (option A) :=
  match l with
  | [] => Ret None
  | x :: l' =>
      match f x with
      | Throw e => Throw e
      | Ret true => Ret (Some x)
      | Ret false => find_js f l'
      end
  end.

(** ** Identifiers and scalar values *)

(** An ObjectId. Handlers compare ids through their string rendering
    ([a.toString() === b]), which is equality of the ids. *)
Definition ObjId := nat.

(** The rendering of an id inside a room name. *)
Definition id_str (i : ObjId) : string := pretty i.

(** What the read of a property yields, as far as the handlers look at it. *)
Inductive Val :=
  | VUndefined
  | VId (i : ObjId)
  | VStr (s : string)
  | VObject.

#[global] Instance Val_eq_dec : EqDecision Val.
Proof. solve_decision. Defined.

(** [v.name] for a value that carries no property of that name: reading a
    property of [undefined] is a [TypeError], of anything else [undefined]. *)
Definition get_prop (v : Val) (name : string) : Js Val :=
  match v with
  | VUndefined =>
      Throw (TypeError ("Cannot read properties of undefined (reading '" +:+ name +:+ "')"))
  | _ => Ret VUndefined
  end.

(** Truthiness of a value in a condition. *)
Definition truthy (v : Val) : bool :=
  match v with
  | VUndefined => false
  | VStr s => negb (String.eqb s "")
  | VId _ | VObject => true
  end.

(** An optional string field of a payload, read in a condition. *)
Definition str_val (o : option string) : Val :=
  match o with
  | Some s => VStr s
  | None => VUndefined
  end.

(** ** Strings: [trim] and [isLength]

    Text is held as the bytes of its UTF-8 encoding. [String.prototype.trim]
    and the [trim] sanitizer of the validators remove white space and line
    terminators from both ends: tab, line feed, vertical tab, form feed,
    carriage return and space, and U+00A0, U+1680, U+2000 to U+200A, U+2028,
    U+2029, U+202F, U+205F, U+3000 and U+FEFF. *)

Definition byte_is (n : nat) (a : Ascii.ascii) : bool := (Ascii.nat_of_ascii a =? n)%nat.

(** U+00A0 is C2 A0. *)
Definition white_space2 (a b : Ascii.ascii) : bool := byte_is 194 a && byte_is 160 b.

(** The white space of three bytes. *)
Definition white_space3 (a b c : Ascii.ascii) : bool :=
  let z := Ascii.nat_of_ascii c in
  byte_is 225 a && byte_is 154 b && byte_is 128 c                 (* U+1680 *)
  || byte_is 226 a && byte_is 128 b
     && ((128 <=? z)%nat && (z <=? 138)%nat                       (* U+2000 to U+200A *)
         || byte_is 168 c || byte_is 169 c                        (* U+2028, U+2029 *)
         || byte_is 175 c)                                        (* U+202F *)
  || byte_is 226 a && byte_is 129 b && byte_is 159 c              (* U+205F *)
  || byte_is 227 a && byte_is 128 b && byte_is 128 c              (* U+3000 *)
  || byte_is 239 a && byte_is 187 b && byte_is 191 c.             (* U+FEFF *)

(** White space is removed from the front, one character at a time; [two]
    and [three] recognise the characters of two and of three bytes. *)
Fixpoint strip (two : Ascii.ascii → Ascii.ascii → bool) (three : Ascii.ascii → Ascii.ascii → Ascii.ascii → bool)
    (s : string) : string :=
  match s with
  | EmptyString => EmptyString
  | String a s1 =>
      if Ascii.is_space a then strip two three s1
      else
        match s1 with
        | EmptyString => s
        | String b s2 =>
            if two a b then strip two three s2
            else
              match s2 with
              | EmptyString => s
              | String c s3 => if three a b c then strip two three s3 else s
              end
        end
  end.

Definition ltrim (s : string) : string := strip white_space2 white_space3 s.

(** The same from the end: on the reversed text the bytes of a character
    come last byte first. *)
Definition rtrim (s : string) : string :=
  String.rev (strip (λ b a, white_space2 a b) (λ c b a, white_space3 a b c) (String.rev s)).

Definition trim (s : string) : string := rtrim (ltrim s).

(** A byte that continues a character of several bytes. *)
Definition continuation (a : Ascii.ascii) : bool :=
  let n := Ascii.nat_of_ascii a in (128 <=? n)%nat && (n <? 192)%nat.

Fixpoint code_points (s : string) : nat :=
  match s with
  | EmptyString => 0
  | String a s' => (if continuation a then 0 else 1) + code_points s'
  end.

(** The occurrences of the variation selectors U+FE0E and U+FE0F
    (EF B8 8E and EF B8 8F). *)
Fixpoint presentation_selectors (s : string) : nat :=
  match s with
  | EmptyString => 0
  | String a s1 =>
      match s1 with
      | String b (String c _) =>
          if byte_is 239 a && byte_is 184 b && (byte_is 142 c || byte_is 143 c) then 1 else 0
      | _ => 0
      end
      + presentation_selectors s1
  end.

(** [isLength({ min, max })] of the validators: the length is counted in
    characters, a character outside the basic plane as one and the variation
    selectors as none. *)
Definition isLength (min max : nat) (s : string) : bool :=
  let len := code_points s - presentation_selectors s in
  (min <=? len)%nat && (len <=? max)%nat.

(** ** Documents *)

Inductive Role := masteradmin | admin | employee | team_leader | bug_fixer.

#[global] Instance Role_eq_dec : EqDecision Role.
Proof. solve_decision. Defined.

Module User.
(** The fields of the User schema ([src/unnamed/part_003]) that the handlers
    read. [company] and [teams] are as [populate('company teams')] leaves them:
    the company document (here its id) or [null], and the team documents
    that exist. *)
Record t := mk {
  _id : ObjId;
  name : string;
  role : Role;
  company : option ObjId;
  teams : list ObjId;
  isActive : bool
}.
End User.

Module Project.
(** The fields of the Project schema ([src/backend/models/Project.js]) that
    the handlers read. *)
Record t := mk {
  _id : ObjId;
  name : string;
  company : ObjId;
  team : ObjId;
  createdBy : ObjId;
  members : list ObjId;
  chatRoom : option string;
  isActive : bool
}.
End Project.

Module DelegationRequest.
Inductive Status := pending | accepted | rejected.

#[global] Instance Status_eq_dec : EqDecision Status.
Proof. solve_decision. Defined.

(** Modelled from the spec: the Task schema ([models/Task.js]) is not among
    the sources; an embedded delegation request is the record
    [{ id, fromUser, toUser, reason, status, createdAt }] with
    [status] one of pending, accepted, rejected. *)
Record t := mk {
  _id : ObjId;
  fromUser : ObjId;
  toUser : ObjId;
  reason : string;
  status : Status;
  createdAt : nat
}.

Definition set_status (s : Status) (r : t) : t :=
  mk (_id r) (fromUser r) (toUser r) (reason r) s (createdAt r).

Definition status_name (s : Status) : string :=
  match s with
  | pending => "pending"
  | accepted => "accepted"
  | rejected => "rejected"
  end.

(** [req.name] on an embedded request: the value at a schema path ([createdAt]
    is a date object), and [undefined] for a name the schema does not
    declare. *)
Definition get (r : t) (name : string) : Val :=
  if String.eqb name "_id" then VId (_id r)
  else if String.eqb name "fromUser" then VId (fromUser r)
  else if String.eqb name "toUser" then VId (toUser r)
  else if String.eqb name "reason" then VStr (reason r)
  else if String.eqb name "status" then VStr (status_name (status r))
  else if String.eqb name "createdAt" then VObject
  else VUndefined.
End DelegationRequest.

Module Task.
Inductive Status := todo | in_progress | testing | completed.
Inductive Priority := low | medium | high | urgent.

Record Comment := mkComment {
  user : ObjId;
  content : string;
  commentedAt : nat
}.

(** Modelled from the spec: the Task schema ([models/Task.js]) is not among
    the sources; the fields are those the spec's data model lists and the
    routes read and write. *)
Record t := mk {
  _id : ObjId;
  title : string;
  description : string;
  project : ObjId;
  company : ObjId;
  assignedTo : ObjId;
  createdBy : ObjId;
  status : Status;
  priority : Priority;
  deadline : nat;
  comments : list Comment;
  delegationRequests : list DelegationRequest.t;
  isActive : bool
}.

Definition set_delegationRequests (l : list DelegationRequest.t) (x : t) : t :=
  mk (_id x) (title x) (description x) (project x) (company x) (assignedTo x)
     (createdBy x) (status x) (priority x) (deadline x) (comments x) l (isActive x).

Definition set_assignedTo (u : ObjId) (x : t) : t :=
  mk (_id x) (title x) (description x) (project x) (company x) u
     (createdBy x) (status x) (priority x) (deadline x) (comments x)
     (delegationRequests x) (isActive x).
End Task.

Module File.
Record t := mk {
  filename : string;
  originalName : string;
  path : string;
  size : nat;
  mimeType : string
}.
End File.

Module Code.
Record t := mk {
  language : string;
  content : string
}.
End Code.

Module ChatMessage.
(** The ChatMessage schema ([src/backend/models/ChatMessage.js]). *)
Record t := mk {
  _id : ObjId;
  project : ObjId;
  task : option ObjId;
  sender : ObjId;
  content : option string;
  messageType : string;
  file : option File.t;
  code : option Code.t;
  isEdited : bool
}.
End ChatMessage.

(** ** The store *)

(** The collections the handlers touch, each in insertion order, and the
    source of fresh ObjectIds. *)
Record Db := mkDb {
  users : list User.t;
  projects : list Project.t;
  tasks : list Task.t;
  messages : list ChatMessage.t;
  nextId : ObjId
}.

(** [Model.findOne(query)]: the first document the query accepts. *)
Definition findOne {A} (q : A → bool) (l : list A) : option A := List.find q l.

Definition id_eqb (a b : ObjId) : bool := Nat.eqb a b.

(** [task.save()]: the stored document with the task's [_id] is replaced. *)
Fixpoint save_task (t : Task.t) (l : list Task.t) : list Task.t :=
  match l with
  | [] => []
  | t' :: l' =>
      if id_eqb (Task._id t') (Task._id t) then t :: l'
      else t' :: save_task t l'
  end.

Definition with_tasks (l : list Task.t) (db : Db) : Db :=
  mkDb (users db) (projects db) l (messages db) (nextId db).

Definition with_messages (l : list ChatMessage.t) (db : Db) : Db :=
  mkDb (users db) (projects db) (tasks db) l (nextId db).

(** A fresh ObjectId is taken. *)
Definition bump (db : Db) : Db :=
  mkDb (users db) (projects db) (tasks db) (messages db) (S (nextId db)).

(** [req.user.company._id]: a user without a company has [company] null,
    and the read throws. *)
Definition company_id (u : User.t) : Js ObjId :=
  match User.company u with
  | Some c => Ret c
  | None => Throw (TypeError "Cannot read properties of null (reading '_id')")
  end.

(** The roles whose queries are narrowed to membership or team match:
    [['employee', 'team_leader', 'bug_fixer'].includes(role)]. *)
Definition member_tier (r : Role) : bool :=
  match r with
  | employee | team_leader | bug_fixer => true
  | masteradmin | admin => false
  end.

(** ** REST responses *)

Module Res.
Record t := mk {
  status : nat;
  message : string;
  task : option Task.t
}.
End Res.

Definition json (status : nat) (message : string) : Res.t :=
  Res.mk status message None.

(** ** POST /api/tasks/:id/delegate

    [src/unnamed/part_004], lines 243 to 320. *)

(** The request body. [toUserId] is [None] when the field is absent or is
    not the rendering of an ObjectId ([isMongoId] fails), and the id when
    the field is the rendering the documents give it. A body that spells
    the id otherwise (digits in upper case) is outside this record: the
    handler compares the text with [member.toString()] and answers it 400 at
    the membership check. *)
Record DelegateBody := mkDelegateBody {
  toUserId : option ObjId;
  reason : string
}.

(** [body('reason').trim().isLength({ min: 1, max: 500 })] *)
Definition reason_valid (r : string) : bool := isLength 1 500 (trim r).

(** The callback of the duplicate check,
    [req => req.status === 'pending' && req.fromUser.toString() === req.user.id].
    Its parameter is named [req] and hides the handler's request inside the
    callback: [req.user] is read on the embedded delegation request. *)
Definition existing_pending (req : DelegationRequest.t) : Js bool :=
  if bool_decide (DelegationRequest.status req = DelegationRequest.pending) then
    id ← get_prop (DelegationRequest.get req "user") "id";
    Ret (bool_decide (VId (DelegationRequest.fromUser req) = id))
  else Ret false.

(** The body of the handler's [try] block, after validation. *)
Definition delegate_try (user : User.t) (taskId toUser : ObjId) (reason : string)
    (now : nat) (db : Db) : Js (Res.t * Db) :=
  companyId ← company_id user;
  match findOne (λ t, id_eqb (Task._id t) taskId
                      && id_eqb (Task.assignedTo t) (User._id user)
                      && id_eqb (Task.company t) companyId
                      && Task.isActive t) (tasks db) with
  | None => Ret (json 404 "Task not found or you are not assigned to it", db)
  | Some task =>
      (* populate('project', 'members'), then task.project.members *)
      project ← match findOne (λ p, id_eqb (Project._id p) (Task.project task)) (projects db) with
                | Some p => Ret p
                | None => Throw (TypeError "Cannot read properties of null (reading 'members')")
                end;
      if negb (existsb (λ member, id_eqb member toUser) (Project.members project)) then
        Ret (json 400 "Target user is not a member of this project", db)
      else
        match findOne (λ u, id_eqb (User._id u) toUser
                            && bool_decide (User.company u = Some companyId)
                            && User.isActive u) (users db) with
        | None => Ret (json 400 "Target user not found in your company", db)
        | Some _ =>
            existingRequest ← find_js existing_pending (Task.delegationRequests task);
            match existingRequest with
            | Some _ =>
                Ret (json 400 "You already have a pending delegation request for this task", db)
            | None =>
                let delegationRequest :=
                  DelegationRequest.mk (nextId db) (User._id user) toUser (trim reason)
                                       DelegationRequest.pending now in
                let task' :=
                  Task.set_delegationRequests
                    (Task.delegationRequests task ++ [delegationRequest]) task in
                Ret (json 200 "Delegation request sent successfully",
                     bump (with_tasks (save_task task' (tasks db)) db))
            end
        end
  end.

Definition delegate (user : User.t) (taskId : ObjId) (body : DelegateBody)
    (now : nat) (db : Db) : Res.t * Db :=
  match toUserId body, reason_valid (reason body) with
  | Some toUser, true =>
      match delegate_try user taskId toUser (trim (reason body)) now db with
      | Ret r => r
      | Throw _ => (json 500 "Server error while creating delegation request", db)
      end
  | _, _ => (json 400 "Validation failed", db)
  end.

(** ** PUT /api/tasks/delegation-requests/:requestId

    [src/unnamed/part_004], lines 370 to 429. The [requestId] of the URL is
    taken to be the rendering of an ObjectId. *)

(** [body('action').isIn(['accept', 'reject'])] *)
Definition action_valid (action : string) : bool :=
  String.eqb action "accept" || String.eqb action "reject".

(** [task.delegationRequests.id(requestId)]: the first embedded request with
    that [_id]. *)
Definition requests_id (requestId : ObjId) (l : list DelegationRequest.t)
    : option DelegationRequest.t :=
  List.find (λ r, id_eqb (DelegationRequest._id r) requestId) l.

(** Assignment to the [status] of the request [id(requestId)] returned: the
    first embedded request with that [_id] is the one that changes. *)
Fixpoint set_request_status (requestId : ObjId) (s : DelegationRequest.Status)
    (l : list DelegationRequest.t) : list DelegationRequest.t :=
  match l with
  | [] => []
  | r :: l' =>
      if id_eqb (DelegationRequest._id r) requestId
      then DelegationRequest.set_status s r :: l'
      else r :: set_request_status requestId s l'
  end.

(** The query of the task lookup. Each dotted path over the embedded array
    is a condition of its own: the document matches when some request has
    the [_id] and some request, the same or another, has the [toUser]. *)
Definition resolve_query (requestId uid companyId : ObjId) (t : Task.t) : bool :=
  existsb (λ r, id_eqb (DelegationRequest._id r) requestId) (Task.delegationRequests t)
  && existsb (λ r, id_eqb (DelegationRequest.toUser r) uid) (Task.delegationRequests t)
  && id_eqb (Task.company t) companyId
  && Task.isActive t.

Definition resolve_try (user : User.t) (requestId : ObjId) (action : string)
    (db : Db) : Js (Res.t * Db) :=
  companyId ← company_id user;
  match findOne (resolve_query requestId (User._id user) companyId) (tasks db) with
  | None => Ret (json 404 "Delegation request not found", db)
  | Some task =>
      match requests_id requestId (Task.delegationRequests task) with
      | None => Ret (json 404 "Delegation request not found", db)
      | Some request =>
          if negb (bool_decide (DelegationRequest.status request = DelegationRequest.pending)) then
            Ret (json 400 "Request has already been processed", db)
          else
            let accept := String.eqb action "accept" in
            let requests' :=
              set_request_status requestId
                (if accept then DelegationRequest.accepted else DelegationRequest.rejected)
                (Task.delegationRequests task) in
            let task1 := Task.set_delegationRequests requests' task in
            let task2 := if accept then Task.set_assignedTo (User._id user) task1 else task1 in
            let db' := with_tasks (save_task task2 (tasks db)) db in
            Ret (Res.mk 200 ("Request " +:+ action +:+ "ed successfully")
                        (if accept
                         then findOne (λ t, id_eqb (Task._id t) (Task._id task2)) (tasks db')
                         else None),
                 db')
      end
  end.

Definition resolve (user : User.t) (requestId : ObjId) (action : string)
    (db : Db) : Res.t * Db :=
  if action_valid action then
    match resolve_try user requestId action db with
    | Ret r => r
    | Throw _ => (json 500 "Server error while processing delegation request", db)
    end
  else (json 400 "Validation failed", db).

(** ** The realtime bridge: sockets, rooms, emitted events

    [src/backend/socket/handlers.js], lines 25 to 134. *)

Definition SocketId := nat.

Module Socket.
(** A connected socket: its id and the user the connection middleware
    attached to it ([socket.user]). *)
Record t := mk {
  id : SocketId;
  user : User.t
}.
End Socket.

(** A message with [populate('sender', ...)] applied: the sender document,
    or [null] when it no longer exists. *)
Definition Populated : Type := ChatMessage.t * option User.t.

Inductive Payload :=
  | ErrorPayload (message : string)
  | NewMessage (m : Populated)
  | UserTyping (userId : ObjId) (userName : string) (taskId : option ObjId)
  | UserStopTyping (userId : ObjId) (taskId : option ObjId).

(** One emit call of a handler. *)
Inductive Out :=
  | ToSocket (s : SocketId) (event : string) (p : Payload)        (* socket.emit *)
  | ToRoom (room : string) (event : string) (p : Payload)         (* io.to(room).emit *)
  | ToRoomExcept (room : string) (sender : SocketId) (event : string) (p : Payload).
                                                                  (* socket.to(room).emit *)

(** The sockets in a room; a room nobody joined is empty. *)
Definition room_members (rooms : gmap string (gset SocketId)) (room : string)
    : gset SocketId :=
  default ∅ (rooms !! room).

(** [socket.join(room)] *)
Definition join (s : SocketId) (room : string) (rooms : gmap string (gset SocketId))
    : gmap string (gset SocketId) :=
  <[room := {[s]} ∪ room_members rooms room]> rooms.

(** The sockets one emit call reaches, each once. *)
Definition receivers (rooms : gmap string (gset SocketId)) (o : Out) : list SocketId :=
  match o with
  | ToSocket s _ _ => [s]
  | ToRoom room _ _ => elements (room_members rooms room)
  | ToRoomExcept room sender _ _ => elements (room_members rooms room ∖ {[sender]})
  end.

Definition out_event (o : Out) : string :=
  match o with
  | ToSocket _ e _ | ToRoom _ e _ | ToRoomExcept _ _ e _ => e
  end.

Definition out_payload (o : Out) : Payload :=
  match o with
  | ToSocket _ _ p | ToRoom _ _ p | ToRoomExcept _ _ _ p => p
  end.

Record Server := mkServer {
  db : Db;
  rooms : gmap string (gset SocketId)
}.

(** The primary room of a project, [`project-${projectId}`]. *)
Definition project_room (projectId : string) : string := "project-" +:+ projectId.

(** The access query of the realtime handlers:
    [{ _id: projectId, company: socket.user.company._id }], with
    [$or: [{ members: user._id }, { team: { $in: teams } }]] added for the
    member-tier roles. *)
Definition project_access_query (user : User.t) (projectId companyId : ObjId)
    (p : Project.t) : bool :=
  id_eqb (Project._id p) projectId
  && id_eqb (Project.company p) companyId
  && (if member_tier (User.role user)
      then existsb (λ m, id_eqb m (User._id user)) (Project.members p)
           || existsb (λ t, id_eqb (Project.team p) t) (User.teams user)
      else true).

(** *** join-project

    [projectId] is the id of a call whose text is the rendering the
    documents give the id, so that the room [`project-${projectId}`] is
    named with [id_str]. The handler on the text of the call, whatever its
    spelling, is [join_project_text] below. *)

Definition join_project_try (socket : Socket.t) (projectId : ObjId) (srv : Server)
    : Js (list Out * Server) :=
  companyId ← company_id (Socket.user socket);
  match findOne (project_access_query (Socket.user socket) projectId companyId)
                (projects (db srv)) with
  | None => Ret ([ToSocket (Socket.id socket) "error" (ErrorPayload "Project not found")], srv)
  | Some project =>
      let rooms1 := join (Socket.id socket) (project_room (id_str projectId)) (rooms srv) in
      let rooms2 :=
        match Project.chatRoom project with
        | Some room => if truthy (VStr room) then join (Socket.id socket) room rooms1 else rooms1
        | None => rooms1
        end in
      Ret ([], mkServer (db srv) rooms2)
  end.

Definition join_project (socket : Socket.t) (projectId : ObjId) (srv : Server)
    : list Out * Server :=
  match join_project_try socket projectId srv with
  | Ret r => r
  | Throw _ => ([ToSocket (Socket.id socket) "error" (ErrorPayload "Error joining project")], srv)
  end.

(** *** send-message

    As for join-project, [projectId] is the id of a payload that spells it
    as the documents render it; [send_message_text] below is the handler on
    the text. *)

Record SendData := mkSendData {
  projectId : ObjId;
  chatRoom : option string;
  taskId : option ObjId;
  content : option string;
  messageType : option string;
  file : option File.t;
  code : option Code.t
}.

(** [this.file] and [this.code] inside a validator of the ChatMessage schema.
    Both are declared inline in the schema (nested paths, not sub-schemas),
    and the document getter of a nested path returns an object whether or
    not any of its sub-fields was set. *)
Definition read_nested {A} (stored : option A) : Val := VObject.

(** The [required] function of [content]:
    [function() { return !this.file && !this.code; }] *)
Definition content_required (m : ChatMessage.t) : bool :=
  negb (truthy (read_nested (ChatMessage.file m)))
  && negb (truthy (read_nested (ChatMessage.code m))).

(** [enum: ['text', 'file', 'code']] *)
Definition messageType_valid (s : string) : bool :=
  String.eqb s "text" || String.eqb s "file" || String.eqb s "code".

(** Validation of [ChatMessage.create]: [project] and [sender] are always
    given by the handler; [content] is checked when its [required] function
    says so, [messageType] against its enum. *)
Definition validate_message (m : ChatMessage.t) : Js unit :=
  if content_required m && negb (truthy (str_val (ChatMessage.content m))) then
    Throw (ValidationError "content")
  else if negb (messageType_valid (ChatMessage.messageType m)) then
    Throw (ValidationError "messageType")
  else Ret ().

(** The [messageData] object the handler builds. *)
Definition messageData (sender : ObjId) (data : SendData) (id : ObjId) : ChatMessage.t :=
  ChatMessage.mk id (projectId data)
    (taskId data)
    sender
    (if truthy (str_val (content data)) then content data else None)
    (if truthy (str_val (messageType data)) then default "text" (messageType data) else "text")
    (file data)
    (code data)
    false.

Definition populate_sender (d : Db) (m : ChatMessage.t) : Populated :=
  (m, findOne (λ u, id_eqb (User._id u) (ChatMessage.sender m)) (users d)).

Definition send_message_try (socket : Socket.t) (data : SendData) (srv : Server)
    : Js (list Out * Server) :=
  companyId ← company_id (Socket.user socket);
  match findOne (project_access_query (Socket.user socket) (projectId data) companyId)
                (projects (db srv)) with
  | None => Ret ([ToSocket (Socket.id socket) "error" (ErrorPayload "Project not found")], srv)
  | Some project =>
      let message := messageData (User._id (Socket.user socket)) data (nextId (db srv)) in
      _ ← validate_message message;
      let db' := bump (with_messages (messages (db srv) ++ [message]) (db srv)) in
      let populatedMessage := populate_sender db' message in
      Ret (ToRoom (project_room (id_str (projectId data))) "new-message" (NewMessage populatedMessage)
           :: match chatRoom data with
              | Some room =>
                  if truthy (VStr room)
                  then [ToRoom room "new-message" (NewMessage populatedMessage)]
                  else []
              | None => []
              end,
           mkServer db' (rooms srv))
  end.

Definition send_message (socket : Socket.t) (data : SendData) (srv : Server)
    : list Out * Server :=
  match send_message_try socket data srv with
  | Ret r => r
  | Throw _ => ([ToSocket (Socket.id socket) "error" (ErrorPayload "Error sending message")], srv)
  end.

(** *** typing / stop-typing *)

(** The payload of both events. [room_suffix] is the text of
    [data.projectId] as the template [`project-${data.projectId}`] renders
    it; the handlers use it for nothing else. *)
Record TypingData := mkTypingData {
  room_suffix : string;
  typing_taskId : option ObjId
}.

Definition typing (socket : Socket.t) (data : TypingData) (srv : Server)
    : list Out * Server :=
  ([ToRoomExcept (project_room (room_suffix data)) (Socket.id socket) "user-typing"
      (UserTyping (User._id (Socket.user socket)) (User.name (Socket.user socket))
                  (typing_taskId data))],
   srv).

Definition stop_typing (socket : Socket.t) (data : TypingData) (srv : Server)
    : list Out * Server :=
  ([ToRoomExcept (project_room (room_suffix data)) (Socket.id socket) "user-stop-typing"
      (UserStopTyping (User._id (Socket.user socket)) (typing_taskId data))],
   srv).

(** ** GET /api/chat/:projectId

    [src/backend/routes/projects.js], lines 401 to 429. The messages come
    sorted by [createdAt], which is the insertion order of the collection. *)

Inductive ChatRes :=
  | ChatJson (messages : list Populated)                (* res.json(messages) *)
  | ChatError (status : nat) (message : string).

Definition chat_history_try (user : User.t) (projectId : ObjId) (taskId : option ObjId)
    (d : Db) : Js ChatRes :=
  companyId ← company_id user;
  match findOne (λ p, id_eqb (Project._id p) projectId
                      && id_eqb (Project.company p) companyId) (projects d) with
  | None => Ret (ChatError 404 "Project not found")
  | Some _ =>
      let query (m : ChatMessage.t) :=
        id_eqb (ChatMessage.project m) projectId
        && match taskId with
           | Some t => bool_decide (ChatMessage.task m = Some t)
           | None => true
           end in
      Ret (ChatJson (populate_sender d <$> filter (λ m, query m = true) (messages d)))
  end.

Definition chat_history (user : User.t) (projectId : ObjId) (taskId : option ObjId)
    (d : Db) : ChatRes :=
  match chat_history_try user projectId taskId d with
  | Ret r => r
  | Throw _ => ChatError 500 "Server error"
  end.

(** ** Operations of the delegation workflow as one transition system

    Each call is served from its start to its answer before the next one
    starts. Calls that overlap are in [sys_run] below. *)

Inductive Op :=
  | OpDelegate (user : User.t) (taskId : ObjId) (body : DelegateBody) (now : nat)
  | OpResolve (user : User.t) (requestId : ObjId) (action : string).

Definition step (d : Db) (op : Op) : Db :=
  match op with
  | OpDelegate user taskId body now => snd (delegate user taskId body now d)
  | OpResolve user requestId action => snd (resolve user requestId action d)
  end.

Definition run (ops : list Op) (d : Db) : Db := fold_left step ops d.

(** ** The store after a successful call *)

(** The store after a delegate call that went through on [task]. *)
Definition delegated (user : User.t) (toUser : ObjId) (reason : string) (now : nat)
    (d : Db) (task : Task.t) : Db :=
  bump (with_tasks
          (save_task
             (Task.set_delegationRequests
                (Task.delegationRequests task
                 ++ [DelegationRequest.mk (nextId d) (User._id user) toUser
                       (trim reason) DelegationRequest.pending now])
                task)
             (tasks d))
          d).

(** The task after a resolve call that went through on it. *)
Definition resolved (user : User.t) (requestId : ObjId) (action : string)
    (task : Task.t) : Task.t :=
  let accept := String.eqb action "accept" in
  let task1 :=
    Task.set_delegationRequests
      (set_request_status requestId
         (if accept then DelegationRequest.accepted else DelegationRequest.rejected)
         (Task.delegationRequests task))
      task in
  if accept then Task.set_assignedTo (User._id user) task1 else task1.

(** ** Predicates of the specification *)

Definition is_pending (r : DelegationRequest.t) : bool :=
  bool_decide (DelegationRequest.status r = DelegationRequest.pending).

(** The pending requests of a task that come from one user. *)
Definition pending_from (u : ObjId) (t : Task.t) : list DelegationRequest.t :=
  List.filter (λ r, is_pending r && id_eqb (DelegationRequest.fromUser r) u)
              (Task.delegationRequests t).

(** At most one pending request per task and requesting user. *)
Definition one_pending_per_sender (d : Db) : Prop :=
  ∀ t u, t ∈ tasks d → length (pending_from u t) ≤ 1.

(** The ids of all embedded delegation requests of the store. *)
Definition request_ids (l : list Task.t) : list ObjId :=
  l ≫= (λ t, DelegationRequest._id <$> Task.delegationRequests t).

(** ObjectIds are unique and were all handed out by the id source. *)
Definition ids_wf (d : Db) : Prop :=
  NoDup (Task._id <$> tasks d)
  ∧ NoDup (request_ids (tasks d))
  ∧ Forall (λ i, i < nextId d) (request_ids (tasks d)).

(** The socket is admitted by join-project: no error event is emitted. *)
Definition join_admitted (socket : Socket.t) (projectId : ObjId) (srv : Server) : Prop :=
  fst (join_project socket projectId srv) = [].

(** The user is served the message history by the REST route. *)
Definition history_served (user : User.t) (projectId : ObjId) (d : Db) : Prop :=
  ∃ l, chat_history user projectId None d = ChatJson l.

(** The user is an explicit member of the project or in its team. *)
Definition member_or_team (user : User.t) (p : Project.t) : bool :=
  existsb (λ m, id_eqb m (User._id user)) (Project.members p)
  || existsb (λ t, id_eqb (Project.team p) t) (User.teams user).

(** The number of payload kinds a stored message carries. *)
Definition populated {A} (o : option A) : bool :=
  match o with
  | Some _ => true
  | None => false
  end.

Definition kinds_populated (m : ChatMessage.t) : nat :=
  (if populated (ChatMessage.content m) then 1 else 0)
  + (if populated (ChatMessage.file m) then 1 else 0)
  + (if populated (ChatMessage.code m) then 1 else 0).


(** ** A company with three employees, two projects and one task *)

Module Scenario.
Definition alice := User.mk 1 "Alice" employee (Some 100) [] true.
Definition bob := User.mk 2 "Bob" employee (Some 100) [] true.
Definition carol := User.mk 3 "Carol" employee (Some 100) [] true.
(** Dave is in the company, in team 77, and in neither project. *)
Definition dave := User.mk 4 "Dave" employee (Some 100) [77] true.

Definition website :=
  Project.mk 10 "Website" 100 50 9 [1; 2; 3] (Some "project_10_1700000000000") true.
Definition billing :=
  Project.mk 11 "Billing" 100 51 9 [1] (Some "project_11_1700000000001") true.

Definition task20 :=
  Task.mk 20 "Landing page" "Build it" 10 100 1 9 Task.todo Task.medium 30 [] [] true.

Definition db0 : Db := mkDb [alice; bob; carol; dave] [website; billing] [task20] [] 1000.

(** Alice, the assignee, asks Bob to take over. *)
Definition db1 : Db :=
  snd (delegate alice 20 (mkDelegateBody (Some 2) "vacation") 5 db0).

(** Bob accepts, then asks Carol: request 1001 is pending, addressed to Carol. *)
Definition db2 : Db := snd (resolve bob 1000 "accept" db1).
Definition db3 : Db :=
  snd (delegate bob 20 (mkDelegateBody (Some 3) "busy") 7 db2).

Definition request1000 :=
  DelegationRequest.mk 1000 1 2 "vacation" DelegationRequest.pending 5.
Definition request1000_accepted :=
  DelegationRequest.set_status DelegationRequest.accepted request1000.
Definition request1001 :=
  DelegationRequest.mk 1001 2 3 "busy" DelegationRequest.pending 7.

(** The task as the store holds it after each of these calls. *)
Definition task20_db1 := Task.set_delegationRequests [request1000] task20.
Definition task20_db2 :=
  Task.set_assignedTo 2 (Task.set_delegationRequests [request1000_accepted] task20).
Definition task20_db3 :=
  Task.set_delegationRequests [request1000_accepted; request1001] task20_db2.

(** Alice's socket has joined the Billing project. *)
Definition alice_socket := Socket.mk 5 alice.
Definition dave_socket := Socket.mk 7 dave.
Definition hello :=
  ChatMessage.mk 999 11 None 1 (Some "hello") "text" None None false.
Definition srv0 : Server :=
  mkServer (mkDb [alice; bob; carol; dave] [website; billing] [task20] [hello] 1000) ∅.
Definition srv1 : Server := snd (join_project alice_socket 11 srv0).

Definition a_file := File.mk "1700-1.png" "shot.png" "/uploads/1700-1.png" 2048 "image/png".
Definition a_code := Code.mk "js" "let x = 1;".

(** A payload with text, a file and a code snippet at once. *)
Definition three_kinds : SendData :=
  mkSendData 11 None None (Some "see attached") (Some "text") (Some a_file) (Some a_code).
(** A payload with a file and no [messageType]. *)
Definition file_only : SendData :=
  mkSendData 11 None None None None (Some a_file) None.
(** A payload with text and no [chatRoom]. *)
Definition plain_text : SendData :=
  mkSendData 11 None None (Some "hi") (Some "text") None None.
(** A payload with none of [content], [file], [code]. *)
Definition nothing : SendData :=
  mkSendData 11 None None None None None None.
End Scenario.

(** * The other routes of the tasks router

    [src/unnamed/part_004]. A route that answers with a document or a list
    answers with it as the store holds it: the references that [populate]
    would expand stay ids. *)

(** An answer that carries a body of its own, or a refusal with a message. *)
Inductive Reply (A : Type) :=
  | Answer (status : nat) (body : A)
  | Refusal (status : nat) (message : string).
Arguments Answer {A} status body.
Arguments Refusal {A} status message.

(** [Model.findOneAndUpdate(query, update, { new: true })]: the first
    document the query accepts is updated in place and returned as updated. *)
Fixpoint findOneAndUpdate {A} (q : A → bool) (f : A → A) (l : list A)
    : option A * list A :=
  match l with
  | [] => (None, [])
  | x :: l' =>
      if q x then (Some (f x), f x :: l')
      else let r := findOneAndUpdate q f l' in (fst r, x :: snd r)
  end.

Definition task_set_status (s : Task.Status) (x : Task.t) : Task.t :=
  Task.mk (Task._id x) (Task.title x) (Task.description x) (Task.project x)
    (Task.company x) (Task.assignedTo x) (Task.createdBy x) s (Task.priority x)
    (Task.deadline x) (Task.comments x) (Task.delegationRequests x) (Task.isActive x).

Definition task_set_isActive (b : bool) (x : Task.t) : Task.t :=
  Task.mk (Task._id x) (Task.title x) (Task.description x) (Task.project x)
    (Task.company x) (Task.assignedTo x) (Task.createdBy x) (Task.status x)
    (Task.priority x) (Task.deadline x) (Task.comments x) (Task.delegationRequests x) b.

Definition task_set_comments (l : list Task.Comment) (x : Task.t) : Task.t :=
  Task.mk (Task._id x) (Task.title x) (Task.description x) (Task.project x)
    (Task.company x) (Task.assignedTo x) (Task.createdBy x) (Task.status x)
    (Task.priority x) (Task.deadline x) l (Task.delegationRequests x) (Task.isActive x).

Definition task_set_title (s : string) (x : Task.t) : Task.t :=
  Task.mk (Task._id x) s (Task.description x) (Task.project x)
    (Task.company x) (Task.assignedTo x) (Task.createdBy x) (Task.status x)
    (Task.priority x) (Task.deadline x) (Task.comments x) (Task.delegationRequests x)
    (Task.isActive x).

Definition task_set_description (s : string) (x : Task.t) : Task.t :=
  Task.mk (Task._id x) (Task.title x) s (Task.project x)
    (Task.company x) (Task.assignedTo x) (Task.createdBy x) (Task.status x)
    (Task.priority x) (Task.deadline x) (Task.comments x) (Task.delegationRequests x)
    (Task.isActive x).

Definition task_set_priority (p : Task.Priority) (x : Task.t) : Task.t :=
  Task.mk (Task._id x) (Task.title x) (Task.description x) (Task.project x)
    (Task.company x) (Task.assignedTo x) (Task.createdBy x) (Task.status x)
    p (Task.deadline x) (Task.comments x) (Task.delegationRequests x) (Task.isActive x).

Definition task_set_deadline (t : nat) (x : Task.t) : Task.t :=
  Task.mk (Task._id x) (Task.title x) (Task.description x) (Task.project x)
    (Task.company x) (Task.assignedTo x) (Task.createdBy x) (Task.status x)
    (Task.priority x) t (Task.comments x) (Task.delegationRequests x) (Task.isActive x).

(** The values of the [status] and [priority] enumerations, by name. *)
Definition parse_status (s : string) : option Task.Status :=
  if String.eqb s "todo" then Some Task.todo
  else if String.eqb s "in_progress" then Some Task.in_progress
  else if String.eqb s "testing" then Some Task.testing
  else if String.eqb s "completed" then Some Task.completed
  else None.

Definition parse_priority (s : string) : option Task.Priority :=
  if String.eqb s "low" then Some Task.low
  else if String.eqb s "medium" then Some Task.medium
  else if String.eqb s "high" then Some Task.high
  else if String.eqb s "urgent" then Some Task.urgent
  else None.

(** [.sort({ deadline: 1 })]. The order among tasks of equal deadline is the
    sort's own. *)
Definition by_deadline (a b : Task.t) : Prop := Task.deadline a ≤ Task.deadline b.

#[global] Instance by_deadline_dec : RelDecision by_deadline.
Proof. intros a b. unfold by_deadline. apply _. Defined.

Definition sort_by_deadline (l : list Task.t) : list Task.t := merge_sort by_deadline l.

(** [$or: [{ assignedTo: user }, { createdBy: user }]], added to a task
    query for the member-tier roles. *)
Definition task_visible_to (user : User.t) (t : Task.t) : bool :=
  if member_tier (User.role user)
  then id_eqb (Task.assignedTo t) (User._id user) || id_eqb (Task.createdBy t) (User._id user)
  else true.

(** ** GET /api/tasks (lines 101 to 140) *)

Definition tasks_index_try (user : User.t) (d : Db) : Js (list Task.t) :=
  if bool_decide (User.role user = masteradmin) then
    Ret (sort_by_deadline (List.filter (λ t, Task.isActive t) (tasks d)))
  else if bool_decide (User.role user = admin) then
    companyId ← company_id user;
    Ret (sort_by_deadline
           (List.filter (λ t, id_eqb (Task.company t) companyId && Task.isActive t) (tasks d)))
  else
    Ret (sort_by_deadline
           (List.filter (λ t, id_eqb (Task.assignedTo t) (User._id user) && Task.isActive t)
                        (tasks d))).

Definition tasks_index (user : User.t) (d : Db) : Reply (list Task.t) :=
  match tasks_index_try user d with
  | Ret l => Answer 200 l
  | Throw _ => Refusal 500 "Server error while fetching tasks"
  end.

(** ** GET /api/tasks/project/:projectId (lines 145 to 188) *)

(** The project query of the REST routes: the access query of the realtime
    handlers with [isActive: true] added. *)
Definition project_rest_query (user : User.t) (projectId companyId : ObjId)
    (p : Project.t) : bool :=
  id_eqb (Project._id p) projectId
  && id_eqb (Project.company p) companyId
  && Project.isActive p
  && (if member_tier (User.role user)
      then existsb (λ m, id_eqb m (User._id user)) (Project.members p)
           || existsb (λ t, id_eqb (Project.team p) t) (User.teams user)
      else true).

Definition tasks_of_project_try (user : User.t) (projectId : ObjId) (d : Db)
    : Js (Reply (list Task.t)) :=
  companyId ← company_id user;
  match findOne (project_rest_query user projectId companyId) (projects d) with
  | None => Ret (Refusal 404 "Project not found or access denied")
  | Some _ =>
      Ret (Answer 200
             (sort_by_deadline
                (List.filter
                   (λ t, id_eqb (Task.project t) projectId
                         && Task.isActive t
                         && (if member_tier (User.role user)
                             then id_eqb (Task.assignedTo t) (User._id user)
                             else true))
                   (tasks d))))
  end.

Definition tasks_of_project (user : User.t) (projectId : ObjId) (d : Db)
    : Reply (list Task.t) :=
  match tasks_of_project_try user projectId d with
  | Ret r => r
  | Throw _ => Refusal 500 "Server error while fetching project tasks"
  end.

(** ** PUT /api/tasks/:id/status (lines 193 to 238) *)

Definition task_status_try (user : User.t) (id : ObjId) (status : Task.Status) (d : Db)
    : Js (Res.t * Db) :=
  companyId ← company_id user;
  let query (t : Task.t) :=
    id_eqb (Task._id t) id
    && id_eqb (Task.company t) companyId
    && Task.isActive t
    && (if member_tier (User.role user)
        then id_eqb (Task.assignedTo t) (User._id user)
        else true) in
  match findOneAndUpdate query (task_set_status status) (tasks d) with
  | (None, _) => Ret (json 404 "Task not found or access denied", d)
  | (Some task, l) =>
      Ret (Res.mk 200 "Task status updated successfully" (Some task), with_tasks l d)
  end.

(** The [status] of the body is the raw string; [isIn] admits the four names
    of the enumeration. *)
Definition task_status (user : User.t) (id : ObjId) (status : string) (d : Db)
    : Res.t * Db :=
  match parse_status status with
  | None => (json 400 "Validation failed", d)
  | Some s =>
      match task_status_try user id s d with
      | Ret r => r
      | Throw _ => (json 500 "Server error while updating task status", d)
      end
  end.

(** ** GET /api/tasks/:id (lines 491 to 522) *)

Definition task_query (user : User.t) (id companyId : ObjId) (t : Task.t) : bool :=
  id_eqb (Task._id t) id
  && id_eqb (Task.company t) companyId
  && Task.isActive t
  && task_visible_to user t.

Definition task_show (user : User.t) (id : ObjId) (d : Db) : Reply Task.t :=
  match company_id user with
  | Throw _ => Refusal 500 "Server error while fetching task"
  | Ret companyId =>
      match findOne (task_query user id companyId) (tasks d) with
      | None => Refusal 404 "Task not found or access denied"
      | Some task => Answer 200 task
      end
  end.

(** ** POST /api/tasks/:id/comments (lines 434 to 486) *)

(** [body('content').trim().isLength({ min: 1, max: 1000 })] *)
Definition comment_valid (c : string) : bool := isLength 1 1000 (trim c).

(** The answer carries the message and the comments of the task as stored
    after the save. *)
Definition task_comment (user : User.t) (id : ObjId) (content : string) (now : nat)
    (d : Db) : Reply (string * list Task.Comment) * Db :=
  if comment_valid content then
    match company_id user with
    | Throw _ => (Refusal 500 "Server error while adding comment", d)
    | Ret companyId =>
        match findOne (task_query user id companyId) (tasks d) with
        | None => (Refusal 404 "Task not found or access denied", d)
        | Some task =>
            let task' :=
              task_set_comments
                (Task.comments task
                 ++ [Task.mkComment (User._id user) (trim (trim content)) now])
                task in
            let d' := with_tasks (save_task task' (tasks d)) d in
            match findOne (λ t, id_eqb (Task._id t) (Task._id task')) (tasks d') with
            | Some updatedTask =>
                (Answer 200 ("Comment added successfully", Task.comments updatedTask), d')
            | None =>
                (* updatedTask is null and [updatedTask.comments] throws, after the save *)
                (Refusal 500 "Server error while adding comment", d')
            end
        end
    end
  else (Refusal 400 "Validation failed", d).

(** ** PUT /api/tasks/:id (lines 527 to 582) *)

(** A date of a request body: absent, present but not ISO 8601, or a date. *)
Inductive DateField :=
  | NoDate
  | BadDate
  | DateAt (t : nat).

Module UpdateTask.
(** The optional fields of the body, each [None] when absent. *)
Record body := mk {
  title : option string;
  description : option string;
  priority : option string;
  deadline : DateField
}.
End UpdateTask.

(** [body(field).optional().trim().isLength({ min: 1, max })] *)
Definition optional_text_valid (max : nat) (o : option string) : bool :=
  match o with
  | None => true
  | Some s => isLength 1 max (trim s)
  end.

Definition update_task_valid (b : UpdateTask.body) : bool :=
  optional_text_valid 200 (UpdateTask.title b)
  && optional_text_valid 1000 (UpdateTask.description b)
  && match UpdateTask.priority b with
     | None => true
     | Some s => populated (parse_priority s)
     end
  && match UpdateTask.deadline b with
     | BadDate => false
     | _ => true
     end.

(** [updateData] applied to a task: every field that is present, in the
    order the handler fills it in. *)
Definition apply_update (b : UpdateTask.body) (x : Task.t) : Task.t :=
  let x1 := match UpdateTask.title b with
            | Some s => task_set_title (trim (trim s)) x
            | None => x
            end in
  let x2 := match UpdateTask.description b with
            | Some s => task_set_description (trim (trim s)) x1
            | None => x1
            end in
  let x3 := match UpdateTask.priority b with
            | Some s => match parse_priority s with
                        | Some p => task_set_priority p x2
                        | None => x2
                        end
            | None => x2
            end in
  match UpdateTask.deadline b with
  | DateAt t => task_set_deadline t x3
  | _ => x3
  end.

Definition task_update (user : User.t) (id : ObjId) (b : UpdateTask.body) (d : Db)
    : Res.t * Db :=
  if update_task_valid b then
    match company_id user with
    | Throw _ => (json 500 "Server error while updating task", d)
    | Ret companyId =>
        let query (t : Task.t) :=
          id_eqb (Task._id t) id
          && id_eqb (Task.company t) companyId
          && Task.isActive t
          && (if bool_decide (User.role user = admin) then true
              else id_eqb (Task.createdBy t) (User._id user)) in
        match findOneAndUpdate query (apply_update b) (tasks d) with
        | (None, _) => (json 404 "Task not found or access denied", d)
        | (Some task, l) =>
            (Res.mk 200 "Task updated successfully" (Some task), with_tasks l d)
        end
    end
  else (json 400 "Validation failed", d).

(** ** GET /api/tasks/delegation-requests (lines 325 to 365) *)

Module RequestView.
(** One entry of the answer: the request with both users populated and a
    summary of its task, whose project is populated with its name. *)
Record t := mk {
  _id : ObjId;
  task_id : ObjId;
  task_title : string;
  task_description : string;
  task_priority : Task.Priority;
  task_project : option (ObjId * string);
  fromUser : option User.t;
  toUser : User.t;
  reason : string;
  status : DelegationRequest.Status;
  createdAt : nat
}.
End RequestView.

(** [User.findById] *)
Definition find_user (d : Db) (id : ObjId) : option User.t :=
  findOne (λ u, id_eqb (User._id u) id) (users d).

(** [forEach] with a callback that may throw and that pushes onto a result
    array. *)
Fixpoint collect_js {A B} (f : A → Js (list B)) (l : list A) : Js (list B) :=
  match l with
  | [] => Ret []
  | x :: l' =>
      ys ← f x;
      zs ← collect_js f l';
      Ret (ys ++ zs)
  end.

(** The inner callback. [request.toUser] is the populated user, [null] when
    the user document is gone, and [request.toUser._id] is read on every
    request of the task before anything else. *)
Definition request_view (user : User.t) (d : Db) (task : Task.t)
    (request : DelegationRequest.t) : Js (list RequestView.t) :=
  match find_user d (DelegationRequest.toUser request) with
  | None => Throw (TypeError "Cannot read properties of null (reading '_id')")
  | Some toUser =>
      if id_eqb (User._id toUser) (User._id user) && is_pending request then
        Ret [RequestView.mk (DelegationRequest._id request)
               (Task._id task) (Task.title task) (Task.description task)
               (Task.priority task)
               ((λ p, (Project._id p, Project.name p))
                  <$> findOne (λ p, id_eqb (Project._id p) (Task.project task)) (projects d))
               (find_user d (DelegationRequest.fromUser request))
               toUser
               (DelegationRequest.reason request)
               (DelegationRequest.status request)
               (DelegationRequest.createdAt request)]
      else Ret []
  end.

Definition delegation_requests_try (user : User.t) (d : Db) : Js (list RequestView.t) :=
  companyId ← company_id user;
  collect_js
    (λ task, collect_js (request_view user d task) (Task.delegationRequests task))
    (List.filter
       (λ t, existsb (λ r, id_eqb (DelegationRequest.toUser r) (User._id user))
                     (Task.delegationRequests t)
             && id_eqb (Task.company t) companyId
             && Task.isActive t)
       (tasks d)).

Definition delegation_requests (user : User.t) (d : Db) : Reply (list RequestView.t) :=
  match delegation_requests_try user d with
  | Ret l => Answer 200 l
  | Throw _ => Refusal 500 "Server error while fetching delegation requests"
  end.

(** * Routes that maintain the task list of a project *)

(** [authorize(...roles)] of [src/backend/middleware/auth.js], lines 26 to
    35: the role of the user must be one of the roles given. *)
Definition authorize (roles : list Role) (user : User.t) : bool :=
  bool_decide (User.role user ∈ roles).

Definition forbidden : Res.t := json 403 "Access denied. Insufficient permissions.".

(** The store together with the [tasks] array of every project document,
    by project id; a project without an entry has the empty array. The
    Project record above carries the fields that the access queries read,
    this map the array that task creation and deletion maintain. Project ids
    are unique. *)
Record Store := mkStore {
  base : Db;
  project_tasks : gmap ObjId (list ObjId)
}.

Definition tasks_of (st : Store) (projectId : ObjId) : list ObjId :=
  default [] (project_tasks st !! projectId).

Definition project_exists (d : Db) (projectId : ObjId) : bool :=
  populated (findOne (λ p, id_eqb (Project._id p) projectId) (projects d)).

(** [Project.findByIdAndUpdate(projectId, { $push: { tasks: taskId } })] *)
Definition push_task (projectId taskId : ObjId) (d : Db)
    (m : gmap ObjId (list ObjId)) : gmap ObjId (list ObjId) :=
  if project_exists d projectId
  then <[projectId := default [] (m !! projectId) ++ [taskId]]> m
  else m.

(** [Project.findByIdAndUpdate(projectId, { $pull: { tasks: taskId } })]:
    every occurrence of the id leaves the array. *)
Definition pull_task (projectId taskId : ObjId) (d : Db)
    (m : gmap ObjId (list ObjId)) : gmap ObjId (list ObjId) :=
  if project_exists d projectId
  then <[projectId := List.filter (λ i, negb (id_eqb i taskId)) (default [] (m !! projectId))]> m
  else m.

(** ** POST /api/tasks (lines 13 to 96) *)

Module CreateTask.
(** [projectId] and [assignedTo] are [None] when absent or not the rendering
    of an ObjectId; an absent [title] or [description] is the empty string. *)
Record body := mk {
  title : string;
  description : string;
  projectId : option ObjId;
  assignedTo : option ObjId;
  priority : option string;
  deadline : DateField
}.
End CreateTask.

Definition text_valid (max : nat) (s : string) : bool := isLength 1 max (trim s).

(** [populate('members', '_id')]: the members whose user document exists. *)
Definition populated_members (d : Db) (p : Project.t) : list ObjId :=
  List.filter (λ m, populated (find_user d m)) (Project.members p).

Definition create_task_try (user : User.t) (title description : string)
    (projectId assignedTo : ObjId) (priority : Task.Priority) (deadline : nat)
    (st : Store) : Js (Res.t * Store) :=
  let d := base st in
  companyId ← company_id user;
  match findOne (λ p, id_eqb (Project._id p) projectId
                      && id_eqb (Project.company p) companyId
                      && Project.isActive p) (projects d) with
  | None => Ret (json 404 "Project not found or access denied", st)
  | Some project =>
      if negb (existsb (λ member, id_eqb member assignedTo) (populated_members d project)) then
        Ret (json 400 "User is not a member of this project", st)
      else
        match findOne (λ u, id_eqb (User._id u) assignedTo
                            && bool_decide (User.company u = Some companyId)
                            && User.isActive u) (users d) with
        | None => Ret (json 400 "Assigned user not found in your company", st)
        | Some _ =>
            let task :=
              Task.mk (nextId d) (trim title) (trim description) projectId companyId
                      assignedTo (User._id user) Task.todo priority deadline [] [] true in
            let d' := bump (with_tasks (tasks d ++ [task]) d) in
            Ret (Res.mk 201 "Task created successfully"
                        (findOne (λ t, id_eqb (Task._id t) (Task._id task)) (tasks d')),
                 mkStore d' (push_task projectId (Task._id task) d' (project_tasks st)))
        end
  end.

Definition create_task (user : User.t) (b : CreateTask.body) (st : Store)
    : Res.t * Store :=
  if negb (authorize [admin] user) then (forbidden, st)
  else
    match CreateTask.projectId b, CreateTask.assignedTo b, CreateTask.deadline b,
          match CreateTask.priority b with
          | None => Some Task.medium
          | Some s => parse_priority s
          end with
    | Some projectId, Some assignedTo, DateAt deadline, Some priority =>
        if text_valid 200 (CreateTask.title b)
           && text_valid 1000 (CreateTask.description b) then
          match create_task_try user (trim (CreateTask.title b))
                  (trim (CreateTask.description b)) projectId assignedTo priority
                  deadline st with
          | Ret r => r
          | Throw _ => (json 500 "Server error while creating task", st)
          end
        else (json 400 "Validation failed", st)
    | _, _, _, _ => (json 400 "Validation failed", st)
    end.

(** ** DELETE /api/tasks/:id (lines 587 to 613) *)

Definition delete_task (user : User.t) (id : ObjId) (st : Store) : Res.t * Store :=
  if negb (authorize [admin] user) then (forbidden, st)
  else
    match company_id user with
    | Throw _ => (json 500 "Server error while deleting task", st)
    | Ret companyId =>
        match findOneAndUpdate
                (λ t, id_eqb (Task._id t) id
                      && id_eqb (Task.company t) companyId
                      && Task.isActive t)
                (task_set_isActive false) (tasks (base st)) with
        | (None, _) => (json 404 "Task not found", st)
        | (Some task, l) =>
            let d' := with_tasks l (base st) in
            (json 200 "Task deleted successfully",
             mkStore d' (pull_task (Task.project task) (Task._id task) d' (project_tasks st)))
        end
    end.

(** ** DELETE /api/projects/:id

    [src/backend/routes/projects.js], lines 325 to 363. *)

Definition delete_project (user : User.t) (id : ObjId) (st : Store) : Res.t * Store :=
  if negb (authorize [admin] user) then (forbidden, st)
  else
    match company_id user with
    | Throw _ => (json 500 "Server error while deleting project", st)
    | Ret companyId =>
        match findOne (λ p, id_eqb (Project._id p) id
                            && id_eqb (Project.company p) companyId
                            && Project.isActive p) (projects (base st)) with
        | None => (json 404 "Project not found", st)
        | Some project =>
            if (0 <? length (tasks_of st (Project._id project)))%nat then
              (json 400
                 "Cannot delete project with active tasks. Please complete or reassign tasks first.",
               st)
            else
              (* [project.isActive = false] changes the loaded document only;
                 the next statement is [await projaect.save()], the name
                 [projaect] is bound nowhere and evaluating it throws a
                 ReferenceError, which the catch block answers *)
              (json 500 "Server error while deleting project", st)
        end
    end.

(** * Authentication middleware

    [auth] and [checkCompanyAccess] of [src/backend/middleware/auth.js] and
    the connection middleware of [src/backend/socket/handlers.js], lines 8
    to 23. *)

(** [s.replace(pat, '')]: the first occurrence of [pat] in [s] is removed. *)
Fixpoint remove_first (pat s : string) : string :=
  if String.prefix pat s then String.substring (String.length pat) (String.length s) s
  else match s with
       | EmptyString => EmptyString
       | String c s' => String c (remove_first pat s')
       end.

Inductive AuthResult :=
  | Authenticated (user : User.t)
  | Unauthorized (message : string).

Section Authentication.

(** [jwt.verify(token, secret).id]: the user id a token was signed for, or
    [None] when verification throws or the payload carries no id. *)
Variable verify : string → option ObjId.

(** The looked-up user is admitted when it exists and is active. *)
Definition admit_user (d : Db) (token message : string) : AuthResult :=
  match verify token with
  | None => Unauthorized message
  | Some id =>
      match find_user d id with
      | Some user => if User.isActive user then Authenticated user else Unauthorized message
      | None => Unauthorized message
      end
  end.

(** [auth]: [header] is the Authorization header, [None] when the request
    has none. Every refusal is a 401. *)
Definition auth (header : option string) (d : Db) : AuthResult :=
  match header with
  | None => Unauthorized "No token, authorization denied"
  | Some h =>
      let token := remove_first "Bearer " h in
      if truthy (VStr token) then admit_user d token "Token is not valid"
      else Unauthorized "No token, authorization denied"
  end.

(** The connection middleware of the bridge: [token] is
    [socket.handshake.auth.token]. *)
Definition socket_auth (token : string) (d : Db) : AuthResult :=
  admit_user d token "Authentication error".

End Authentication.

(** The outcome of a gate in a middleware chain. *)
Inductive Gate :=
  | Next
  | Deny (status : nat) (message : string).

(** [a || b] on two optional strings. *)
Definition or_else (a b : option string) : option string :=
  if truthy (str_val a) then a else b.

(** [checkCompanyAccess]: [param] is [req.params.companyId] and [body] is
    [req.body.company], each [None] when absent. *)
Definition checkCompanyAccess (user : User.t) (param body : option string) : Gate :=
  if bool_decide (User.role user = masteradmin) then Next
  else
    let companyId := or_else (or_else param body) (id_str <$> User.company user) in
    if negb (truthy (str_val companyId)) then Deny 400 "Company ID required"
    else if bool_decide (id_str <$> User.company user = companyId) then Next
    else Deny 403 "Access denied to this company".

(** * Projects *)

Definition project_set_chatRoom (room : option string) (p : Project.t) : Project.t :=
  Project.mk (Project._id p) (Project.name p) (Project.company p) (Project.team p)
    (Project.createdBy p) (Project.members p) room (Project.isActive p).

(** The pre-save hook of the Project schema
    ([src/backend/models/Project.js], lines 73 to 78); [now] is
    [Date.now()]. *)
Definition pre_save (now : nat) (p : Project.t) : Project.t :=
  if truthy (str_val (Project.chatRoom p)) then p
  else project_set_chatRoom
         (Some ("project_" +:+ id_str (Project._id p) +:+ "_" +:+ pretty now)) p.

(** ** GET /api/projects and GET /api/projects/:id

    [src/backend/routes/projects.js], lines 116 to 192. The list comes
    sorted by [createdAt] descending, the reverse of the insertion order. *)

Definition projects_index (user : User.t) (d : Db) : Reply (list Project.t) :=
  match User.company user with
  | None => Refusal 400 "User not associated with any company"
  | Some companyId =>
      Answer 200
        (rev (List.filter
                (λ p, id_eqb (Project.company p) companyId
                      && Project.isActive p
                      && (if member_tier (User.role user)
                          then existsb (λ m, id_eqb m (User._id user)) (Project.members p)
                               || existsb (λ t, id_eqb (Project.team p) t) (User.teams user)
                          else true))
                (projects d)))
  end.

Definition project_show (user : User.t) (id : ObjId) (d : Db) : Reply Project.t :=
  match User.company user with
  | None => Refusal 400 "User not associated with any company"
  | Some companyId =>
      match findOne (project_rest_query user id companyId) (projects d) with
      | None => Refusal 404 "Project not found or access denied"
      | Some project => Answer 200 project
      end
  end.

(** ** Predicates for the further routes *)

(** The tasks GET /api/tasks shows to a user, apart from being active:
    all for the top-level administrator, those of the company for an
    administrator, those assigned to the user for everybody else. *)
Definition in_index_scope (user : User.t) (t : Task.t) : Prop :=
  match User.role user with
  | masteradmin => True
  | admin => User.company user = Some (Task.company t)
  | _ => Task.assignedTo t = User._id user
  end.

(** ** Further stores of the scenario *)

Module Scenario2.
(** User 99 was hard-deleted after Bob had sent him a request: the task
    carries a pending request for Carol and a rejected one for user 99. *)
Definition request_to_gone :=
  DelegationRequest.mk 1002 2 99 "first try" DelegationRequest.rejected 6.
Definition task_gone :=
  Task.set_delegationRequests [request_to_gone; Scenario.request1001] Scenario.task20_db2.
Definition db_gone : Db :=
  mkDb [Scenario.alice; Scenario.bob; Scenario.carol; Scenario.dave]
       [Scenario.website; Scenario.billing] [task_gone] [] 1003.

(** Two tasks, each with a pending request for Carol. *)
Definition request2001 :=
  DelegationRequest.mk 2001 1 3 "too much" DelegationRequest.pending 8.
Definition task21 :=
  Task.mk 21 "Invoices" "Send them" 11 100 1 9 Task.todo Task.high 10 [] [request2001] true.
Definition db_two : Db :=
  mkDb [Scenario.alice; Scenario.bob; Scenario.carol; Scenario.dave]
       [Scenario.website; Scenario.billing] [Scenario.task20_db3; task21] [] 3000.

(** Erin administers the company; the Website project lists task 20. *)
Definition erin := User.mk 5 "Erin" admin (Some 100) [] true.
Definition db_admin : Db :=
  mkDb [Scenario.alice; Scenario.bob; Scenario.carol; Scenario.dave; erin]
       [Scenario.website; Scenario.billing] [Scenario.task20_db1] [] 1001.
Definition st_admin : Store := mkStore db_admin {[ 10 := [20] ]}.
Definition new_task : CreateTask.body :=
  CreateTask.mk " Checkout " "Pay by card" (Some 10) (Some 3) None (DateAt 40).
End Scenario2.

(** ** The tasks router as one transition system *)

Inductive TaskOp :=
  | TCreate (user : User.t) (b : CreateTask.body)
  | TDelete (user : User.t) (id : ObjId)
  | TStatus (user : User.t) (id : ObjId) (status : string)
  | TComment (user : User.t) (id : ObjId) (content : string) (now : nat)
  | TUpdate (user : User.t) (id : ObjId) (b : UpdateTask.body)
  | TDelegate (user : User.t) (taskId : ObjId) (body : DelegateBody) (now : nat)
  | TResolve (user : User.t) (requestId : ObjId) (action : string).

Definition with_base (d : Db) (st : Store) : Store := mkStore d (project_tasks st).

Definition task_step (st : Store) (op : TaskOp) : Store :=
  match op with
  | TCreate user b => snd (create_task user b st)
  | TDelete user id => snd (delete_task user id st)
  | TStatus user id status => with_base (snd (task_status user id status (base st))) st
  | TComment user id content now =>
      with_base (snd (task_comment user id content now (base st))) st
  | TUpdate user id b => with_base (snd (task_update user id b (base st))) st
  | TDelegate user taskId body now =>
      with_base (snd (delegate user taskId body now (base st))) st
  | TResolve user requestId action =>
      with_base (snd (resolve user requestId action (base st))) st
  end.

Definition task_run (ops : list TaskOp) (st : Store) : Store := fold_left task_step ops st.

(** Ids are unique and every id in use was handed out by the id source. *)
Definition store_wf (st : Store) : Prop :=
  ids_wf (base st) ∧ Forall (λ i, i < nextId (base st)) (Task._id <$> tasks (base st)).

(** The invariant of the tasks router on the store it works on. *)
Definition tasks_inv (d : Db) : Prop :=
  ids_wf d
  ∧ Forall (λ i, i < nextId d) (Task._id <$> tasks d)
  ∧ one_pending_per_sender d.

(** ** Overlapping delegate calls

    A handler runs until an [await] and is resumed when the awaited
    operation is done; other calls are served in between. The delegate
    handler reads the store in its lookups and writes it in [task.save()];
    from the first lookup on it works on the task document as it was
    loaded. *)

(** A delegate call suspended at [task.save()]: the id of the task document
    it loaded and the request it pushed onto the document. *)
Record Suspended := mkSuspended {
  loaded_task : ObjId;
  pushed : DelegationRequest.t
}.

(** The body of the handler's [try] block up to [task.save()]: the answer,
    when the handler returns before it, and the suspended call otherwise.
    The lookups are served one after the other with no write in between. *)
Definition delegate_begin_try (user : User.t) (taskId toUser : ObjId) (reason : string)
    (now : nat) (db : Db) : Js (Res.t + Suspended) :=
  companyId ← company_id user;
  match findOne (λ t, id_eqb (Task._id t) taskId
                      && id_eqb (Task.assignedTo t) (User._id user)
                      && id_eqb (Task.company t) companyId
                      && Task.isActive t) (tasks db) with
  | None => Ret (inl (json 404 "Task not found or you are not assigned to it"))
  | Some task =>
      project ← match findOne (λ p, id_eqb (Project._id p) (Task.project task)) (projects db) with
                | Some p => Ret p
                | None => Throw (TypeError "Cannot read properties of null (reading 'members')")
                end;
      if negb (existsb (λ member, id_eqb member toUser) (Project.members project)) then
        Ret (inl (json 400 "Target user is not a member of this project"))
      else
        match findOne (λ u, id_eqb (User._id u) toUser
                            && bool_decide (User.company u = Some companyId)
                            && User.isActive u) (users db) with
        | None => Ret (inl (json 400 "Target user not found in your company"))
        | Some _ =>
            existingRequest ← find_js existing_pending (Task.delegationRequests task);
            match existingRequest with
            | Some _ =>
                Ret (inl (json 400 "You already have a pending delegation request for this task"))
            | None =>
                Ret (inr (mkSuspended (Task._id task)
                            (DelegationRequest.mk (nextId db) (User._id user) toUser
                               (trim reason) DelegationRequest.pending now)))
            end
        end
  end.

(** The id of the new request is taken from the id source when the request
    is pushed, before the save. *)
Definition delegate_begin (user : User.t) (taskId : ObjId) (body : DelegateBody)
    (now : nat) (db : Db) : (Res.t + Suspended) * Db :=
  match toUserId body, reason_valid (reason body) with
  | Some toUser, true =>
      match delegate_begin_try user taskId toUser (trim (reason body)) now db with
      | Ret (inr call) => (inr call, bump db)
      | Ret (inl answer) => (inl answer, db)
      | Throw _ => (inl (json 500 "Server error while creating delegation request"), db)
      end
  | _, _ => (inl (json 400 "Validation failed"), db)
  end.

(** [task.save()] of a loaded document whose one change is the [push]: the
    mapper sends the pushed element alone, as a [$push] on the stored
    document with the id, without comparing versions; a document that is no
    longer there makes [save] throw. *)
Definition delegate_complete (call : Suspended) (db : Db) : Res.t * Db :=
  let r :=
    findOneAndUpdate (λ t, id_eqb (Task._id t) (loaded_task call))
      (λ t, Task.set_delegationRequests (Task.delegationRequests t ++ [pushed call]) t)
      (tasks db) in
  match fst r with
  | Some _ => (json 200 "Delegation request sent successfully", with_tasks (snd r) db)
  | None => (json 500 "Server error while creating delegation request", db)
  end.

(** The server with the delegate calls that are suspended at their save. *)
Record Sys := mkSys {
  store : Db;
  suspended : list Suspended
}.

Inductive Event :=
  | Served (op : Op)                      (* a call served from its start to its answer *)
  | Begun (user : User.t) (taskId : ObjId) (body : DelegateBody) (now : nat)
                                          (* a delegate call, up to its save *)
  | Completed (n : nat).                  (* the save of the n-th suspended call *)

Definition sys_step (s : Sys) (e : Event) : Sys :=
  match e with
  | Served op => mkSys (step (store s) op) (suspended s)
  | Begun user taskId body now =>
      match delegate_begin user taskId body now (store s) with
      | (inr call, d) => mkSys d (suspended s ++ [call])
      | (inl _, d) => mkSys d (suspended s)
      end
  | Completed n =>
      match suspended s !! n with
      | Some call => mkSys (snd (delegate_complete call (store s))) (delete n (suspended s))
      | None => s
      end
  end.

Definition sys_run (es : list Event) (s : Sys) : Sys := fold_left sys_step es s.

(** ** The bridge on the id texts of the client

    join-project and send-message receive the project id as text. The
    lookup casts the text to an ObjectId and the stored message carries the
    cast id, but the room is named with the text as it came,
    [`project-${projectId}`]. *)

Record SendText := mkSendText {
  text_projectId : string;
  text_chatRoom : option string;
  text_taskId : option ObjId;
  text_content : option string;
  text_messageType : option string;
  text_file : option File.t;
  text_code : option Code.t
}.

(** The payload with its project id cast. *)
Definition cast_payload (_id : ObjId) (data : SendText) : SendData :=
  mkSendData _id (text_chatRoom data) (text_taskId data) (text_content data)
    (text_messageType data) (text_file data) (text_code data).

Section IdTexts.

(** The cast of an id text to an ObjectId, [None] where the mapper throws a
    [CastError]. The digits of an id are read in either case, so different
    texts can cast to one id. *)
Variable castObjectId : string → option ObjId.

Definition cast_id (path text : string) : Js ObjId :=
  match castObjectId text with
  | Some i => Ret i
  | None => Throw (CastError path)
  end.

Definition join_project_text_try (socket : Socket.t) (projectId : string) (srv : Server)
    : Js (list Out * Server) :=
  companyId ← company_id (Socket.user socket);
  _id ← cast_id "_id" projectId;
  match findOne (project_access_query (Socket.user socket) _id companyId)
                (projects (db srv)) with
  | None => Ret ([ToSocket (Socket.id socket) "error" (ErrorPayload "Project not found")], srv)
  | Some project =>
      let rooms1 := join (Socket.id socket) (project_room projectId) (rooms srv) in
      let rooms2 :=
        match Project.chatRoom project with
        | Some room => if truthy (VStr room) then join (Socket.id socket) room rooms1 else rooms1
        | None => rooms1
        end in
      Ret ([], mkServer (db srv) rooms2)
  end.

Definition join_project_text (socket : Socket.t) (projectId : string) (srv : Server)
    : list Out * Server :=
  match join_project_text_try socket projectId srv with
  | Ret r => r
  | Throw _ => ([ToSocket (Socket.id socket) "error" (ErrorPayload "Error joining project")], srv)
  end.

Definition send_message_text_try (socket : Socket.t) (data : SendText) (srv : Server)
    : Js (list Out * Server) :=
  companyId ← company_id (Socket.user socket);
  _id ← cast_id "_id" (text_projectId data);
  match findOne (project_access_query (Socket.user socket) _id companyId)
                (projects (db srv)) with
  | None => Ret ([ToSocket (Socket.id socket) "error" (ErrorPayload "Project not found")], srv)
  | Some project =>
      (* ChatMessage.create casts [project] as the query cast [_id] *)
      let message :=
        messageData (User._id (Socket.user socket)) (cast_payload _id data)
                    (nextId (db srv)) in
      _ ← validate_message message;
      let db' := bump (with_messages (messages (db srv) ++ [message]) (db srv)) in
      let populatedMessage := populate_sender db' message in
      Ret (ToRoom (project_room (text_projectId data)) "new-message"
             (NewMessage populatedMessage)
           :: match text_chatRoom data with
              | Some room =>
                  if truthy (VStr room)
                  then [ToRoom room "new-message" (NewMessage populatedMessage)]
                  else []
              | None => []
              end,
           mkServer db' (rooms srv))
  end.

Definition send_message_text (socket : Socket.t) (data : SendText) (srv : Server)
    : list Out * Server :=
  match send_message_text_try socket data srv with
  | Ret r => r
  | Throw _ => ([ToSocket (Socket.id socket) "error" (ErrorPayload "Error sending message")], srv)
  end.

(** The socket is admitted by join-project under the text. *)
Definition join_admitted_text (socket : Socket.t) (projectId : string) (srv : Server) : Prop :=
  fst (join_project_text socket projectId srv) = [].

End IdTexts.

Module Scenario3.
(** A cast that reads two texts as the id of the Billing project. *)
Definition cast (text : string) : option ObjId :=
  if String.eqb text "11" then Some 11
  else if String.eqb text "0011" then Some 11
  else if String.eqb text "10" then Some 10
  else None.

Definition hi : SendText := mkSendText "11" None None (Some "hi") None None None.
Definition hi_respelled : SendText := mkSendText "0011" None None (Some "hi") None None None.
Definition hi_chat_room : SendText :=
  mkSendText "11" (Some "project_11_1700000000001") None (Some "hi") None None None.
Definition joined : Server := snd (join_project_text cast Scenario.alice_socket "11" Scenario.srv0).
End Scenario3.

(** * Properties *)

(** Closed statements about the scenario are settled by running the
    handlers. *)
Ltac by_evaluation := repeat split; vm_compute; reflexivity.

(** ** The store *)

Lemma findOne_Some {A} (q : A → bool) (l : list A) (x : A) :
  findOne q l = Some x → x ∈ l ∧ q x = true.
Proof.
  unfold findOne. intros H. apply find_some in H as [Hin Hq].
  split; [by apply list_elem_of_In | done].
Qed.

Lemma find_is_Some {A} (q : A → bool) (l : list A) (x : A) :
  x ∈ l → q x = true → ∃ y, List.find q l = Some y.
Proof.
  intros Hin Hq. destruct (List.find q l) as [y|] eqn:Hfind; [by exists y|].
  apply list_elem_of_In in Hin. pose proof (find_none q l Hfind x Hin). congruence.
Qed.

Lemma findOne_is_Some {A} (q : A → bool) (l : list A) :
  (∃ x, findOne q l = Some x) ↔ ∃ x, x ∈ l ∧ q x = true.
Proof.
  split.
  - intros [x Hx]. exists x. by apply findOne_Some.
  - intros (x & Hin & Hq). by apply (find_is_Some q l x).
Qed.

Lemma id_eqb_eq (a b : ObjId) : id_eqb a b = true ↔ a = b.
Proof. apply Nat.eqb_eq. Qed.

Lemma save_task_elem (t t' : Task.t) (l : list Task.t) :
  t' ∈ save_task t l → t' = t ∨ t' ∈ l.
Proof.
  induction l as [|a l IH]; simpl; [by right|].
  destruct (id_eqb (Task._id a) (Task._id t)).
  - intros [->|H]%elem_of_cons; [by left | right; by right].
  - intros [->|H]%elem_of_cons; [right; by left|].
    destruct (IH H); [by left | right; by right].
Qed.

Lemma not_appended {A} (l : list A) (x : A) : l ≠ l ++ [x].
Proof. intros H%(f_equal length). rewrite length_app in H. simpl in H. lia. Qed.

(** ** White space *)

(** [trim] removes white space of one, two and three bytes from both ends
    (here U+00A0, a space, U+3000 and U+FEFF) and leaves the white space
    inside alone; a text of white space only is emptied, and the validators
    turn it away. *)
Lemma trim_white_space :
  let nbsp := String (Ascii.ascii_of_nat 194) (String (Ascii.ascii_of_nat 160) "") in
  let wide := String (Ascii.ascii_of_nat 227) (String (Ascii.ascii_of_nat 128)
                (String (Ascii.ascii_of_nat 128) "")) in
  let bom := String (Ascii.ascii_of_nat 239) (String (Ascii.ascii_of_nat 187)
               (String (Ascii.ascii_of_nat 191) "")) in
  trim (nbsp +:+ " hi" +:+ nbsp +:+ "there" +:+ wide +:+ " " +:+ bom)
  = "hi" +:+ nbsp +:+ "there"
  ∧ trim (wide +:+ nbsp) = ""
  ∧ comment_valid (wide +:+ nbsp) = false
  ∧ reason_valid (nbsp +:+ "x" +:+ nbsp) = true.
Proof. by_evaluation. Qed.

(** ** The duplicate check of the delegate route *)

(** On a pending request the callback throws; on any other it answers no. *)
Lemma existing_pending_eval (r : DelegationRequest.t) :
  existing_pending r =
    if is_pending r
    then Throw (TypeError "Cannot read properties of undefined (reading 'id')")
    else Ret false.
Proof. unfold existing_pending, is_pending. by case_bool_decide. Qed.

(** The check never finds a request: it comes back empty-handed exactly when
    the task has no pending request at all. *)
Lemma find_existing_Ret (l : list DelegationRequest.t) (o : option DelegationRequest.t) :
  find_js existing_pending l = Ret o →
  o = None ∧ Forall (λ r, is_pending r = false) l.
Proof.
  induction l as [|r l IH]; simpl.
  - intros [= <-]. by split.
  - rewrite existing_pending_eval. destruct (is_pending r) eqn:Hr; [done|].
    intros H. destruct (IH H) as [-> Hall]. split; [done|]. by constructor.
Qed.

Lemma find_existing_Throw (l : list DelegationRequest.t) :
  Exists (λ r, is_pending r = true) l →
  find_js existing_pending l =
    Throw (TypeError "Cannot read properties of undefined (reading 'id')").
Proof.
  induction 1 as [r l Hr | r l _ IH]; simpl; rewrite existing_pending_eval.
  - by rewrite Hr.
  - destruct (is_pending r); [done | apply IH].
Qed.

(** ** What one delegate call does *)

Lemma delegate_cases (user : User.t) (taskId : ObjId) (body : DelegateBody)
    (now : nat) (d : Db) :
  (snd (delegate user taskId body now d) = d
   ∧ Res.status (fst (delegate user taskId body now d)) ≠ 200)
  ∨ ∃ task toUser,
      task ∈ tasks d
      ∧ Task._id task = taskId
      ∧ Task.assignedTo task = User._id user
      ∧ toUserId body = Some toUser
      ∧ Forall (λ r, is_pending r = false) (Task.delegationRequests task)
      ∧ delegate user taskId body now d
        = (json 200 "Delegation request sent successfully",
           delegated user toUser (trim (reason body)) now d task).
Proof.
  unfold delegate, delegate_try.
  destruct (toUserId body) as [toUser|]; [|left; by split].
  destruct (reason_valid (reason body)); [|left; by split].
  destruct (company_id user) as [companyId|e]; simpl; [|left; by split].
  destruct (findOne _ (tasks d)) as [task|] eqn:Htask; [|left; by split].
  apply findOne_Some in Htask as [Hin Hq].
  repeat (apply andb_prop in Hq as [Hq ?]).
  destruct (findOne _ (projects d)) as [project|]; simpl; [|left; by split].
  destruct (existsb _ (Project.members project)); simpl; [|left; by split].
  destruct (findOne _ (users d)); [|left; by split].
  destruct (find_js existing_pending (Task.delegationRequests task)) as [o|e] eqn:Hfind;
    simpl; [|left; by split].
  apply find_existing_Ret in Hfind as [-> Hall].
  right. exists task, toUser. repeat split; try done; by apply id_eqb_eq.
Qed.

Section DelegatePreconditions.

(** A delegate call whose validation passes and whose lookups succeed: the
    caller has a company, the task is active, of that company and assigned to
    the caller, its project exists and lists [toUser] as a member, and
    [toUser] is an active user of the caller's company. *)
Variables (user : User.t) (taskId toUser companyId : ObjId) (rsn : string) (now : nat).
Variables (d : Db) (task : Task.t) (project : Project.t) (target : User.t).

Hypothesis reason_ok : reason_valid rsn = true.
Hypothesis has_company : User.company user = Some companyId.
Hypothesis task_found :
  findOne (λ t, id_eqb (Task._id t) taskId
                && id_eqb (Task.assignedTo t) (User._id user)
                && id_eqb (Task.company t) companyId
                && Task.isActive t) (tasks d) = Some task.
Hypothesis project_found :
  findOne (λ p, id_eqb (Project._id p) (Task.project task)) (projects d) = Some project.
Hypothesis is_member :
  existsb (λ member, id_eqb member toUser) (Project.members project) = true.
Hypothesis target_found :
  findOne (λ u, id_eqb (User._id u) toUser
                && bool_decide (User.company u = Some companyId)
                && User.isActive u) (users d) = Some target.

Lemma delegate_reaches_duplicate_check :
  delegate user taskId (mkDelegateBody (Some toUser) rsn) now d
  = match find_js existing_pending (Task.delegationRequests task) with
    | Ret (Some _) =>
        (json 400 "You already have a pending delegation request for this task", d)
    | Ret None =>
        (json 200 "Delegation request sent successfully",
         delegated user toUser (trim rsn) now d task)
    | Throw _ => (json 500 "Server error while creating delegation request", d)
    end.
Proof.
  unfold delegate, delegate_try, company_id. simpl.
  rewrite reason_ok, has_company. simpl. rewrite task_found, project_found. simpl.
  rewrite is_member. simpl. rewrite target_found.
  by destruct (find_js existing_pending (Task.delegationRequests task)) as [[r|]|e].
Qed.

(** With no pending request on the task, the request is appended as pending
    and only the request list of the task changes. *)
Lemma delegate_appends_pending :
  Forall (λ r, is_pending r = false) (Task.delegationRequests task) →
  delegate user taskId (mkDelegateBody (Some toUser) rsn) now d
  = (json 200 "Delegation request sent successfully",
     delegated user toUser (trim rsn) now d task).
Proof.
  intros Hnone. rewrite delegate_reaches_duplicate_check.
  assert (find_js existing_pending (Task.delegationRequests task) = Ret None) as ->; [|done].
  induction Hnone as [|r l Hr _ IH]; simpl; [done|].
  by rewrite existing_pending_eval, Hr.
Qed.

(** With a pending request on the task, whoever it is from, the route
    answers with its generic 500 and stores nothing. *)
Lemma delegate_pending_server_error :
  Exists (λ r, is_pending r = true) (Task.delegationRequests task) →
  delegate user taskId (mkDelegateBody (Some toUser) rsn) now d
  = (json 500 "Server error while creating delegation request", d).
Proof.
  intros Hpending. rewrite delegate_reaches_duplicate_check.
  by rewrite (find_existing_Throw _ Hpending).
Qed.

End DelegatePreconditions.

(** The descriptive rejection of a duplicate is never the answer. *)
Lemma delegate_never_reports_duplicate (user : User.t) (taskId : ObjId)
    (body : DelegateBody) (now : nat) (d : Db) :
  Res.message (fst (delegate user taskId body now d))
  ≠ "You already have a pending delegation request for this task".
Proof.
  unfold delegate, delegate_try.
  destruct (toUserId body) as [toUser|]; [|done].
  destruct (reason_valid (reason body)); [|done].
  destruct (company_id user) as [companyId|e]; simpl; [|done].
  destruct (findOne _ (tasks d)) as [task|]; [|done].
  destruct (findOne _ (projects d)) as [project|]; simpl; [|done].
  destruct (existsb _ (Project.members project)); simpl; [|done].
  destruct (findOne _ (users d)); [|done].
  destruct (find_js existing_pending (Task.delegationRequests task)) as [o|e] eqn:Hfind;
    simpl; [|done].
  by apply find_existing_Ret in Hfind as [-> _].
Qed.

Lemma scenario_tasks :
  tasks Scenario.db1 = [Scenario.task20_db1]
  ∧ tasks Scenario.db2 = [Scenario.task20_db2]
  ∧ tasks Scenario.db3 = [Scenario.task20_db3].
Proof. by_evaluation. Qed.

(** C2. The assignee Alice has one pending request on her task, to Bob, and
    asks again, this time Carol, who is a member of the task's project and
    of Alice's company. The route answers 500 "Server error while creating
    delegation request", its generic server error, where the claim has the
    descriptive rejection of a duplicate; the request list is unchanged. *)
Theorem delegate_duplicate_is_server_error :
  Task.delegationRequests Scenario.task20_db1 = [Scenario.request1000]
  ∧ Task.assignedTo Scenario.task20_db1 = User._id Scenario.alice
  ∧ DelegationRequest.fromUser Scenario.request1000 = User._id Scenario.alice
  ∧ DelegationRequest.status Scenario.request1000 = DelegationRequest.pending
  ∧ delegate Scenario.alice 20 (mkDelegateBody (Some 3) "still on vacation") 6 Scenario.db1
    = (json 500 "Server error while creating delegation request", Scenario.db1).
Proof. by_evaluation. Qed.

(** ** What one resolve call does *)

Lemma resolve_cases (user : User.t) (requestId : ObjId) (action : string) (d : Db) :
  (snd (resolve user requestId action d) = d
   ∧ Res.status (fst (resolve user requestId action d)) ≠ 200)
  ∨ ∃ task request,
      findOne (resolve_query requestId (User._id user) (Task.company task)) (tasks d)
        = Some task
      ∧ User.company user = Some (Task.company task)
      ∧ requests_id requestId (Task.delegationRequests task) = Some request
      ∧ is_pending request = true
      ∧ action_valid action = true
      ∧ snd (resolve user requestId action d)
        = with_tasks (save_task (resolved user requestId action task) (tasks d)) d
      ∧ Res.status (fst (resolve user requestId action d)) = 200.
Proof.
  unfold resolve, resolve_try.
  destruct (action_valid action) eqn:Hact; [|left; by split].
  unfold company_id. destruct (User.company user) as [companyId|]; simpl; [|left; by split].
  destruct (findOne _ (tasks d)) as [task|] eqn:Htask; [|left; by split].
  destruct (requests_id requestId _) as [request|] eqn:Hreq; [|left; by split].
  fold (is_pending request). destruct (is_pending request) eqn:Hpen; simpl; [|left; by split].
  right. exists task, request.
  assert (Task.company task = companyId) as Hc.
  { apply findOne_Some in Htask as [_ Hq]. unfold resolve_query in Hq.
    repeat (apply andb_prop in Hq as [Hq ?]). by apply id_eqb_eq. }
  subst companyId. repeat split; done.
Qed.

Lemma requests_id_Some (requestId : ObjId) (l : list DelegationRequest.t)
    (r : DelegationRequest.t) :
  requests_id requestId l = Some r → r ∈ l ∧ DelegationRequest._id r = requestId.
Proof.
  unfold requests_id. intros [Hin Hq]%find_some.
  split; [by apply list_elem_of_In | by apply id_eqb_eq].
Qed.

(** Exactly the request that [id(requestId)] returns is rewritten; the
    requests before and after it stay as they are. *)
Lemma set_request_status_split (requestId : ObjId) (s : DelegationRequest.Status)
    (l : list DelegationRequest.t) (request : DelegationRequest.t) :
  requests_id requestId l = Some request →
  ∃ l1 l2, l = l1 ++ request :: l2
           ∧ set_request_status requestId s l
             = l1 ++ DelegationRequest.set_status s request :: l2.
Proof.
  unfold requests_id. induction l as [|r l IH]; simpl; [done|].
  destruct (id_eqb (DelegationRequest._id r) requestId).
  - intros [= ->]. by exists [], l.
  - intros H. destruct (IH H) as (l1 & l2 & -> & ->). by exists (r :: l1), l2.
Qed.

(** An accept sets the assignee to the caller and rewrites the one request;
    every other field of the task is kept. *)
Lemma resolved_accept (user : User.t) (requestId : ObjId) (task : Task.t) :
  resolved user requestId "accept" task
  = Task.mk (Task._id task) (Task.title task) (Task.description task)
      (Task.project task) (Task.company task) (User._id user) (Task.createdBy task)
      (Task.status task) (Task.priority task) (Task.deadline task) (Task.comments task)
      (set_request_status requestId DelegationRequest.accepted (Task.delegationRequests task))
      (Task.isActive task).
Proof. done. Qed.

(** A reject rewrites the one request and keeps the assignee. *)
Lemma resolved_reject (user : User.t) (requestId : ObjId) (task : Task.t) :
  resolved user requestId "reject" task
  = Task.set_delegationRequests
      (set_request_status requestId DelegationRequest.rejected (Task.delegationRequests task))
      task.
Proof. done. Qed.

(** When the caller of an accept is the addressee of the request, the new
    assignee is the request's [toUser]. *)
Lemma resolved_accept_by_addressee (user : User.t) (requestId : ObjId) (task : Task.t)
    (request : DelegationRequest.t) :
  DelegationRequest.toUser request = User._id user →
  Task.assignedTo (resolved user requestId "accept" task)
  = DelegationRequest.toUser request.
Proof. intros ->. done. Qed.

(** Requests that are no longer pending are out of reach of a resolve call. *)
Lemma resolved_keeps_non_pending (user : User.t) (requestId : ObjId) (action : string)
    (task : Task.t) (request r : DelegationRequest.t) :
  requests_id requestId (Task.delegationRequests task) = Some request →
  is_pending request = true →
  r ∈ Task.delegationRequests task →
  is_pending r = false →
  r ∈ Task.delegationRequests (resolved user requestId action task).
Proof.
  intros Hreq Hpen Hr Hnp.
  assert (∀ s, r ∈ set_request_status requestId s (Task.delegationRequests task)) as H.
  { intros s. destruct (set_request_status_split requestId s _ _ Hreq) as (l1 & l2 & Hl & ->).
    rewrite Hl in Hr. apply elem_of_app in Hr as [Hr | [-> | Hr]%elem_of_cons].
    - apply elem_of_app. by left.
    - congruence.
    - apply elem_of_app. right. by right. }
  unfold resolved. destruct (String.eqb action "accept"); simpl; apply H.
Qed.

(** A caller to whom no request of the store is addressed cannot resolve
    anything. *)
Lemma resolve_by_stranger_fails (user : User.t) (requestId : ObjId) (action : string)
    (d : Db) :
  (∀ t r, t ∈ tasks d → r ∈ Task.delegationRequests t →
          DelegationRequest.toUser r ≠ User._id user) →
  snd (resolve user requestId action d) = d
  ∧ Res.status (fst (resolve user requestId action d)) ≠ 200.
Proof.
  intros Hnone.
  destruct (resolve_cases user requestId action d)
    as [H | (task & request & [Htask Hq]%findOne_Some & _)]; [done|].
  exfalso. unfold resolve_query in Hq. repeat (apply andb_prop in Hq as [Hq ?]).
  match goal with H : existsb _ _ = true |- _ =>
    apply existsb_exists in H as (r & Hr & Hto) end.
  apply (Hnone task r); [done | by apply list_elem_of_In | by apply id_eqb_eq].
Qed.

(** C3. Bob delegated the task to Carol: request 1001 is pending and its
    [toUser] is Carol. Bob, who is the addressee of an older, settled request
    on the same task, resolves request 1001 himself: the call succeeds and the
    request is stored as rejected, although the caller is not its [toUser]. *)
Theorem resolve_by_other_user_succeeds :
  tasks Scenario.db3 = [Scenario.task20_db3]
  ∧ requests_id 1001 (Task.delegationRequests Scenario.task20_db3) = Some Scenario.request1001
  ∧ DelegationRequest.toUser Scenario.request1001 = User._id Scenario.carol
  ∧ User._id Scenario.bob ≠ DelegationRequest.toUser Scenario.request1001
  ∧ fst (resolve Scenario.bob 1001 "reject" Scenario.db3)
    = Res.mk 200 "Request rejected successfully" None
  ∧ tasks (snd (resolve Scenario.bob 1001 "reject" Scenario.db3))
    = [Task.set_delegationRequests
         [Scenario.request1000_accepted;
          DelegationRequest.set_status DelegationRequest.rejected Scenario.request1001]
         Scenario.task20_db3].
Proof. repeat split; try (vm_compute; reflexivity). vm_compute. discriminate. Qed.

(** C4. On the same store Bob accepts request 1001, which is pending and
    addressed to Carol. The accept goes through and the request is stored as
    accepted, but the task's assignee afterwards is Bob, the caller, and not
    Carol, the request's [toUser]. *)
Theorem accept_assigns_caller_not_toUser :
  requests_id 1001 (Task.delegationRequests Scenario.task20_db3) = Some Scenario.request1001
  ∧ DelegationRequest.status Scenario.request1001 = DelegationRequest.pending
  ∧ DelegationRequest.toUser Scenario.request1001 = 3
  ∧ Res.status (fst (resolve Scenario.bob 1001 "accept" Scenario.db3)) = 200
  ∧ tasks (snd (resolve Scenario.bob 1001 "accept" Scenario.db3))
    = [Task.set_assignedTo 2
         (Task.set_delegationRequests
            [Scenario.request1000_accepted;
             DelegationRequest.set_status DelegationRequest.accepted Scenario.request1001]
            Scenario.task20_db3)].
Proof. by_evaluation. Qed.

(** ** At most one pending request per task and requesting user *)

Lemma pending_from_none (u : ObjId) (l : list DelegationRequest.t) :
  Forall (λ r, is_pending r = false) l →
  List.filter (λ r, is_pending r && id_eqb (DelegationRequest.fromUser r) u) l = [].
Proof.
  induction 1 as [|r l Hr _ IH]; simpl; [done|]. by rewrite Hr.
Qed.

Lemma pending_from_resolved (u requestId : ObjId) (s : DelegationRequest.Status)
    (l : list DelegationRequest.t) :
  s ≠ DelegationRequest.pending →
  length (List.filter (λ r, is_pending r && id_eqb (DelegationRequest.fromUser r) u)
                      (set_request_status requestId s l))
  ≤ length (List.filter (λ r, is_pending r && id_eqb (DelegationRequest.fromUser r) u) l).
Proof.
  intros Hs. induction l as [|r l IH]; simpl; [done|].
  destruct (id_eqb (DelegationRequest._id r) requestId); simpl.
  - unfold is_pending at 1. simpl. rewrite bool_decide_eq_false_2 by done. simpl.
    destruct (is_pending r && _); simpl; lia.
  - destruct (is_pending r && _); simpl; lia.
Qed.

Lemma resolved_pending_from (user : User.t) (requestId u : ObjId) (action : string)
    (task : Task.t) :
  length (pending_from u (resolved user requestId action task))
  ≤ length (pending_from u task).
Proof.
  unfold resolved, pending_from.
  destruct (String.eqb action "accept"); simpl; by apply pending_from_resolved.
Qed.

Lemma delegate_preserves (user : User.t) (taskId : ObjId) (body : DelegateBody)
    (now : nat) (d : Db) :
  one_pending_per_sender d →
  one_pending_per_sender (snd (delegate user taskId body now d)).
Proof.
  intros Hinv.
  destruct (delegate_cases user taskId body now d)
    as [[-> _] | (task & toUser & Hin & _ & _ & _ & Hnone & ->)]; [done|].
  intros t u [-> | Ht]%save_task_elem; [|by apply Hinv].
  unfold pending_from. simpl. rewrite List.filter_app, length_app.
  rewrite pending_from_none by done. simpl.
  destruct (id_eqb (User._id user) u); simpl; lia.
Qed.

Lemma resolve_preserves (user : User.t) (requestId : ObjId) (action : string) (d : Db) :
  one_pending_per_sender d →
  one_pending_per_sender (snd (resolve user requestId action d)).
Proof.
  intros Hinv.
  destruct (resolve_cases user requestId action d)
    as [[-> _] | (task & request & Htask & _ & _ & _ & _ & -> & _)]; [done|].
  apply findOne_Some in Htask as [Hin _].
  intros t u [-> | Ht]%save_task_elem; [|by apply Hinv].
  etrans; [apply resolved_pending_from | by apply Hinv].
Qed.

Lemma step_preserves (d : Db) (op : Op) :
  one_pending_per_sender d → one_pending_per_sender (step d op).
Proof.
  destruct op; simpl; [apply delegate_preserves | apply resolve_preserves].
Qed.

(** C5 (as amended). Invariant of the delegation workflow under calls that
    are served one after the other: whatever sequence of create, accept and
    reject calls is served, each from its start to its answer, by whichever
    callers and with whichever arguments, a store in which every task has at
    most one pending delegation request per requesting user is taken to a
    store with the same property. Every single operation preserves it (a
    sequence of length one), and so it holds in every state such a sequence
    reaches from a store whose tasks carry no requests yet. *)
Theorem one_pending_per_sender_invariant (ops : list Op) (d : Db) :
  one_pending_per_sender d → one_pending_per_sender (run ops d).
Proof.
  revert d. induction ops as [|op ops IH]; intros d Hinv; simpl; [done|].
  apply IH. by apply step_preserves.
Qed.

(** A store whose tasks have no delegation requests yet, as the task-creation
    route leaves them, satisfies the invariant. *)
Lemma one_pending_per_sender_initial (d : Db) :
  Forall (λ t, Task.delegationRequests t = []) (tasks d) → one_pending_per_sender d.
Proof.
  intros Hall t u Ht. rewrite Forall_forall in Hall.
  unfold pending_from. rewrite (Hall t Ht). simpl. lia.
Qed.

Lemma one_pending_per_sender_invariant_witness :
  one_pending_per_sender Scenario.db0
  ∧ one_pending_per_sender
      (run [OpDelegate Scenario.alice 20 (mkDelegateBody (Some 2) "vacation") 5;
            OpDelegate Scenario.alice 20 (mkDelegateBody (Some 3) "again") 6;
            OpResolve Scenario.bob 1000 "accept";
            OpDelegate Scenario.bob 20 (mkDelegateBody (Some 3) "busy") 7;
            OpResolve Scenario.carol 1001 "reject"]
           Scenario.db0).
Proof.
  assert (one_pending_per_sender Scenario.db0) as H0.
  { apply one_pending_per_sender_initial. repeat constructor. }
  split; [exact H0 | apply (one_pending_per_sender_invariant _ _ H0)].
Defined.

(** ** Overlapping calls *)

(** On a store with unique task ids the [$push] of the save and the
    replacement of the loaded document write the same. *)
Lemma findOneAndUpdate_save_task (f : Task.t → Task.t) (task : Task.t)
    (l : list Task.t) :
  NoDup (Task._id <$> l) →
  task ∈ l →
  Task._id (f task) = Task._id task →
  findOneAndUpdate (λ t, id_eqb (Task._id t) (Task._id task)) f l
  = (Some (f task), save_task (f task) l).
Proof.
  intros Hnd Hin Hid. induction l as [|a l IH]; [by apply elem_of_nil in Hin|].
  simpl in *. apply NoDup_cons in Hnd as [Ha Hl]. rewrite Hid.
  destruct (id_eqb (Task._id a) (Task._id task)) eqn:Heq.
  - apply id_eqb_eq in Heq. apply elem_of_cons in Hin as [-> | Hin]; [done|].
    exfalso. apply Ha. rewrite Heq. by apply list_elem_of_fmap_2.
  - apply elem_of_cons in Hin as [-> | Hin].
    + unfold id_eqb in Heq. by rewrite Nat.eqb_refl in Heq.
    + by rewrite (IH Hl Hin).
Qed.

(** A delegate call that is resumed as soon as it is suspended at its save
    is the call served in one piece. *)
Lemma delegate_begin_complete (user : User.t) (taskId : ObjId) (body : DelegateBody)
    (now : nat) (d : Db) :
  NoDup (Task._id <$> tasks d) →
  delegate user taskId body now d
  = match delegate_begin user taskId body now d with
    | (inl answer, d') => (answer, d')
    | (inr call, d') => delegate_complete call d'
    end.
Proof.
  intros Hnd. unfold delegate, delegate_begin.
  destruct (toUserId body) as [toUser|]; [|done].
  destruct (reason_valid (reason body)); [|done].
  unfold delegate_try, delegate_begin_try, company_id.
  destruct (User.company user) as [companyId|]; simpl; [|done].
  destruct (findOne _ (tasks d)) as [task|] eqn:Htask; [|done].
  apply findOne_Some in Htask as [Hin _].
  destruct (findOne _ (projects d)) as [project|]; simpl; [|done].
  destruct (existsb _ (Project.members project)); simpl; [|done].
  destruct (findOne _ (users d)) as [target|]; [|done].
  destruct (find_js existing_pending (Task.delegationRequests task)) as [[x|]|e];
    simpl; try done.
  unfold delegate_complete. cbn [tasks bump loaded_task pushed].
  rewrite (findOneAndUpdate_save_task
             (λ t, Task.set_delegationRequests (Task.delegationRequests t ++ [_]) t)
             task (tasks d) Hnd Hin eq_refl).
  done.
Qed.

(** Calls served one after the other are the runs of the workflow. *)
Lemma sys_run_served (ops : list Op) (d : Db) (calls : list Suspended) :
  sys_run (Served <$> ops) (mkSys d calls) = mkSys (run ops d) calls.
Proof.
  revert d. induction ops as [|op ops IH]; intros d; [done|]. simpl. apply IH.
Qed.

(** Two delegate calls of Alice on her task overlap: both load the task
    before either saves. Both pass the check for a pending request, both
    saves go through, and the task carries two pending requests of Alice;
    no call is left suspended. The store the calls started from had no
    request at all. *)
Lemma overlapping_delegates_leave_two_pending :
  one_pending_per_sender Scenario.db0
  ∧ suspended
      (sys_run [Begun Scenario.alice 20 (mkDelegateBody (Some 2) "vacation") 5;
                Begun Scenario.alice 20 (mkDelegateBody (Some 3) "still away") 6;
                Completed 0; Completed 0]
         (mkSys Scenario.db0 [])) = []
  ∧ Task.delegationRequests
      <$> tasks (store
            (sys_run [Begun Scenario.alice 20 (mkDelegateBody (Some 2) "vacation") 5;
                      Begun Scenario.alice 20 (mkDelegateBody (Some 3) "still away") 6;
                      Completed 0; Completed 0]
               (mkSys Scenario.db0 [])))
    = [[DelegationRequest.mk 1000 1 2 "vacation" DelegationRequest.pending 5;
        DelegationRequest.mk 1001 1 3 "still away" DelegationRequest.pending 6]]
  ∧ ¬ one_pending_per_sender
        (store
           (sys_run [Begun Scenario.alice 20 (mkDelegateBody (Some 2) "vacation") 5;
                     Begun Scenario.alice 20 (mkDelegateBody (Some 3) "still away") 6;
                     Completed 0; Completed 0]
              (mkSys Scenario.db0 []))).
Proof.
  split; [apply one_pending_per_sender_initial; repeat constructor|].
  split; [vm_compute; reflexivity|]. split; [vm_compute; reflexivity|].
  intros H.
  pose (t := Task.set_delegationRequests
               [DelegationRequest.mk 1000 1 2 "vacation" DelegationRequest.pending 5;
                DelegationRequest.mk 1001 1 3 "still away" DelegationRequest.pending 6]
               Scenario.task20).
  specialize (H t 1). vm_compute in H.
  assert (2 ≤ 1) as Hle; [|lia].
  apply H. apply list_elem_of_here.
Qed.

(** ** Request ids name one request, in every store the workflow reaches *)

Lemma request_ids_cons (a : Task.t) (l : list Task.t) :
  request_ids (a :: l)
  = (DelegationRequest._id <$> Task.delegationRequests a) ++ request_ids l.
Proof. done. Qed.

Lemma request_ids_app (l1 l2 : list Task.t) :
  request_ids (l1 ++ l2) = request_ids l1 ++ request_ids l2.
Proof. unfold request_ids. apply bind_app. Qed.

Lemma request_ids_elem (l : list Task.t) (t : Task.t) (r : DelegationRequest.t) :
  t ∈ l → r ∈ Task.delegationRequests t → DelegationRequest._id r ∈ request_ids l.
Proof.
  intros Ht Hr. unfold request_ids. apply list_elem_of_bind.
  exists t. split; [|done]. apply list_elem_of_fmap. by exists r.
Qed.

Lemma NoDup_fmap_eq {A B} (f : A → B) (l : list A) (x y : A) :
  NoDup (f <$> l) → x ∈ l → y ∈ l → f x = f y → x = y.
Proof.
  induction l as [|a l IH]; simpl; [by intros _ ?%elem_of_nil|].
  intros [Ha Hl]%NoDup_cons [->|Hx]%elem_of_cons [->|Hy]%elem_of_cons Hf; try done.
  - exfalso. apply Ha. rewrite Hf. apply list_elem_of_fmap. by exists y.
  - exfalso. apply Ha. rewrite <- Hf. apply list_elem_of_fmap. by exists x.
  - by apply IH.
Qed.

Lemma request_ids_unique (l : list Task.t) (t1 t2 : Task.t)
    (r1 r2 : DelegationRequest.t) :
  NoDup (request_ids l) →
  t1 ∈ l → t2 ∈ l →
  r1 ∈ Task.delegationRequests t1 → r2 ∈ Task.delegationRequests t2 →
  DelegationRequest._id r1 = DelegationRequest._id r2 →
  r1 = r2.
Proof.
  induction l as [|a l IH]; [by intros _ ?%elem_of_nil|].
  rewrite request_ids_cons. intros (Ha & Hdisj & Hl)%NoDup_app.
  intros [->|H1]%elem_of_cons [->|H2]%elem_of_cons Hr1 Hr2 Hid.
  - by apply (NoDup_fmap_eq DelegationRequest._id (Task.delegationRequests a)).
  - exfalso. apply (Hdisj (DelegationRequest._id r1)).
    + apply list_elem_of_fmap. by exists r1.
    + rewrite Hid. by apply (request_ids_elem l t2).
  - exfalso. apply (Hdisj (DelegationRequest._id r2)).
    + apply list_elem_of_fmap. by exists r2.
    + rewrite <- Hid. by apply (request_ids_elem l t1).
  - by apply IH.
Qed.

Lemma save_task_split (t' task : Task.t) (l : list Task.t) :
  NoDup (Task._id <$> l) →
  task ∈ l →
  Task._id t' = Task._id task →
  ∃ l1 l2, l = l1 ++ task :: l2 ∧ save_task t' l = l1 ++ t' :: l2.
Proof.
  intros Hnd Hin Hid. induction l as [|a l IH]; [by apply elem_of_nil in Hin|].
  simpl in *. apply NoDup_cons in Hnd as [Ha Hl].
  destruct (id_eqb (Task._id a) (Task._id t')) eqn:Heq.
  - apply id_eqb_eq in Heq. apply elem_of_cons in Hin as [-> | Hin].
    + by exists [], l.
    + exfalso. apply Ha. rewrite Heq, Hid. by apply list_elem_of_fmap_2.
  - apply elem_of_cons in Hin as [-> | Hin].
    + apply Nat.eqb_neq in Heq. done.
    + destruct (IH Hl Hin) as (l1 & l2 & -> & Hs). exists (a :: l1), l2.
      split; [done|]. simpl. by rewrite Hs.
Qed.

Lemma set_request_status_ids (requestId : ObjId) (s : DelegationRequest.Status)
    (l : list DelegationRequest.t) :
  DelegationRequest._id <$> set_request_status requestId s l = DelegationRequest._id <$> l.
Proof.
  induction l as [|r l IH]; simpl; [done|].
  destruct (id_eqb (DelegationRequest._id r) requestId); simpl; [done | by f_equal].
Qed.

Lemma delegate_ids_wf (user : User.t) (taskId : ObjId) (body : DelegateBody)
    (now : nat) (d : Db) :
  ids_wf d → ids_wf (snd (delegate user taskId body now d)).
Proof.
  intros (Ht & Hr & Hlt).
  destruct (delegate_cases user taskId body now d)
    as [[-> _] | (task & toUser & Hin & _ & _ & _ & _ & ->)]; [done|].
  unfold delegated, ids_wf. simpl.
  destruct (save_task_split
              (Task.set_delegationRequests
                 (Task.delegationRequests task
                  ++ [DelegationRequest.mk (nextId d) (User._id user) toUser
                        (trim (trim (reason body))) DelegationRequest.pending now])
                 task)
              task (tasks d) Ht Hin eq_refl) as (l1 & l2 & Hl & ->).
  rewrite Hl in Ht, Hr, Hlt.
  rewrite request_ids_app, request_ids_cons in Hr, Hlt.
  rewrite request_ids_app, request_ids_cons. simpl. rewrite fmap_app. simpl.
  rewrite fmap_app in Ht. rewrite fmap_app. simpl in *.
  assert (request_ids l1
          ++ ((DelegationRequest._id <$> Task.delegationRequests task) ++ [nextId d])
          ++ request_ids l2
          ≡ₚ nextId d :: request_ids l1
             ++ (DelegationRequest._id <$> Task.delegationRequests task)
             ++ request_ids l2) as Hperm.
  { rewrite <- (assoc_L (++)). simpl. rewrite !Permutation_middle. done. }
  split; [done|]. rewrite Hperm. split.
  - apply NoDup_cons. split; [|done].
    intros Hn. rewrite Forall_forall in Hlt. specialize (Hlt _ Hn). lia.
  - constructor; [lia|]. eapply Forall_impl; [exact Hlt|]. simpl. lia.
Qed.

Lemma resolve_ids_wf (user : User.t) (requestId : ObjId) (action : string) (d : Db) :
  ids_wf d → ids_wf (snd (resolve user requestId action d)).
Proof.
  intros (Ht & Hr & Hlt).
  destruct (resolve_cases user requestId action d)
    as [[-> _] | (task & request & [Hin _]%findOne_Some & _ & _ & _ & _ & -> & _)]; [done|].
  assert (Task._id (resolved user requestId action task) = Task._id task) as Hid.
  { unfold resolved. by destruct (String.eqb action "accept"). }
  assert (DelegationRequest._id <$> Task.delegationRequests (resolved user requestId action task)
          = DelegationRequest._id <$> Task.delegationRequests task) as Hids.
  { unfold resolved. destruct (String.eqb action "accept"); simpl;
      apply set_request_status_ids. }
  destruct (save_task_split _ task (tasks d) Ht Hin Hid) as (l1 & l2 & Hl & Hs).
  unfold ids_wf. simpl. rewrite Hs.
  rewrite Hl in Ht, Hr, Hlt.
  rewrite request_ids_app, request_ids_cons in Hr, Hlt.
  rewrite request_ids_app, request_ids_cons, Hids.
  rewrite fmap_app in Ht. rewrite fmap_app. simpl in *. by rewrite Hid.
Qed.

(** Every store the workflow reaches from one with unique ids has unique
    ids. *)
Lemma run_ids_wf (ops : list Op) (d : Db) : ids_wf d → ids_wf (run ops d).
Proof.
  revert d. induction ops as [|op ops IH]; intros d Hwf; simpl; [done|].
  apply IH. destruct op; simpl; [by apply delegate_ids_wf | by apply resolve_ids_wf].
Qed.

(** ** Resolving a request that was already resolved *)

(** C9 (as amended). In a store whose request ids are unique, as ObjectIds
    are, a resolve call on a delegation request that is no longer pending
    fails and changes nothing, whoever calls and with whatever action: the
    store after the call is the store before it (the task, its assignee and
    each of its requests included) and the answer is not a success. Whenever
    the call passes validation and the caller is the addressee of the
    request, on an active task of the caller's company, the answer is the
    400 "Request has already been processed". *)
Theorem resolve_non_pending_fails (user : User.t) (requestId : ObjId)
    (action : string) (d : Db) (t : Task.t) (r : DelegationRequest.t) :
  NoDup (request_ids (tasks d)) →
  t ∈ tasks d →
  r ∈ Task.delegationRequests t →
  DelegationRequest._id r = requestId →
  DelegationRequest.status r ≠ DelegationRequest.pending →
  snd (resolve user requestId action d) = d
  ∧ Res.status (fst (resolve user requestId action d)) ≠ 200
  ∧ (action_valid action = true →
     User.company user = Some (Task.company t) →
     Task.isActive t = true →
     DelegationRequest.toUser r = User._id user →
     fst (resolve user requestId action d) = json 400 "Request has already been processed").
Proof.
  intros Hnd Ht Hr Hid Hst.
  assert (∀ task request,
            task ∈ tasks d →
            requests_id requestId (Task.delegationRequests task) = Some request →
            is_pending request = false) as Hdone.
  { intros task request Htask [Hin Hrid]%requests_id_Some.
    assert (request = r) as ->.
    { apply (request_ids_unique (tasks d) task t); try done. congruence. }
    unfold is_pending. by apply bool_decide_eq_false_2. }
  split; [|split].
  - destruct (resolve_cases user requestId action d)
      as [[H _] | (task & request & [Htask _]%findOne_Some & _ & Hreq & Hpen & _)]; [done|].
    rewrite (Hdone task request Htask Hreq) in Hpen. done.
  - destruct (resolve_cases user requestId action d)
      as [[_ H] | (task & request & [Htask _]%findOne_Some & _ & Hreq & Hpen & _)]; [done|].
    rewrite (Hdone task request Htask Hreq) in Hpen. done.
  - intros Hact Hcomp Hactive Hto.
    unfold resolve, resolve_try, company_id. rewrite Hact, Hcomp. simpl.
    assert (resolve_query requestId (User._id user) (Task.company t) t = true) as Hq.
    { unfold resolve_query. rewrite Hactive.
      assert (id_eqb (Task.company t) (Task.company t) = true) as -> by by apply id_eqb_eq.
      rewrite !andb_true_r. apply andb_true_intro. split; apply existsb_exists; exists r.
      - split; [by apply list_elem_of_In | by apply id_eqb_eq].
      - split; [by apply list_elem_of_In | by apply id_eqb_eq]. }
    destruct (find_is_Some _ _ _ Ht Hq) as [task Hfind]. unfold findOne. rewrite Hfind.
    pose proof (findOne_Some _ _ _ Hfind) as [Htask Hqt].
    assert (∃ request, requests_id requestId (Task.delegationRequests task) = Some request)
      as [request Hreq].
    { unfold resolve_query in Hqt. repeat (apply andb_prop in Hqt as [Hqt ?]).
      apply existsb_exists in Hqt as (r0 & Hr0 & Hr0id).
      apply (find_is_Some _ _ r0); [by apply list_elem_of_In | done]. }
    rewrite Hreq. fold (is_pending request). by rewrite (Hdone task request Htask Hreq).
Qed.

Lemma resolve_non_pending_fails_witness :
  DelegationRequest.status Scenario.request1000_accepted = DelegationRequest.accepted
  ∧ snd (resolve Scenario.bob 1000 "accept" Scenario.db2) = Scenario.db2
  ∧ fst (resolve Scenario.bob 1000 "accept" Scenario.db2)
    = json 400 "Request has already been processed".
Proof.
  assert (NoDup (request_ids (tasks Scenario.db2))) as Hnd.
  { apply (bool_decide_unpack _). vm_compute. reflexivity. }
  assert (Scenario.task20_db2 ∈ tasks Scenario.db2) as Ht.
  { vm_compute. apply list_elem_of_here. }
  assert (Scenario.request1000_accepted ∈ Task.delegationRequests Scenario.task20_db2) as Hr.
  { vm_compute. apply list_elem_of_here. }
  destruct (resolve_non_pending_fails Scenario.bob 1000 "accept" Scenario.db2
              Scenario.task20_db2 Scenario.request1000_accepted
              Hnd Ht Hr eq_refl ltac:(discriminate)) as (Hsame & _ & Hmsg).
  split; [reflexivity|]. split; [exact Hsame|].
  apply Hmsg; reflexivity.
Defined.

(** C9, the claim as stated fails: request 1000 is settled (accepted) and
    Carol, to whom no request on the task is addressed, sends a resolve call
    for it. The call fails and changes nothing, but with the 404 "Delegation
    request not found" of the task lookup, which comes before the status
    check, and not with the already-processed error. *)
Lemma resolve_non_pending_by_stranger_is_not_found :
  tasks Scenario.db2 = [Scenario.task20_db2]
  ∧ requests_id 1000 (Task.delegationRequests Scenario.task20_db2)
    = Some Scenario.request1000_accepted
  ∧ DelegationRequest.status Scenario.request1000_accepted = DelegationRequest.accepted
  ∧ resolve Scenario.carol 1000 "accept" Scenario.db2
    = (json 404 "Delegation request not found", Scenario.db2).
Proof. by_evaluation. Qed.

(** ** Access to a project: the realtime path and the REST path *)

(** join-project admits the socket exactly when the user has a company and a
    project with the id is in that company and, for a member-tier role, lists
    the user as a member or belongs to one of the user's teams. *)
Lemma join_admitted_iff (socket : Socket.t) (pid : ObjId) (srv : Server) :
  join_admitted socket pid srv ↔
  ∃ c p, User.company (Socket.user socket) = Some c
         ∧ p ∈ projects (db srv)
         ∧ project_access_query (Socket.user socket) pid c p = true.
Proof.
  unfold join_admitted, join_project, join_project_try, company_id.
  destruct (User.company (Socket.user socket)) as [c|]; simpl.
  - destruct (findOne _ (projects (db srv))) as [p|] eqn:Hfind; simpl.
    + split; [|done]. intros _. exists c, p. split; [done|]. by apply findOne_Some.
    + split; [done|]. intros (c' & p & [= <-] & Hin & Hq).
      destruct (find_is_Some _ _ p Hin Hq) as [y Hy]. unfold findOne in Hfind. congruence.
  - split; [done|]. by intros (c & p & ? & _).
Qed.

(** The chat-history route serves the user exactly when the user has a
    company and a project with the id is in that company. *)
Lemma history_served_iff (user : User.t) (pid : ObjId) (d : Db) :
  history_served user pid d ↔
  ∃ c p, User.company user = Some c
         ∧ p ∈ projects d
         ∧ Project._id p = pid
         ∧ Project.company p = c.
Proof.
  unfold history_served, chat_history, chat_history_try, company_id.
  destruct (User.company user) as [c|]; simpl.
  - destruct (findOne _ (projects d)) as [p|] eqn:Hfind; simpl.
    + split; [|by eexists]. intros _. exists c, p.
      apply findOne_Some in Hfind as [Hin [H1 H2]%andb_prop].
      repeat split; try done; by apply id_eqb_eq.
    + split; [by intros [l ?]|]. intros (c' & p & [= <-] & Hin & Hid & Hc).
      apply list_elem_of_In in Hin.
      pose proof (find_none _ _ Hfind p Hin) as Hq. simpl in Hq.
      apply andb_false_iff in Hq as [Hq|Hq]; apply Nat.eqb_neq in Hq; done.
  - split; [by intros [l ?]|]. by intros (c & p & ? & _).
Qed.

(** Whoever may join a project's room is served its history. *)
Lemma join_admitted_history_served (socket : Socket.t) (pid : ObjId) (srv : Server) :
  join_admitted socket pid srv → history_served (Socket.user socket) pid (db srv).
Proof.
  rewrite join_admitted_iff, history_served_iff.
  intros (c & p & Hc & Hin & Hq). exists c, p.
  unfold project_access_query in Hq. repeat (apply andb_prop in Hq as [Hq ?]).
  repeat split; try done; by apply id_eqb_eq.
Qed.

(** C1. Dave is an employee of the company that owns the Billing project; he
    is not among its members and his team is not its team. Over the realtime
    channel join-project answers him with the error event and leaves the
    rooms as they are; over REST, GET /chat/:projectId returns him the
    project's messages. The REST route looks the project up by id and
    company alone, without the membership and team condition that the
    realtime handlers add for member-tier roles. *)
Theorem history_served_where_join_denied :
  member_tier (User.role Scenario.dave) = true
  ∧ member_or_team Scenario.dave Scenario.billing = false
  ∧ join_project Scenario.dave_socket 11 Scenario.srv0
    = ([ToSocket 7 "error" (ErrorPayload "Project not found")], Scenario.srv0)
  ∧ chat_history Scenario.dave 11 None (db Scenario.srv0)
    = ChatJson [(Scenario.hello, Some Scenario.alice)].
Proof. by_evaluation. Qed.

(** ** What send-message stores *)

(** The [required] function of [content] never asks for it. *)
Lemma content_never_required (m : ChatMessage.t) : content_required m = false.
Proof. done. Qed.

(** Either the handler emits one error event to the sender and changes
    nothing, or it stores the message it built and broadcasts it. *)
Lemma send_message_cases (socket : Socket.t) (data : SendData) (srv : Server) :
  (∃ text, send_message socket data srv
           = ([ToSocket (Socket.id socket) "error" (ErrorPayload text)], srv))
  ∨ ∃ c p,
      User.company (Socket.user socket) = Some c
      ∧ p ∈ projects (db srv)
      ∧ project_access_query (Socket.user socket) (projectId data) c p = true
      ∧ let message := messageData (User._id (Socket.user socket)) data (nextId (db srv)) in
        let db' := bump (with_messages (messages (db srv) ++ [message]) (db srv)) in
        messageType_valid (ChatMessage.messageType message) = true
        ∧ send_message socket data srv
          = (ToRoom (project_room (id_str (projectId data))) "new-message"
               (NewMessage (populate_sender db' message))
             :: match chatRoom data with
                | Some room =>
                    if truthy (VStr room)
                    then [ToRoom room "new-message" (NewMessage (populate_sender db' message))]
                    else []
                | None => []
                end,
             mkServer db' (rooms srv)).
Proof.
  unfold send_message, send_message_try, company_id.
  destruct (User.company (Socket.user socket)) as [c|]; simpl; [|left; by eexists].
  destruct (findOne _ (projects (db srv))) as [p|] eqn:Hfind; simpl; [|left; by eexists].
  apply findOne_Some in Hfind as [Hin Hq].
  unfold validate_message. rewrite content_never_required. simpl.
  destruct (messageType_valid _) eqn:Hty; simpl; [|left; by eexists].
  right. by exists c, p.
Qed.

(** C6 (as amended). A message that send-message persists carries each of
    [content], [file] and [code] exactly when the payload had it (a
    [content] that is the empty string counts as absent), whichever of the
    others are there too; its [messageType] is the payload's [messageType],
    or text when the payload has none, and is one of text, file, code; it
    belongs to the payload's project and task and to the sending user. *)
Theorem send_message_persists_payload_fields (socket : Socket.t) (data : SendData)
    (srv : Server) (m : ChatMessage.t) :
  messages (db (snd (send_message socket data srv))) = messages (db srv) ++ [m] →
  ChatMessage.content m
    = (if truthy (str_val (content data)) then content data else None)
  ∧ ChatMessage.file m = file data
  ∧ ChatMessage.code m = code data
  ∧ ChatMessage.messageType m
    = (if truthy (str_val (messageType data)) then default "text" (messageType data)
       else "text")
  ∧ messageType_valid (ChatMessage.messageType m) = true
  ∧ ChatMessage.project m = projectId data
  ∧ ChatMessage.task m = taskId data
  ∧ ChatMessage.sender m = User._id (Socket.user socket).
Proof.
  destruct (send_message_cases socket data srv)
    as [[text ->] | (c & p & _ & _ & _ & Hty & ->)]; simpl.
  - intros H. by apply not_appended in H.
  - intros [_ <-]%app_inj_tail. by repeat split.
Qed.

Lemma send_message_persists_payload_fields_witness :
  messages (db (snd (send_message Scenario.alice_socket Scenario.three_kinds Scenario.srv1)))
  = messages (db Scenario.srv1)
    ++ [ChatMessage.mk 1000 11 None 1 (Some "see attached") "text"
          (Some Scenario.a_file) (Some Scenario.a_code) false]
  ∧ ChatMessage.file
      (ChatMessage.mk 1000 11 None 1 (Some "see attached") "text"
         (Some Scenario.a_file) (Some Scenario.a_code) false)
    = file Scenario.three_kinds.
Proof.
  assert (messages (db (snd (send_message Scenario.alice_socket Scenario.three_kinds
                                          Scenario.srv1)))
          = messages (db Scenario.srv1)
            ++ [ChatMessage.mk 1000 11 None 1 (Some "see attached") "text"
                  (Some Scenario.a_file) (Some Scenario.a_code) false]) as H.
  { vm_compute. reflexivity. }
  split; [exact H|].
  exact (proj1 (proj2 (send_message_persists_payload_fields _ _ _ _ H))).
Defined.

(** C6, the claim as stated fails: a payload with text, a file and a code
    snippet is persisted with all three populated, and a payload with only a
    file and no [messageType] is persisted as a message of type text. *)
Lemma send_message_stores_several_kinds :
  messages (db (snd (send_message Scenario.alice_socket Scenario.three_kinds Scenario.srv1)))
  = [Scenario.hello;
     ChatMessage.mk 1000 11 None 1 (Some "see attached") "text"
       (Some Scenario.a_file) (Some Scenario.a_code) false]
  ∧ kinds_populated
      (ChatMessage.mk 1000 11 None 1 (Some "see attached") "text"
         (Some Scenario.a_file) (Some Scenario.a_code) false) = 3
  ∧ messages (db (snd (send_message Scenario.alice_socket Scenario.file_only Scenario.srv1)))
    = [Scenario.hello;
       ChatMessage.mk 1000 11 None 1 None "text" (Some Scenario.a_file) None false].
Proof. by_evaluation. Qed.

(** C8. Alice, who has access to the Billing project, sends a payload with
    none of [content], [file], [code]. No error event is emitted: the message
    is persisted with no payload at all and broadcast to the project's room. *)
Theorem empty_message_is_persisted :
  content Scenario.nothing = None
  ∧ file Scenario.nothing = None
  ∧ code Scenario.nothing = None
  ∧ send_message Scenario.alice_socket Scenario.nothing Scenario.srv1
    = ([ToRoom "project-11" "new-message"
          (NewMessage (ChatMessage.mk 1000 11 None 1 None "text" None None false,
                       Some Scenario.alice))],
       mkServer
         (mkDb (users (db Scenario.srv1)) (projects (db Scenario.srv1))
               (tasks (db Scenario.srv1))
               [Scenario.hello; ChatMessage.mk 1000 11 None 1 None "text" None None false]
               1001)
         (rooms Scenario.srv1)).
Proof. by_evaluation. Qed.

(** ** Broadcasts *)


(** An emit of a socket to a room reaches every other socket of the room,
    each once, and never the socket itself. *)
Lemma receivers_ToRoomExcept (rs : gmap string (gset SocketId)) (room event : string)
    (sender : SocketId) (p : Payload) :
  NoDup (receivers rs (ToRoomExcept room sender event p))
  ∧ ∀ s, s ∈ receivers rs (ToRoomExcept room sender event p)
         ↔ s ∈ room_members rs room ∧ s ≠ sender.
Proof.
  simpl. split; [apply NoDup_elements|]. intros s.
  rewrite elem_of_elements, elem_of_difference, elem_of_singleton. done.
Qed.




(** ** Typing indicators *)

(** C10. For every connected socket, whoever its user is, every payload and
    every state of the store and the rooms, a typing event makes the bridge
    emit exactly one user-typing event, carrying the user's id and name and
    the payload's task id, to the room whose name is "project-" followed by
    the payload's projectId, the sender excepted; stop-typing does the same
    with user-stop-typing. Each of the two emits reaches every socket of
    that room other than the sender once, and nobody else. Neither handler
    consults the store or the room membership of the sender, and neither
    changes the state. *)
Theorem typing_relayed_without_access_check (socket : Socket.t) (data : TypingData)
    (srv : Server) :
  typing socket data srv
  = ([ToRoomExcept ("project-" +:+ room_suffix data) (Socket.id socket) "user-typing"
        (UserTyping (User._id (Socket.user socket)) (User.name (Socket.user socket))
                    (typing_taskId data))],
     srv)
  ∧ stop_typing socket data srv
    = ([ToRoomExcept ("project-" +:+ room_suffix data) (Socket.id socket) "user-stop-typing"
          (UserStopTyping (User._id (Socket.user socket)) (typing_taskId data))],
       srv)
  ∧ ∀ o, o ∈ fst (typing socket data srv) ++ fst (stop_typing socket data srv) →
         NoDup (receivers (rooms srv) o)
         ∧ ∀ s, s ∈ receivers (rooms srv) o
                ↔ s ∈ room_members (rooms srv) ("project-" +:+ room_suffix data)
                  ∧ s ≠ Socket.id socket.
Proof.
  split; [reflexivity|]. split; [reflexivity|].
  intros o [->%list_elem_of_singleton | ->%list_elem_of_singleton]%elem_of_app;
    apply receivers_ToRoomExcept.
Qed.

(** Dave, whom join-project turns away from the Billing project, still gets
    his typing event delivered to Alice in that project's room. *)
Lemma typing_from_outside_the_room :
  fst (join_project Scenario.dave_socket 11 Scenario.srv1)
  = [ToSocket 7 "error" (ErrorPayload "Project not found")]
  ∧ typing Scenario.dave_socket (mkTypingData "11" None) Scenario.srv1
    = ([ToRoomExcept "project-11" 7 "user-typing" (UserTyping 4 "Dave" None)],
       Scenario.srv1)
  ∧ receivers (rooms Scenario.srv1)
      (ToRoomExcept "project-11" 7 "user-typing" (UserTyping 4 "Dave" None))
    = [5].
Proof. by_evaluation. Qed.

(** * Further properties *)

(** ** Updating the first match *)

Lemma findOneAndUpdate_None {A} (q : A → bool) (f : A → A) (l : list A) :
  fst (findOneAndUpdate q f l) = None →
  snd (findOneAndUpdate q f l) = l ∧ ∀ x, x ∈ l → q x = false.
Proof.
  induction l as [|a l IH]; simpl.
  - intros _. split; [done|]. by intros x ?%elem_of_nil.
  - destruct (q a) eqn:Ha; simpl; [done|].
    intros H. destruct (IH H) as [-> Hall]. split; [done|].
    intros x [->|Hx]%elem_of_cons; [done | by apply Hall].
Qed.

Lemma findOneAndUpdate_Some {A} (q : A → bool) (f : A → A) (l : list A) (y : A) :
  fst (findOneAndUpdate q f l) = Some y →
  ∃ l1 x l2, l = l1 ++ x :: l2
             ∧ q x = true
             ∧ (∀ z, z ∈ l1 → q z = false)
             ∧ y = f x
             ∧ snd (findOneAndUpdate q f l) = l1 ++ f x :: l2.
Proof.
  induction l as [|a l IH]; simpl; [done|].
  destruct (q a) eqn:Ha; simpl.
  - intros [= <-]. exists [], a, l. repeat split; try done. by intros z ?%elem_of_nil.
  - intros H. destruct (IH H) as (l1 & x & l2 & -> & Hx & Hl1 & -> & ->).
    exists (a :: l1), x, l2. repeat split; try done.
    intros z [->|Hz]%elem_of_cons; [done | by apply Hl1].
Qed.

Lemma findOneAndUpdate_found {A} (q : A → bool) (f : A → A) (l : list A) (x : A) :
  x ∈ l → q x = true → ∃ y, fst (findOneAndUpdate q f l) = Some y.
Proof.
  intros Hin Hq. destruct (fst (findOneAndUpdate q f l)) as [y|] eqn:H; [by exists y|].
  apply findOneAndUpdate_None in H as [_ Hall]. rewrite (Hall x Hin) in Hq. done.
Qed.

(** In a list without duplicate ids, the element with a given id is found
    where it stands. *)
Lemma task_ids_unique (l1 l2 : list Task.t) (t x : Task.t) :
  NoDup (Task._id <$> (l1 ++ t :: l2)) →
  x ∈ l1 ++ t :: l2 → Task._id x = Task._id t → x = t.
Proof.
  intros Hnd Hx Hid.
  apply (NoDup_fmap_eq Task._id (l1 ++ t :: l2)); try done.
  apply elem_of_app. right. by left.
Qed.

(** ** PUT /api/tasks/:id/status *)

Lemma task_status_cases (user : User.t) (id : ObjId) (status : string) (d : Db) :
  (snd (task_status user id status d) = d
   ∧ Res.status (fst (task_status user id status d)) ≠ 200)
  ∨ ∃ s l1 t l2,
      parse_status status = Some s
      ∧ tasks d = l1 ++ t :: l2
      ∧ Task._id t = id
      ∧ User.company user = Some (Task.company t)
      ∧ Task.isActive t = true
      ∧ (member_tier (User.role user) = true → Task.assignedTo t = User._id user)
      ∧ task_status user id status d
        = (Res.mk 200 "Task status updated successfully" (Some (task_set_status s t)),
           with_tasks (l1 ++ task_set_status s t :: l2) d).
Proof.
  unfold task_status, task_status_try, company_id.
  destruct (parse_status status) as [s|]; [|left; by split].
  destruct (User.company user) as [c|]; simpl; [|left; by split].
  destruct (findOneAndUpdate _ _ (tasks d)) as [[y|] l] eqn:Hf; simpl; [|left; by split].
  pose proof (f_equal fst Hf) as Hfst. pose proof (f_equal snd Hf) as Hsnd. simpl in Hfst, Hsnd.
  apply findOneAndUpdate_Some in Hfst as (l1 & t & l2 & Hl & Hq & _ & -> & Hl').
  rewrite Hl' in Hsnd. subst l.
  repeat (apply andb_prop in Hq as [Hq ?]).
  right. exists s, l1, t, l2. repeat split; try done.
  - by apply id_eqb_eq.
  - f_equal. symmetry. by apply id_eqb_eq.
  - intros Hm. match goal with H : (if member_tier _ then _ else _) = true |- _ =>
      rewrite Hm in H; by apply id_eqb_eq in H end.
Qed.

(** X1. A status update that is answered with 200 rewrites the [status] of
    exactly one stored task, the one it answers with: that task is active,
    has the id of the call and is of the caller's company, and when the
    caller has a member-tier role it is assigned to the caller. Its assignee,
    its delegation requests, its comments and every other task, and the
    rest of the store, are as before. Any other answer leaves the store as
    it was. *)
Theorem task_status_changes_status_only (user : User.t) (id : ObjId) (status : string)
    (d : Db) :
  let r := task_status user id status d in
  (Res.status (fst r) ≠ 200 ∧ snd r = d)
  ∨ ∃ s l1 t l2,
      Res.status (fst r) = 200
      ∧ parse_status status = Some s
      ∧ tasks d = l1 ++ t :: l2
      ∧ tasks (snd r) = l1 ++ task_set_status s t :: l2
      ∧ Res.task (fst r) = Some (task_set_status s t)
      ∧ Task._id t = id
      ∧ Task.isActive t = true
      ∧ User.company user = Some (Task.company t)
      ∧ (member_tier (User.role user) = true → Task.assignedTo t = User._id user)
      ∧ Task.assignedTo (task_set_status s t) = Task.assignedTo t
      ∧ Task.delegationRequests (task_set_status s t) = Task.delegationRequests t
      ∧ Task.comments (task_set_status s t) = Task.comments t
      ∧ users (snd r) = users d
      ∧ projects (snd r) = projects d
      ∧ messages (snd r) = messages d
      ∧ nextId (snd r) = nextId d.
Proof.
  simpl.
  destruct (task_status_cases user id status d)
    as [[H1 H2] | (s & l1 & t & l2 & Hs & Hl & Hid & Hc & Ha & Hm & ->)]; [by left|].
  right. exists s, l1, t, l2. by repeat split.
Qed.
(** ** Accepting a delegation and the routes scoped to the assignee *)

Lemma findOne_by_id (l1 l2 : list Task.t) (t : Task.t) :
  NoDup (Task._id <$> (l1 ++ t :: l2)) →
  findOne (λ x, id_eqb (Task._id x) (Task._id t)) (l1 ++ t :: l2) = Some t.
Proof.
  intros Hnd.
  assert (t ∈ l1 ++ t :: l2) as Hin by (apply elem_of_app; right; by left).
  destruct (find_is_Some (λ x, id_eqb (Task._id x) (Task._id t)) _ t Hin) as [y Hy].
  { by apply id_eqb_eq. }
  unfold findOne. rewrite Hy. f_equal.
  apply findOne_Some in Hy as [Hyin Hyid%id_eqb_eq].
  by apply (task_ids_unique l1 l2).
Qed.

Lemma resolved_id (user : User.t) (requestId : ObjId) (action : string) (task : Task.t) :
  Task._id (resolved user requestId action task) = Task._id task.
Proof. unfold resolved. by destruct (String.eqb action "accept"). Qed.

(** What an accept that goes through answers and stores. *)
Lemma resolve_accept_success (user : User.t) (requestId : ObjId) (d : Db) :
  Res.status (fst (resolve user requestId "accept" d)) = 200 →
  ∃ task request,
    findOne (resolve_query requestId (User._id user) (Task.company task)) (tasks d)
      = Some task
    ∧ User.company user = Some (Task.company task)
    ∧ requests_id requestId (Task.delegationRequests task) = Some request
    ∧ is_pending request = true
    ∧ resolve user requestId "accept" d
      = (Res.mk 200 "Request accepted successfully"
           (findOne (λ t, id_eqb (Task._id t) (Task._id task))
              (save_task (resolved user requestId "accept" task) (tasks d))),
         with_tasks (save_task (resolved user requestId "accept" task) (tasks d)) d).
Proof.
  unfold resolve, resolve_try, company_id. simpl.
  destruct (User.company user) as [companyId|]; simpl; [|done].
  destruct (findOne _ (tasks d)) as [task|] eqn:Htask; [|done].
  destruct (requests_id requestId _) as [request|] eqn:Hreq; [|done].
  fold (is_pending request). destruct (is_pending request) eqn:Hpen; simpl; [|done].
  intros _. exists task, request.
  assert (Task.company task = companyId) as Hc.
  { apply findOne_Some in Htask as [_ Hq]. unfold resolve_query in Hq.
    repeat (apply andb_prop in Hq as [Hq ?]). by apply id_eqb_eq. }
  subst companyId. by repeat split.
Qed.

(** The store after an accept, when task ids are unique: the one task is
    replaced where it stood by the task with the request accepted and the
    caller as assignee, and this is the task the answer carries. *)
Lemma resolve_accept_store (user : User.t) (requestId : ObjId) (d : Db) :
  NoDup (Task._id <$> tasks d) →
  Res.status (fst (resolve user requestId "accept" d)) = 200 →
  ∃ l1 task l2,
    tasks d = l1 ++ task :: l2
    ∧ User.company user = Some (Task.company task)
    ∧ Task.isActive task = true
    ∧ resolve user requestId "accept" d
      = (Res.mk 200 "Request accepted successfully"
           (Some (resolved user requestId "accept" task)),
         with_tasks (l1 ++ resolved user requestId "accept" task :: l2) d).
Proof.
  intros Hnd Hok.
  destruct (resolve_accept_success user requestId d Hok)
    as (task & request & Htask & Hc & _ & _ & Heq).
  apply findOne_Some in Htask as [Hin Hq].
  destruct (save_task_split (resolved user requestId "accept" task) task (tasks d)
              Hnd Hin (resolved_id _ _ _ _)) as (l1 & l2 & Hl & Hs).
  exists l1, task, l2. split; [done|]. split; [done|]. split.
  { unfold resolve_query in Hq. by apply andb_prop in Hq as [_ ?]. }
  rewrite Heq, Hs. f_equal. f_equal.
  rewrite <- (resolved_id user requestId "accept" task).
  apply findOne_by_id. rewrite fmap_app, fmap_cons, resolved_id.
  rewrite Hl, fmap_app, fmap_cons in Hnd. done.
Qed.

(** X2. Accepting a delegation request hands over the right to update the
    task's status. When an accept by [B] goes through (task ids being
    unique), the task it answers with is assigned to [B]; from then on a
    status update on that task by another user [A] with a member-tier role,
    such as the former assignee, fails and changes nothing, while the same
    update by [B] is answered with 200. *)
Theorem accept_hands_over_status_updates (A B : User.t) (requestId : ObjId)
    (status : string) (d : Db) :
  NoDup (Task._id <$> tasks d) →
  Res.status (fst (resolve B requestId "accept" d)) = 200 →
  member_tier (User.role A) = true →
  User._id A ≠ User._id B →
  is_Some (parse_status status) →
  ∃ t, Res.task (fst (resolve B requestId "accept" d)) = Some t
       ∧ Task.assignedTo t = User._id B
       ∧ Res.status (fst (task_status A (Task._id t) status
                            (snd (resolve B requestId "accept" d)))) ≠ 200
       ∧ snd (task_status A (Task._id t) status (snd (resolve B requestId "accept" d)))
         = snd (resolve B requestId "accept" d)
       ∧ Res.status (fst (task_status B (Task._id t) status
                            (snd (resolve B requestId "accept" d)))) = 200.
Proof.
  intros Hnd Hok HA Hne [s Hs].
  destruct (resolve_accept_store B requestId d Hnd Hok)
    as (l1 & task & l2 & Hl & Hc & Hact & ->). simpl.
  set (t := resolved B requestId "accept" task).
  set (d' := with_tasks (l1 ++ t :: l2) d).
  assert (NoDup (Task._id <$> (l1 ++ t :: l2))) as Hnd'.
  { rewrite fmap_app, fmap_cons. unfold t. rewrite resolved_id.
    rewrite Hl, fmap_app, fmap_cons in Hnd. done. }
  exists t. split; [done|]. split; [done|].
  assert (Res.status (fst (task_status A (Task._id t) status d')) ≠ 200
          ∧ snd (task_status A (Task._id t) status d') = d') as [H1 H2].
  { destruct (task_status_cases A (Task._id t) status d')
      as [[H1 H2] | (s' & k1 & x & k2 & _ & Hk & Hid & _ & _ & Hm & _)]; [done|].
    exfalso. simpl in Hk.
    assert (x = t) as ->.
    { apply (task_ids_unique l1 l2); [done| |done]. rewrite Hk.
      apply elem_of_app. right. by left. }
    apply Hne. symmetry. by apply Hm. }
  split; [done|]. split; [done|].
  unfold task_status, task_status_try, company_id. rewrite Hs, Hc. simpl.
  set (q := λ x : Task.t, _).
  assert (q t = true) as Hq.
  { unfold q, t. rewrite resolved_id. simpl. rewrite Hact.
    rewrite !Nat.eqb_refl. by destruct (member_tier (User.role B)). }
  destruct (findOneAndUpdate_found q (task_set_status s) (l1 ++ t :: l2) t) as [y Hy];
    [apply elem_of_app; right; by left | done |].
  destruct (findOneAndUpdate q (task_set_status s) (l1 ++ t :: l2)) as [o l]. simpl in Hy.
  by subst o.
Qed.

Lemma accept_hands_over_status_updates_witness :
  ∃ t, Res.task (fst (resolve Scenario.bob 1000 "accept" Scenario.db1)) = Some t
       ∧ Task.assignedTo t = User._id Scenario.bob
       ∧ Res.status (fst (task_status Scenario.alice (Task._id t) "in_progress"
                            (snd (resolve Scenario.bob 1000 "accept" Scenario.db1)))) ≠ 200
       ∧ snd (task_status Scenario.alice (Task._id t) "in_progress"
                (snd (resolve Scenario.bob 1000 "accept" Scenario.db1)))
         = snd (resolve Scenario.bob 1000 "accept" Scenario.db1)
       ∧ Res.status (fst (task_status Scenario.bob (Task._id t) "in_progress"
                            (snd (resolve Scenario.bob 1000 "accept" Scenario.db1)))) = 200.
Proof.
  apply (accept_hands_over_status_updates Scenario.alice Scenario.bob 1000 "in_progress"
           Scenario.db1).
  - apply (bool_decide_unpack _). vm_compute. reflexivity.
  - vm_compute. reflexivity.
  - reflexivity.
  - vm_compute. discriminate.
  - vm_compute. by eexists.
Defined.

(** ** GET /api/tasks *)

#[global] Instance by_deadline_total : Total by_deadline.
Proof. intros a b. unfold by_deadline. lia. Qed.

Lemma elem_of_sort_by_deadline (t : Task.t) (l : list Task.t) :
  t ∈ sort_by_deadline l ↔ t ∈ l.
Proof. unfold sort_by_deadline. by rewrite merge_sort_Permutation. Qed.

Lemma elem_of_List_filter {A} (q : A → bool) (l : list A) (x : A) :
  x ∈ List.filter q l ↔ x ∈ l ∧ q x = true.
Proof. rewrite !list_elem_of_In. apply filter_In. Qed.

Lemma tasks_index_spec (user : User.t) (d : Db) :
  (User.role user = admin ∧ User.company user = None
   ∧ tasks_index user d = Refusal 500 "Server error while fetching tasks")
  ∨ ∃ l, tasks_index user d = Answer 200 l
         ∧ Sorted by_deadline l
         ∧ ∀ t, t ∈ l ↔ t ∈ tasks d ∧ Task.isActive t = true ∧ in_index_scope user t.
Proof.
  unfold tasks_index, tasks_index_try, in_index_scope, company_id.
  destruct (User.role user) eqn:Hrole; simpl.
  2: destruct (User.company user) as [c|] eqn:Hc; simpl; [|by left].
  all: right; eexists; split; [reflexivity|]; split; [apply Sorted_merge_sort, _|].
  all: intros t; rewrite elem_of_sort_by_deadline, elem_of_List_filter.
  all: rewrite ?andb_true_iff; unfold id_eqb; rewrite ?Nat.eqb_eq; intuition congruence.
Qed.

(** X3. GET /api/tasks answers with a list sorted by deadline, earliest
    first, whose members are exactly the active tasks in the caller's scope:
    every active task for the top-level administrator, the active tasks of
    the caller's company for an administrator, and for every other role the
    active tasks assigned to the caller, of whichever company. *)
Theorem tasks_index_sorted_scope (user : User.t) (d : Db) (l : list Task.t) :
  tasks_index user d = Answer 200 l →
  Sorted by_deadline l
  ∧ ∀ t, t ∈ l ↔ t ∈ tasks d ∧ Task.isActive t = true ∧ in_index_scope user t.
Proof.
  intros H. destruct (tasks_index_spec user d) as [(_ & _ & H') | (l' & H' & Hs)].
  - congruence.
  - rewrite H in H'. by injection H' as ->.
Qed.

Lemma tasks_index_sorted_scope_witness :
  Sorted by_deadline [Scenario.task20_db2]
  ∧ ∀ t, t ∈ [Scenario.task20_db2]
         ↔ t ∈ tasks Scenario.db2 ∧ Task.isActive t = true ∧ in_index_scope Scenario.bob t.
Proof.
  apply (tasks_index_sorted_scope Scenario.bob Scenario.db2). vm_compute. reflexivity.
Defined.

(** X4. Accepting a delegation request moves the task from one user's task
    list to the other's. After an accept by [B] that goes through (task ids
    being unique), GET /api/tasks lists the task for [B], and for another
    user [A] with a member-tier role, such as the former assignee, it lists
    no task with that id. *)
Theorem accept_moves_task_between_lists (A B : User.t) (requestId : ObjId) (d : Db) :
  NoDup (Task._id <$> tasks d) →
  Res.status (fst (resolve B requestId "accept" d)) = 200 →
  member_tier (User.role A) = true →
  User._id A ≠ User._id B →
  ∃ t lA lB,
    Res.task (fst (resolve B requestId "accept" d)) = Some t
    ∧ tasks_index B (snd (resolve B requestId "accept" d)) = Answer 200 lB
    ∧ t ∈ lB
    ∧ tasks_index A (snd (resolve B requestId "accept" d)) = Answer 200 lA
    ∧ ∀ x, x ∈ lA → Task._id x ≠ Task._id t.
Proof.
  intros Hnd Hok HA Hne.
  destruct (resolve_accept_store B requestId d Hnd Hok)
    as (l1 & task & l2 & Hl & Hc & Hact & ->). simpl.
  set (t := resolved B requestId "accept" task).
  set (d' := with_tasks (l1 ++ t :: l2) d).
  assert (NoDup (Task._id <$> (l1 ++ t :: l2))) as Hnd'.
  { rewrite fmap_app, fmap_cons. unfold t. rewrite resolved_id.
    rewrite Hl, fmap_app, fmap_cons in Hnd. done. }
  assert (t ∈ tasks d') as Hin by (apply elem_of_app; right; by left).
  destruct (tasks_index_spec B d') as [(_ & HcB & _) | (lB & HB & _ & HlB)]; [congruence|].
  destruct (tasks_index_spec A d') as [(HrA & _) | (lA & HAeq & _ & HlA)].
  { rewrite HrA in HA. done. }
  exists t, lA, lB. split; [done|]. split; [done|]. split.
  - apply HlB. split; [done|]. split; [done|].
    unfold in_index_scope. by destruct (User.role B).
  - split; [done|]. intros x [Hx [_ Hscope]]%HlA Hid.
    assert (x = t) as -> by by apply (task_ids_unique l1 l2).
    unfold in_index_scope in Hscope. apply Hne. symmetry.
    by destruct (User.role A).
Qed.

Lemma accept_moves_task_between_lists_witness :
  ∃ t lA lB,
    Res.task (fst (resolve Scenario.bob 1000 "accept" Scenario.db1)) = Some t
    ∧ tasks_index Scenario.bob (snd (resolve Scenario.bob 1000 "accept" Scenario.db1))
      = Answer 200 lB
    ∧ t ∈ lB
    ∧ tasks_index Scenario.alice (snd (resolve Scenario.bob 1000 "accept" Scenario.db1))
      = Answer 200 lA
    ∧ ∀ x, x ∈ lA → Task._id x ≠ Task._id t.
Proof.
  apply (accept_moves_task_between_lists Scenario.alice Scenario.bob 1000 Scenario.db1).
  - apply (bool_decide_unpack _). vm_compute. reflexivity.
  - vm_compute. reflexivity.
  - reflexivity.
  - vm_compute. discriminate.
Defined.

(** ** GET /api/tasks/delegation-requests *)

Lemma collect_js_Ret {A B} (f : A → Js (list B)) (l : list A) (r : list B) :
  collect_js f l = Ret r →
  (∀ x, x ∈ l → ∃ ys, f x = Ret ys)
  ∧ ∀ y, y ∈ r ↔ ∃ x ys, x ∈ l ∧ f x = Ret ys ∧ y ∈ ys.
Proof.
  revert r. induction l as [|a l IH]; simpl; intros r.
  - intros [= <-]. split; [by intros x ?%elem_of_nil|].
    intros y. split; [by intros ?%elem_of_nil|]. by intros (x & ys & ?%elem_of_nil & _).
  - destruct (f a) as [ys|e] eqn:Ha; simpl; [|done].
    destruct (collect_js f l) as [zs|e]; simpl; [|done].
    intros [= <-]. destruct (IH zs eq_refl) as [Hall Hzs]. split.
    + intros x [->|Hx]%elem_of_cons; [by exists ys | by apply Hall].
    + intros y. rewrite elem_of_app, Hzs. split.
      * intros [Hy | (x & ys' & Hx & Hfx & Hy)].
        -- exists a, ys. split; [by left | done].
        -- exists x, ys'. split; [by right | done].
      * intros (x & ys' & [->|Hx]%elem_of_cons & Hfx & Hy).
        -- left. congruence.
        -- right. by exists x, ys'.
Qed.

Lemma collect_js_Throw {A B} (f : A → Js (list B)) (l : list A) (x : A) (e : Exn) :
  x ∈ l → f x = Throw e → ∃ e', collect_js f l = Throw e'.
Proof.
  intros Hx Hfx. destruct (collect_js f l) as [r|e'] eqn:H; [|by exists e'].
  apply collect_js_Ret in H as [Hall _]. destruct (Hall x Hx) as [ys Hys]. congruence.
Qed.

Lemma collect_js_all {A B} (f : A → Js (list B)) (l : list A) :
  (∀ x, x ∈ l → ∃ ys, f x = Ret ys) → ∃ r, collect_js f l = Ret r.
Proof.
  induction l as [|a l IH]; simpl; intros Hall; [by eexists|].
  destruct (Hall a) as [ys ->]; [by left|]. simpl.
  destruct IH as [zs ->]; [intros x Hx; apply Hall; by right|]. simpl. by eexists.
Qed.

Lemma find_user_id (d : Db) (id : ObjId) (u : User.t) :
  find_user d id = Some u → u ∈ users d ∧ User._id u = id.
Proof.
  unfold find_user. intros [Hin Hid]%findOne_Some. split; [done | by apply id_eqb_eq].
Qed.

(** The filter of the listing's task query. *)
Lemma listing_filter (user : User.t) (companyId : ObjId) (d : Db) (t : Task.t) :
  t ∈ List.filter
        (λ t, existsb (λ r, id_eqb (DelegationRequest.toUser r) (User._id user))
                      (Task.delegationRequests t)
              && id_eqb (Task.company t) companyId
              && Task.isActive t)
        (tasks d)
  ↔ t ∈ tasks d
    ∧ (∃ r, r ∈ Task.delegationRequests t ∧ DelegationRequest.toUser r = User._id user)
    ∧ Task.company t = companyId
    ∧ Task.isActive t = true.
Proof.
  rewrite elem_of_List_filter, !andb_true_iff, existsb_exists.
  unfold id_eqb. rewrite Nat.eqb_eq.
  split.
  - intros (Hin & ((r & Hr & Hto%Nat.eqb_eq) & Hc) & Ha). repeat split; try done.
    exists r. by rewrite list_elem_of_In.
  - intros (Hin & (r & Hr & Hto) & Hc & Ha). repeat split; try done.
    exists r. rewrite <- list_elem_of_In, Nat.eqb_eq. done.
Qed.

(** The entries of an answered listing, one by one. *)
Lemma delegation_requests_spec (user : User.t) (d : Db) (views : list RequestView.t) :
  delegation_requests user d = Answer 200 views →
  ∀ v, v ∈ views ↔
       ∃ t r tu, t ∈ tasks d ∧ r ∈ Task.delegationRequests t
                 ∧ Task.isActive t = true
                 ∧ User.company user = Some (Task.company t)
                 ∧ DelegationRequest.toUser r = User._id user
                 ∧ DelegationRequest.status r = DelegationRequest.pending
                 ∧ find_user d (DelegationRequest.toUser r) = Some tu
                 ∧ v = RequestView.mk (DelegationRequest._id r)
                         (Task._id t) (Task.title t) (Task.description t) (Task.priority t)
                         ((λ p, (Project._id p, Project.name p))
                            <$> findOne (λ p, id_eqb (Project._id p) (Task.project t))
                                        (projects d))
                         (find_user d (DelegationRequest.fromUser r))
                         tu
                         (DelegationRequest.reason r)
                         (DelegationRequest.status r)
                         (DelegationRequest.createdAt r).
Proof.
  unfold delegation_requests, delegation_requests_try, company_id.
  destruct (User.company user) as [c|]; simpl; [|done].
  destruct (collect_js _ _) as [l|e] eqn:Hl; [|done].
  intros [= <-]. apply collect_js_Ret in Hl as [Hall Hl]. intros v. split.
  - intros (t & vs & Ht%listing_filter & Hvs & Hv)%Hl.
    destruct Ht as (Ht & _ & Hc & Ha).
    apply collect_js_Ret in Hvs as [_ Hvs].
    apply Hvs in Hv as (r & ys & Hr & Hview & Hy).
    unfold request_view in Hview.
    destruct (find_user d (DelegationRequest.toUser r)) as [tu|] eqn:Htu; [|done].
    destruct (id_eqb (User._id tu) (User._id user)) eqn:Hid; simpl in Hview;
      [|injection Hview as <-; by apply elem_of_nil in Hy].
    destruct (is_pending r) eqn:Hp;
      [|injection Hview as <-; by apply elem_of_nil in Hy].
    injection Hview as <-. apply list_elem_of_singleton in Hy as ->.
    apply id_eqb_eq in Hid. pose proof (find_user_id _ _ _ Htu) as [_ Htuid].
    unfold is_pending in Hp. apply bool_decide_eq_true in Hp.
    exists t, r, tu. repeat split; try done; congruence.
  - intros (t & r & tu & Ht & Hr & Ha & Hc & Hto & Hp & Htu & ->). injection Hc as Hc.
    assert (t ∈ List.filter
                  (λ t', existsb (λ r, id_eqb (DelegationRequest.toUser r) (User._id user))
                                 (Task.delegationRequests t')
                         && id_eqb (Task.company t') c
                         && Task.isActive t')
                  (tasks d)) as Hf.
    { apply listing_filter. repeat split; try done. by exists r. }
    destruct (Hall t Hf) as [vs Hvs].
    pose proof Hvs as Hvs'. apply collect_js_Ret in Hvs' as [Hreq Hmem].
    destruct (Hreq r Hr) as [ys Hys]. pose proof Hys as Hview.
    unfold request_view in Hview. rewrite Htu in Hview.
    apply find_user_id in Htu as [_ Htu].
    assert (id_eqb (User._id tu) (User._id user) = true) as Hid
      by (apply id_eqb_eq; congruence).
    assert (is_pending r = true) as Hpen by by apply bool_decide_eq_true.
    rewrite Hid, Hpen in Hview. simpl in Hview. injection Hview as <-.
    apply Hl. exists t, vs. split; [done|]. split; [done|].
    apply Hmem. exists r. eexists. split; [done|]. split; [exact Hys|]. by left.
Qed.

(** X5. When the listing of delegation requests is answered, its entries
    are exactly the requests that are pending and addressed to the caller on
    the active tasks of the caller's company: every entry shows such a
    request with the id, title, description and priority of its task, and
    every such request has its entry. *)
Theorem delegation_requests_exact (user : User.t) (d : Db) (views : list RequestView.t) :
  delegation_requests user d = Answer 200 views →
  (∀ v, v ∈ views →
     RequestView.status v = DelegationRequest.pending
     ∧ User._id (RequestView.toUser v) = User._id user
     ∧ ∃ t r, t ∈ tasks d ∧ r ∈ Task.delegationRequests t
              ∧ Task.isActive t = true
              ∧ User.company user = Some (Task.company t)
              ∧ DelegationRequest.toUser r = User._id user
              ∧ DelegationRequest.status r = DelegationRequest.pending
              ∧ RequestView._id v = DelegationRequest._id r
              ∧ RequestView.reason v = DelegationRequest.reason r
              ∧ RequestView.createdAt v = DelegationRequest.createdAt r
              ∧ RequestView.task_id v = Task._id t
              ∧ RequestView.task_title v = Task.title t
              ∧ RequestView.task_description v = Task.description t
              ∧ RequestView.task_priority v = Task.priority t)
  ∧ (∀ t r, t ∈ tasks d → r ∈ Task.delegationRequests t →
       Task.isActive t = true →
       User.company user = Some (Task.company t) →
       DelegationRequest.toUser r = User._id user →
       DelegationRequest.status r = DelegationRequest.pending →
       ∃ v, v ∈ views
            ∧ RequestView._id v = DelegationRequest._id r
            ∧ RequestView.task_id v = Task._id t).
Proof.
  intros H. pose proof (delegation_requests_spec user d views H) as Hspec. split.
  - intros v (t & r & tu & Ht & Hr & Ha & Hc & Hto & Hp & Htu & ->)%Hspec. simpl.
    apply find_user_id in Htu as [_ Htu].
    split; [done|]. split; [congruence|]. exists t, r. by repeat split.
  - intros t r Ht Hr Ha Hc Hto Hp.
    assert (is_Some (find_user d (DelegationRequest.toUser r))) as [tu Htu].
    { unfold delegation_requests, delegation_requests_try, company_id in H.
      rewrite Hc in H. simpl in H.
      destruct (collect_js _ _) as [l|e] eqn:Hl; [|done].
      apply collect_js_Ret in Hl as [Hall _].
      destruct (Hall t) as [vs Hvs].
      { apply listing_filter. repeat split; try done. by exists r. }
      apply collect_js_Ret in Hvs as [Hreq _]. destruct (Hreq r Hr) as [ys Hys].
      unfold request_view in Hys.
      destruct (find_user d (DelegationRequest.toUser r)); [by eexists | done]. }
    eexists. split.
    + apply Hspec. exists t, r, tu. by repeat split.
    + done.
Qed.

Lemma delegation_requests_exact_witness :
  ∃ views, delegation_requests Scenario.carol Scenario.db3 = Answer 200 views
           ∧ ∀ v, v ∈ views → User._id (RequestView.toUser v) = User._id Scenario.carol.
Proof.
  eexists. split; [vm_compute; reflexivity|].
  intros v Hv.
  refine (proj1 (proj2 (proj1 (delegation_requests_exact Scenario.carol Scenario.db3 _ _) v Hv))).
  vm_compute. reflexivity.
Defined.

(** X6. One addressee whose user document is gone makes the listing fail
    for everybody on that task: when an active task of the caller's company
    that carries a request for the caller also carries a request, pending or
    not, whose [toUser] has no user document, the listing answers 500. *)
Theorem delegation_requests_dangling_addressee (user : User.t) (d : Db) (t : Task.t)
    (r r' : DelegationRequest.t) :
  t ∈ tasks d →
  Task.isActive t = true →
  User.company user = Some (Task.company t) →
  r ∈ Task.delegationRequests t →
  DelegationRequest.toUser r = User._id user →
  r' ∈ Task.delegationRequests t →
  find_user d (DelegationRequest.toUser r') = None →
  delegation_requests user d
  = Refusal 500 "Server error while fetching delegation requests".
Proof.
  intros Ht Ha Hc Hr Hto Hr' Hgone.
  unfold delegation_requests, delegation_requests_try, company_id. rewrite Hc. simpl.
  assert (∃ e, collect_js (request_view user d t) (Task.delegationRequests t) = Throw e)
    as [e He].
  { eapply (collect_js_Throw _ _ r'); [done|]. unfold request_view. by rewrite Hgone. }
  edestruct (collect_js_Throw
               (λ task, collect_js (request_view user d task) (Task.delegationRequests task)))
    as [e' ->]; [|exact He|done].
  apply listing_filter. repeat split; try done. by exists r.
Qed.

Lemma delegation_requests_dangling_addressee_witness :
  delegation_requests Scenario.carol Scenario2.db_gone
  = Refusal 500 "Server error while fetching delegation requests".
Proof.
  apply (delegation_requests_dangling_addressee Scenario.carol Scenario2.db_gone
           Scenario2.task_gone Scenario.request1001 Scenario2.request_to_gone).
  - vm_compute. apply list_elem_of_here.
  - reflexivity.
  - reflexivity.
  - vm_compute. apply list_elem_of_further, list_elem_of_here.
  - reflexivity.
  - vm_compute. apply list_elem_of_here.
  - vm_compute. reflexivity.
Defined.

(** What a delegate call that goes through found on its way. *)
Lemma delegate_success (user : User.t) (taskId : ObjId) (body : DelegateBody)
    (now : nat) (d : Db) :
  Res.status (fst (delegate user taskId body now d)) = 200 →
  ∃ task toUser target,
    task ∈ tasks d
    ∧ Task._id task = taskId
    ∧ Task.assignedTo task = User._id user
    ∧ User.company user = Some (Task.company task)
    ∧ Task.isActive task = true
    ∧ toUserId body = Some toUser
    ∧ target ∈ users d
    ∧ User._id target = toUser
    ∧ User.company target = User.company user
    ∧ User.isActive target = true
    ∧ Forall (λ r, is_pending r = false) (Task.delegationRequests task)
    ∧ snd (delegate user taskId body now d)
      = delegated user toUser (trim (reason body)) now d task.
Proof.
  unfold delegate, delegate_try, company_id.
  destruct (toUserId body) as [toUser|]; [|done].
  destruct (reason_valid (reason body)); [|done].
  destruct (User.company user) as [companyId|]; simpl; [|done].
  destruct (findOne _ (tasks d)) as [task|] eqn:Htask; [|done].
  apply findOne_Some in Htask as [Hin Hq].
  repeat (apply andb_prop in Hq as [Hq ?]).
  destruct (findOne _ (projects d)) as [project|]; simpl; [|done].
  destruct (existsb _ (Project.members project)); simpl; [|done].
  destruct (findOne _ (users d)) as [target|] eqn:Htarget; [|done].
  apply findOne_Some in Htarget as [Htin Htq].
  repeat (apply andb_prop in Htq as [Htq ?]).
  destruct (find_js existing_pending (Task.delegationRequests task)) as [o|e] eqn:Hfind;
    simpl; [|done].
  apply find_existing_Ret in Hfind as [-> Hall]. intros _.
  exists task, toUser, target.
  repeat match goal with H : id_eqb _ _ = true |- _ => apply id_eqb_eq in H end.
  match goal with H : bool_decide _ = true |- _ => apply bool_decide_eq_true in H end.
  repeat split; try done. by f_equal.
Qed.

(** X7. A delegation request that was sent shows up in the addressee's
    listing. When a delegate call goes through in a store with unique task
    ids in which every addressee of a request still has a user document, the
    listing of the addressee, called with a user document of that id and of
    the sender's company, is answered and contains the new request: pending,
    on the task of the call, with the sender's user document as [fromUser],
    the addressee as [toUser], the trimmed reason and the time of the
    call. *)
Theorem delegate_then_listed (A B : User.t) (taskId : ObjId) (body : DelegateBody)
    (now : nat) (d : Db) :
  NoDup (Task._id <$> tasks d) →
  (∀ t r, t ∈ tasks d → r ∈ Task.delegationRequests t →
          is_Some (find_user d (DelegationRequest.toUser r))) →
  Res.status (fst (delegate A taskId body now d)) = 200 →
  toUserId body = Some (User._id B) →
  User.company B = User.company A →
  ∃ views v,
    delegation_requests B (snd (delegate A taskId body now d)) = Answer 200 views
    ∧ v ∈ views
    ∧ RequestView._id v = nextId d
    ∧ RequestView.task_id v = taskId
    ∧ RequestView.status v = DelegationRequest.pending
    ∧ RequestView.fromUser v = find_user d (User._id A)
    ∧ User._id (RequestView.toUser v) = User._id B
    ∧ RequestView.reason v = trim (trim (reason body))
    ∧ RequestView.createdAt v = now.
Proof.
  intros Hnd Husers Hok HB HcB.
  destruct (delegate_success A taskId body now d Hok)
    as (task & toUser & target & Hin & Hid & _ & Hc & Ha & Hto & Htin & Htid & _ & _ & _ & ->).
  rewrite HB in Hto. injection Hto as <-.
  set (request := DelegationRequest.mk (nextId d) (User._id A) (User._id B)
                    (trim (trim (reason body))) DelegationRequest.pending now).
  set (task' := Task.set_delegationRequests (Task.delegationRequests task ++ [request]) task).
  destruct (save_task_split task' task (tasks d) Hnd Hin eq_refl) as (l1 & l2 & Hl & Hs).
  unfold delegated. fold request. fold task'. rewrite Hs.
  set (d' := bump (with_tasks (l1 ++ task' :: l2) d)).
  assert (∀ id, find_user d' id = find_user d id) as Hfu by done.
  assert (is_Some (find_user d (User._id B))) as HBdoc.
  { destruct (find_is_Some (λ u, id_eqb (User._id u) (User._id B)) (users d) target)
      as [u Hu]; [by apply list_elem_of_In; apply list_elem_of_In | by apply id_eqb_eq |].
    unfold find_user, findOne. rewrite Hu. by eexists. }
  assert (∀ t r, t ∈ tasks d' → r ∈ Task.delegationRequests t →
                 is_Some (find_user d' (DelegationRequest.toUser r))) as Husers'.
  { intros t r Ht Hr. rewrite Hfu. simpl in Ht.
    apply elem_of_app in Ht as [Ht | [-> | Ht]%elem_of_cons].
    - apply (Husers t r); [|done]. rewrite Hl. apply elem_of_app. by left.
    - simpl in Hr. apply elem_of_app in Hr as [Hr | ->%list_elem_of_singleton]; [|done].
      by apply (Husers task r).
    - apply (Husers t r); [|done]. rewrite Hl. apply elem_of_app. right. by right. }
  assert (∃ views, delegation_requests B d' = Answer 200 views) as [views Hviews].
  { unfold delegation_requests, delegation_requests_try, company_id.
    rewrite HcB, Hc. simpl.
    edestruct (collect_js_all
                 (λ task0, collect_js (request_view B d' task0)
                             (Task.delegationRequests task0))) as [r ->]; [|by eexists].
    intros t [Ht _]%elem_of_List_filter. apply collect_js_all.
    intros r Hr. unfold request_view.
    destruct (Husers' t r Ht Hr) as [u ->].
    destruct (_ && _); by eexists. }
  destruct HBdoc as [tu Htu].
  exists views. eexists. split; [done|]. split.
  - apply (delegation_requests_spec B d' views Hviews).
    exists task', request, tu. repeat split; try done.
    + apply elem_of_app. right. by left.
    + simpl. apply elem_of_app. right. by left.
    + by rewrite HcB, Hc.
  - pose proof (find_user_id _ _ _ Htu) as [_ Htuid]. by repeat split.
Qed.

Lemma delegate_then_listed_witness :
  ∃ views v,
    delegation_requests Scenario.bob
      (snd (delegate Scenario.alice 20 (mkDelegateBody (Some 2) "vacation") 5 Scenario.db0))
    = Answer 200 views
    ∧ v ∈ views
    ∧ RequestView._id v = 1000
    ∧ RequestView.task_id v = 20
    ∧ RequestView.status v = DelegationRequest.pending
    ∧ RequestView.fromUser v = Some Scenario.alice
    ∧ User._id (RequestView.toUser v) = 2
    ∧ RequestView.reason v = "vacation"
    ∧ RequestView.createdAt v = 5.
Proof.
  apply (delegate_then_listed Scenario.alice Scenario.bob 20
           (mkDelegateBody (Some 2) "vacation") 5 Scenario.db0).
  - apply (bool_decide_unpack _). vm_compute. reflexivity.
  - intros t r Ht Hr. vm_compute in Ht. apply list_elem_of_singleton in Ht as ->.
    by apply elem_of_nil in Hr.
  - vm_compute. reflexivity.
  - reflexivity.
  - reflexivity.
Defined.

Lemma resolved_requests (user : User.t) (requestId : ObjId) (action : string)
    (task : Task.t) :
  ∃ s, s ≠ DelegationRequest.pending
       ∧ Task.delegationRequests (resolved user requestId action task)
         = set_request_status requestId s (Task.delegationRequests task).
Proof.
  unfold resolved. destruct (String.eqb action "accept"); simpl.
  - by exists DelegationRequest.accepted.
  - by exists DelegationRequest.rejected.
Qed.

(** X8. A request that was resolved is gone from every listing. After an
    accept or a reject that goes through, in a store whose ids are unique,
    no listing of delegation requests, whoever asks for it, contains an
    entry with the id of that request. *)
Theorem resolve_then_unlisted (user other : User.t) (requestId : ObjId)
    (action : string) (d : Db) (views : list RequestView.t) :
  ids_wf d →
  Res.status (fst (resolve user requestId action d)) = 200 →
  delegation_requests other (snd (resolve user requestId action d)) = Answer 200 views →
  Forall (λ v, RequestView._id v ≠ requestId) views.
Proof.
  intros Hwf Hok Hviews. apply Forall_forall. intros v Hv Hid.
  pose proof (resolve_ids_wf user requestId action d Hwf) as (_ & Hnd' & _).
  destruct Hwf as (Hnd & _ & _).
  destruct (resolve_cases user requestId action d)
    as [[_ H] | (task & request & [Hin _]%findOne_Some & _ & Hreq & _ & _ & Hd' & _)];
    [done|].
  rewrite Hd' in Hviews, Hnd'. simpl in Hnd'.
  destruct (save_task_split (resolved user requestId action task) task (tasks d)
              Hnd Hin (resolved_id _ _ _ _)) as (k1 & k2 & Hk & Hs).
  rewrite Hs in Hviews, Hnd'.
  destruct (resolved_requests user requestId action task) as (s & Hs' & Hdr).
  destruct (set_request_status_split requestId s _ _ Hreq) as (l1 & l2 & Hl & Hset).
  apply requests_id_Some in Hreq as [_ Hrid].
  apply (delegation_requests_spec _ _ _ Hviews) in Hv
    as (t & r & tu & Ht & Hr & _ & _ & _ & Hp & _ & ->).
  simpl in Hid, Ht.
  assert (r = DelegationRequest.set_status s request) as ->.
  { apply (request_ids_unique (k1 ++ resolved user requestId action task :: k2)
             t (resolved user requestId action task)); try done.
    - apply elem_of_app. right. by left.
    - rewrite Hdr, Hset. apply elem_of_app. right. by left.
    - simpl. congruence. }
  simpl in Hp. done.
Qed.

Lemma resolve_then_unlisted_witness :
  ∃ views,
    delegation_requests Scenario.carol
      (snd (resolve Scenario.carol 1001 "reject" Scenario2.db_two)) = Answer 200 views
    ∧ length views = 1
    ∧ Forall (λ v, RequestView._id v ≠ 1001) views.
Proof.
  eexists. split; [vm_compute; reflexivity|]. split; [reflexivity|].
  apply (resolve_then_unlisted Scenario.carol Scenario.carol 1001 "reject" Scenario2.db_two).
  - repeat split.
    + apply (bool_decide_unpack _). vm_compute. reflexivity.
    + apply (bool_decide_unpack _). vm_compute. reflexivity.
    + apply (bool_decide_unpack _). vm_compute. reflexivity.
  - vm_compute. reflexivity.
  - vm_compute. reflexivity.
Defined.

(** ** POST /api/tasks/:id/comments and PUT /api/tasks/:id *)

Lemma with_tasks_same (d : Db) : with_tasks (tasks d) d = d.
Proof. by destruct d. Qed.

Lemma save_task_keeps_id (t' t : Task.t) (l : list Task.t) :
  t ∈ l → Task._id t' = Task._id t →
  ∃ x, findOne (λ y, id_eqb (Task._id y) (Task._id t')) (save_task t' l) = Some x.
Proof.
  intros Hin Hid. induction l as [|a l IH]; [by apply elem_of_nil in Hin|].
  simpl. destruct (id_eqb (Task._id a) (Task._id t')) eqn:Ha.
  - exists t'. simpl. unfold id_eqb. by rewrite Nat.eqb_refl.
  - apply elem_of_cons in Hin as [-> | Hin].
    + rewrite Hid in Ha. unfold id_eqb in Ha. by rewrite Nat.eqb_refl in Ha.
    + destruct (IH Hin) as [x Hx]. exists x. simpl. by rewrite Ha.
Qed.

Lemma task_comment_cases (user : User.t) (id : ObjId) (content : string) (now : nat)
    (d : Db) :
  NoDup (Task._id <$> tasks d) →
  (∃ status message,
     status ≠ 200 ∧ task_comment user id content now d = (Refusal status message, d))
  ∨ ∃ l1 t l2,
      tasks d = l1 ++ t :: l2
      ∧ Task._id t = id
      ∧ Task.isActive t = true
      ∧ User.company user = Some (Task.company t)
      ∧ task_visible_to user t = true
      ∧ comment_valid content = true
      ∧ let comments' :=
          Task.comments t ++ [Task.mkComment (User._id user) (trim (trim content)) now] in
        task_comment user id content now d
        = (Answer 200 ("Comment added successfully", comments'),
           with_tasks (l1 ++ task_set_comments comments' t :: l2) d).
Proof.
  intros Hnd.
  destruct (comment_valid content) eqn:Hv.
  2: { left. exists 400, "Validation failed". split; [done|].
       unfold task_comment. by rewrite Hv. }
  destruct (User.company user) as [c|] eqn:Hc.
  2: { left. exists 500, "Server error while adding comment". split; [done|].
       unfold task_comment, company_id. by rewrite Hv, Hc. }
  destruct (findOne (task_query user id c) (tasks d)) as [t|] eqn:Ht.
  2: { left. exists 404, "Task not found or access denied". split; [done|].
       unfold task_comment, company_id. by rewrite Hv, Hc, Ht. }
  right. pose proof Ht as Ht'. apply findOne_Some in Ht' as [Hin Hq]. unfold task_query in Hq.
  repeat (apply andb_prop in Hq as [Hq ?]).
  set (t' := task_set_comments
               (Task.comments t ++ [Task.mkComment (User._id user) (trim (trim content)) now])
               t).
  destruct (save_task_split t' t (tasks d) Hnd Hin eq_refl) as (l1 & l2 & Hl & Hs).
  assert (NoDup (Task._id <$> (l1 ++ t' :: l2))) as Hnd'.
  { rewrite Hl in Hnd. by rewrite fmap_app, fmap_cons in *. }
  exists l1, t, l2. repeat split; try done.
  - by apply id_eqb_eq.
  - f_equal. symmetry. by apply id_eqb_eq.
  - cbv zeta. fold t'. unfold task_comment, company_id. rewrite Hv, Hc, Ht.
    cbv zeta. fold t'. unfold with_tasks at 1. cbn [tasks]. rewrite Hs.
    by rewrite (findOne_by_id l1 l2 t' Hnd').
Qed.

(** X9. In a store with unique task ids, a comment call either is refused
    and changes nothing, or appends exactly one comment, with the caller as
    its author, the text with the white space at its ends removed ([trim],
    which takes U+00A0 and the other white space outside ASCII too) and the
    time of the call, at the end of the comments of one task and answers
    with the new list. That task is active,
    of the caller's company, and for a member-tier caller assigned to or
    created by the caller; its other fields, the delegation requests among
    them, every other task and the rest of the store stay as they were. *)
Theorem task_comment_appends_one (user : User.t) (id : ObjId) (content : string)
    (now : nat) (d : Db) :
  NoDup (Task._id <$> tasks d) →
  let r := task_comment user id content now d in
  (∃ status message, status ≠ 200 ∧ fst r = Refusal status message ∧ snd r = d)
  ∨ ∃ l1 t l2 c,
      c = Task.mkComment (User._id user) (trim (trim content)) now
      ∧ tasks d = l1 ++ t :: l2
      ∧ tasks (snd r) = l1 ++ task_set_comments (Task.comments t ++ [c]) t :: l2
      ∧ fst r = Answer 200 ("Comment added successfully", Task.comments t ++ [c])
      ∧ Task._id t = id
      ∧ Task.isActive t = true
      ∧ User.company user = Some (Task.company t)
      ∧ (member_tier (User.role user) = true →
         Task.assignedTo t = User._id user ∨ Task.createdBy t = User._id user)
      ∧ Task.delegationRequests (task_set_comments (Task.comments t ++ [c]) t)
        = Task.delegationRequests t
      ∧ Task.assignedTo (task_set_comments (Task.comments t ++ [c]) t) = Task.assignedTo t
      ∧ users (snd r) = users d
      ∧ projects (snd r) = projects d
      ∧ messages (snd r) = messages d
      ∧ nextId (snd r) = nextId d.
Proof.
  intros Hnd. simpl.
  destruct (task_comment_cases user id content now d Hnd)
    as [(status & message & Hne & ->) | (l1 & t & l2 & Hl & Hid & Ha & Hc & Hv & _ & ->)].
  - left. by exists status, message.
  - right. exists l1, t, l2. eexists. repeat split; try done.
    intros Hm. unfold task_visible_to in Hv. rewrite Hm in Hv.
    apply orb_prop in Hv as [?%id_eqb_eq | ?%id_eqb_eq]; [by left | by right].
Qed.

Lemma task_comment_appends_one_witness :
  fst (task_comment Scenario.bob 20
         (String (Ascii.ascii_of_nat 194) (String (Ascii.ascii_of_nat 160) " on it ")) 9
         Scenario.db2)
  = Answer 200 ("Comment added successfully", [Task.mkComment 2 "on it" 9]).
Proof.
  assert (NoDup (Task._id <$> tasks Scenario.db2)) as Hnd.
  { apply (bool_decide_unpack _). vm_compute. reflexivity. }
  destruct (task_comment_appends_one Scenario.bob 20
              (String (Ascii.ascii_of_nat 194) (String (Ascii.ascii_of_nat 160) " on it "))
              9 Scenario.db2 Hnd)
    as [(status & message & _ & H & _) | (l1 & t & l2 & c & -> & Ht & _ & -> & _)].
  - vm_compute in H. discriminate.
  - vm_compute in Ht.
    destruct l1 as [|x l1]; [|destruct l1; discriminate].
    injection Ht as <- <-. vm_compute. reflexivity.
Defined.

Lemma apply_update_frame (b : UpdateTask.body) (t : Task.t) :
  Task._id (apply_update b t) = Task._id t
  ∧ Task.project (apply_update b t) = Task.project t
  ∧ Task.company (apply_update b t) = Task.company t
  ∧ Task.assignedTo (apply_update b t) = Task.assignedTo t
  ∧ Task.createdBy (apply_update b t) = Task.createdBy t
  ∧ Task.status (apply_update b t) = Task.status t
  ∧ Task.comments (apply_update b t) = Task.comments t
  ∧ Task.delegationRequests (apply_update b t) = Task.delegationRequests t
  ∧ Task.isActive (apply_update b t) = Task.isActive t.
Proof.
  unfold apply_update.
  destruct (UpdateTask.title b), (UpdateTask.description b),
    (UpdateTask.priority b) as [pr|], (UpdateTask.deadline b);
    try (destruct (parse_priority pr)); by repeat split.
Qed.

Lemma task_update_cases (user : User.t) (id : ObjId) (b : UpdateTask.body) (d : Db) :
  (snd (task_update user id b d) = d
   ∧ Res.status (fst (task_update user id b d)) ≠ 200)
  ∨ ∃ l1 t l2,
      tasks d = l1 ++ t :: l2
      ∧ Task._id t = id
      ∧ Task.isActive t = true
      ∧ User.company user = Some (Task.company t)
      ∧ (User.role user ≠ admin → Task.createdBy t = User._id user)
      ∧ update_task_valid b = true
      ∧ task_update user id b d
        = (Res.mk 200 "Task updated successfully" (Some (apply_update b t)),
           with_tasks (l1 ++ apply_update b t :: l2) d).
Proof.
  unfold task_update, company_id.
  destruct (update_task_valid b); [|left; by split].
  destruct (User.company user) as [c|]; [|left; by split].
  destruct (findOneAndUpdate _ _ (tasks d)) as [[y|] l] eqn:Hf; simpl; [|left; by split].
  pose proof (f_equal fst Hf) as Hfst. pose proof (f_equal snd Hf) as Hsnd.
  simpl in Hfst, Hsnd.
  apply findOneAndUpdate_Some in Hfst as (l1 & t & l2 & Hl & Hq & _ & -> & Hl').
  rewrite Hl' in Hsnd. subst l.
  repeat (apply andb_prop in Hq as [Hq ?]).
  right. exists l1, t, l2. repeat split; try done.
  - by apply id_eqb_eq.
  - f_equal. symmetry. by apply id_eqb_eq.
  - intros Hr. match goal with H : (if bool_decide _ then _ else _) = true |- _ =>
      rewrite bool_decide_eq_false_2 in H by done; by apply id_eqb_eq in H end.
Qed.

(** X10. An update of a task's details either fails and changes nothing or
    rewrites one task, which is active, of the caller's company and, unless
    the caller's role is exactly admin, created by the caller (a top-level
    administrator is held to that too). Whatever the body, the update leaves
    the task's id, project, company, assignee, creator, status, comments,
    delegation requests and active flag alone; with a body that has none of
    the four fields the call still answers 200 and the store is unchanged. *)
Theorem task_update_touches_details_only (user : User.t) (id : ObjId)
    (b : UpdateTask.body) (d : Db) :
  let r := task_update user id b d in
  (Res.status (fst r) ≠ 200 ∧ snd r = d)
  ∨ ∃ l1 t t' l2,
      Res.status (fst r) = 200
      ∧ Res.task (fst r) = Some t'
      ∧ tasks d = l1 ++ t :: l2
      ∧ tasks (snd r) = l1 ++ t' :: l2
      ∧ Task._id t = id
      ∧ Task.isActive t = true
      ∧ User.company user = Some (Task.company t)
      ∧ (User.role user ≠ admin → Task.createdBy t = User._id user)
      ∧ Task._id t' = Task._id t
      ∧ Task.project t' = Task.project t
      ∧ Task.company t' = Task.company t
      ∧ Task.assignedTo t' = Task.assignedTo t
      ∧ Task.createdBy t' = Task.createdBy t
      ∧ Task.status t' = Task.status t
      ∧ Task.comments t' = Task.comments t
      ∧ Task.delegationRequests t' = Task.delegationRequests t
      ∧ Task.isActive t' = Task.isActive t
      ∧ (b = UpdateTask.mk None None None NoDate → snd r = d).
Proof.
  simpl.
  destruct (task_update_cases user id b d)
    as [[H1 H2] | (l1 & t & l2 & Hl & Hid & Ha & Hc & Hcr & _ & ->)]; [by left|].
  right. exists l1, t, (apply_update b t), l2. simpl.
  pose proof (apply_update_frame b t) as (? & ? & ? & ? & ? & ? & ? & ? & ?).
  repeat split; try done.
  intros ->. change (apply_update (UpdateTask.mk None None None NoDate) t) with t.
  rewrite <- Hl. apply with_tasks_same.
Qed.

(** ** DELETE /api/tasks/:id and POST /api/tasks *)

Lemma authorize_admin (user : User.t) :
  authorize [admin] user = true ↔ User.role user = admin.
Proof.
  unfold authorize. rewrite bool_decide_eq_true, list_elem_of_singleton. done.
Qed.

Lemma delete_task_cases (user : User.t) (id : ObjId) (st : Store) :
  (snd (delete_task user id st) = st
   ∧ Res.status (fst (delete_task user id st)) ≠ 200)
  ∨ ∃ l1 t l2,
      User.role user = admin
      ∧ tasks (base st) = l1 ++ t :: l2
      ∧ (∀ x, x ∈ l1 → Task._id x = id → Task.company x = Task.company t →
              Task.isActive x = false)
      ∧ Task._id t = id
      ∧ Task.isActive t = true
      ∧ User.company user = Some (Task.company t)
      ∧ delete_task user id st
        = (json 200 "Task deleted successfully",
           let d' := with_tasks (l1 ++ task_set_isActive false t :: l2) (base st) in
           mkStore d' (pull_task (Task.project t) id d' (project_tasks st))).
Proof.
  unfold delete_task.
  destruct (authorize [admin] user) eqn:Hauth; simpl; [|left; by split].
  apply authorize_admin in Hauth.
  unfold company_id. destruct (User.company user) as [c|]; [|left; by split].
  destruct (findOneAndUpdate _ _ (tasks (base st))) as [[y|] l] eqn:Hf; simpl;
    [|left; by split].
  pose proof (f_equal fst Hf) as Hfst. pose proof (f_equal snd Hf) as Hsnd.
  simpl in Hfst, Hsnd.
  apply findOneAndUpdate_Some in Hfst as (l1 & t & l2 & Hl & Hq & Hl1 & -> & Hl').
  rewrite Hl' in Hsnd. subst l.
  repeat (apply andb_prop in Hq as [Hq ?]).
  assert (Task._id t = id) as Hid by by apply id_eqb_eq.
  assert (Task.company t = c) as Hc by by apply id_eqb_eq.
  right. exists l1, t, l2. repeat split; try done.
  - intros x Hx Hxid Hxc. specialize (Hl1 x Hx). simpl in Hl1.
    rewrite Hxid, Hxc, Hc in Hl1. unfold id_eqb in Hl1. rewrite !Nat.eqb_refl in Hl1.
    by destruct (Task.isActive x).
  - by rewrite Hc.
  - simpl. by rewrite Hid.
Qed.

Lemma tasks_of_pull (projectId taskId pid : ObjId) (d : Db) (st : Store) :
  default [] (pull_task projectId taskId d (project_tasks st) !! pid)
  = if project_exists d projectId && id_eqb projectId pid
    then List.filter (λ i, negb (id_eqb i taskId)) (tasks_of st pid)
    else tasks_of st pid.
Proof.
  unfold pull_task, tasks_of. destruct (project_exists d projectId); simpl; [|done].
  destruct (id_eqb projectId pid) eqn:Heq.
  - apply id_eqb_eq in Heq as ->. by rewrite lookup_insert_eq.
  - apply Nat.eqb_neq in Heq. by rewrite lookup_insert_ne.
Qed.

Lemma tasks_of_push (projectId taskId pid : ObjId) (d : Db) (st : Store) :
  default [] (push_task projectId taskId d (project_tasks st) !! pid)
  = if project_exists d projectId && id_eqb projectId pid
    then tasks_of st pid ++ [taskId]
    else tasks_of st pid.
Proof.
  unfold push_task, tasks_of. destruct (project_exists d projectId); simpl; [|done].
  destruct (id_eqb projectId pid) eqn:Heq.
  - apply id_eqb_eq in Heq as ->. by rewrite lookup_insert_eq.
  - apply Nat.eqb_neq in Heq. by rewrite lookup_insert_ne.
Qed.

(** X11. Deleting a task is a soft delete, open to the role admin only.
    A delete that is answered with 200 was called by an administrator of
    the task's company on an active task with the id; afterwards the task is
    still stored where it was, with [isActive] false and every other field,
    its delegation requests included, as before; its id is gone from the
    task array of its project when that project exists, and the arrays of
    all other projects, all other tasks and the rest of the store are
    unchanged. Any other answer leaves the store as it was. *)
Theorem delete_task_is_soft (user : User.t) (id : ObjId) (st : Store) :
  let r := delete_task user id st in
  (Res.status (fst r) ≠ 200 ∧ snd r = st)
  ∨ ∃ l1 t l2,
      fst r = json 200 "Task deleted successfully"
      ∧ User.role user = admin
      ∧ User.company user = Some (Task.company t)
      ∧ Task._id t = id
      ∧ Task.isActive t = true
      ∧ tasks (base st) = l1 ++ t :: l2
      ∧ tasks (base (snd r)) = l1 ++ task_set_isActive false t :: l2
      ∧ Task.delegationRequests (task_set_isActive false t) = Task.delegationRequests t
      ∧ Task.assignedTo (task_set_isActive false t) = Task.assignedTo t
      ∧ (project_exists (base st) (Task.project t) = true →
         id ∉ tasks_of (snd r) (Task.project t))
      ∧ (∀ pid, pid ≠ Task.project t → tasks_of (snd r) pid = tasks_of st pid)
      ∧ users (base (snd r)) = users (base st)
      ∧ projects (base (snd r)) = projects (base st)
      ∧ messages (base (snd r)) = messages (base st)
      ∧ nextId (base (snd r)) = nextId (base st).
Proof.
  simpl.
  destruct (delete_task_cases user id st)
    as [[H1 H2] | (l1 & t & l2 & Hr & Hl & _ & Hid & Ha & Hc & ->)]; [by left|].
  right. exists l1, t, l2. simpl. repeat split; try done.
  - intros Hex. unfold tasks_of at 1. simpl. rewrite tasks_of_pull.
    unfold project_exists in *. simpl. rewrite Hex. unfold id_eqb at 1.
    rewrite Nat.eqb_refl. simpl.
    rewrite elem_of_List_filter. intros [_ H]. unfold id_eqb in H.
    by rewrite Nat.eqb_refl in H.
  - intros pid Hne. unfold tasks_of at 1. simpl. rewrite tasks_of_pull.
    assert (id_eqb (Task.project t) pid = false) as -> by (apply Nat.eqb_neq; congruence).
    by rewrite andb_false_r.
Qed.

Lemma task_show_Answer (user : User.t) (id : ObjId) (d : Db) (t : Task.t) :
  task_show user id d = Answer 200 t →
  t ∈ tasks d ∧ Task._id t = id ∧ Task.isActive t = true
  ∧ User.company user = Some (Task.company t)
  ∧ task_visible_to user t = true.
Proof.
  unfold task_show, company_id. destruct (User.company user) as [c|]; [|done].
  destruct (findOne _ (tasks d)) as [x|] eqn:Hx; [|done].
  intros [= ->]. apply findOne_Some in Hx as [Hin Hq]. unfold task_query in Hq.
  repeat (apply andb_prop in Hq as [Hq ?]).
  repeat split; try done; [by apply id_eqb_eq|].
  f_equal. symmetry. by apply id_eqb_eq.
Qed.

Lemma task_show_status (user : User.t) (id : ObjId) (d : Db) :
  (∃ t, task_show user id d = Answer 200 t)
  ∨ ∃ status message, status ≠ 200 ∧ task_show user id d = Refusal status message.
Proof.
  unfold task_show, company_id. destruct (User.company user) as [c|].
  - destruct (findOne _ (tasks d)) as [x|]; [left; by eexists|].
    right. by exists 404, "Task not found or access denied".
  - right. by exists 500, "Server error while fetching task".
Qed.

Lemma request_owner_unique (l : list Task.t) (t1 t2 : Task.t)
    (r1 r2 : DelegationRequest.t) :
  NoDup (request_ids l) →
  t1 ∈ l → t2 ∈ l →
  r1 ∈ Task.delegationRequests t1 → r2 ∈ Task.delegationRequests t2 →
  DelegationRequest._id r1 = DelegationRequest._id r2 →
  t1 = t2.
Proof.
  induction l as [|a l IH]; [by intros _ ?%elem_of_nil|].
  rewrite request_ids_cons. intros (Ha & Hdisj & Hl)%NoDup_app.
  intros [->|H1]%elem_of_cons [->|H2]%elem_of_cons Hr1 Hr2 Hid.
  - done.
  - exfalso. apply (Hdisj (DelegationRequest._id r1)).
    + apply list_elem_of_fmap. by exists r1.
    + rewrite Hid. by apply (request_ids_elem l t2).
  - exfalso. apply (Hdisj (DelegationRequest._id r2)).
    + apply list_elem_of_fmap. by exists r2.
    + rewrite <- Hid. by apply (request_ids_elem l t1).
  - by apply IH.
Qed.

(** X12. A deleted task is out of reach of every route that works on one
    task. After a delete that is answered with 200, in a store with unique
    task and request ids, no delegate call, status update, update of
    details, comment, single-task read or second delete on that id
    succeeds, whoever calls, none of them changes the store, no request of
    the task can be resolved any more, and no task list of GET /api/tasks
    shows a task with that id. *)
Theorem deleted_task_out_of_reach (user : User.t) (id : ObjId) (st : Store) :
  NoDup (Task._id <$> tasks (base st)) →
  NoDup (request_ids (tasks (base st))) →
  Res.status (fst (delete_task user id st)) = 200 →
  let st' := snd (delete_task user id st) in
  let d' := base st' in
  ∀ u : User.t,
    (∀ body now, Res.status (fst (delegate u id body now d')) ≠ 200
                 ∧ snd (delegate u id body now d') = d')
    ∧ (∀ s, Res.status (fst (task_status u id s d')) ≠ 200
            ∧ snd (task_status u id s d') = d')
    ∧ (∀ b, Res.status (fst (task_update u id b d')) ≠ 200
            ∧ snd (task_update u id b d') = d')
    ∧ (∀ c now, ∃ status message,
          status ≠ 200 ∧ task_comment u id c now d' = (Refusal status message, d'))
    ∧ (∃ status message, status ≠ 200 ∧ task_show u id d' = Refusal status message)
    ∧ (Res.status (fst (delete_task u id st')) ≠ 200 ∧ snd (delete_task u id st') = st')
    ∧ (∀ t r action, t ∈ tasks d' → Task._id t = id →
          r ∈ Task.delegationRequests t →
          Res.status (fst (resolve u (DelegationRequest._id r) action d')) ≠ 200
          ∧ snd (resolve u (DelegationRequest._id r) action d') = d')
    ∧ (∀ l, tasks_index u d' = Answer 200 l → ∀ x, x ∈ l → Task._id x ≠ id).
Proof.
  intros Hnd Hreq Hok. simpl.
  destruct (delete_task_cases user id st)
    as [[_ H] | (l1 & t & l2 & _ & Hl & _ & Hid & _ & _ & Heq)]; [done|].
  rewrite Heq. simpl. clear Heq Hok.
  set (t' := task_set_isActive false t).
  set (d' := with_tasks (l1 ++ t' :: l2) (base st)).
  set (st' := mkStore d' _).
  assert (NoDup (Task._id <$> tasks d')) as Hnd'.
  { simpl. rewrite Hl in Hnd. by rewrite fmap_app, fmap_cons in *. }
  assert (NoDup (request_ids (tasks d'))) as Hreq'.
  { simpl. rewrite Hl in Hreq. by rewrite request_ids_app, request_ids_cons in *. }
  assert (∀ x, x ∈ tasks d' → Task._id x = id → Task.isActive x = false) as Hoff.
  { intros x Hx Hxid. assert (x = t') as ->; [|done].
    apply (task_ids_unique l1 l2); [exact Hnd' | exact Hx | by rewrite Hxid]. }
  assert (∀ x, x ∈ tasks d' → Task._id x = id → Task.isActive x = true → False) as Hno.
  { intros x Hx Hxid Hxa. rewrite (Hoff x Hx Hxid) in Hxa. done. }
  intros u. repeat split.
  - intros H. destruct (delegate_success u id body now d' H)
      as (x & _ & _ & Hx & Hxid & _ & _ & Hxa & _). by apply (Hno x).
  - destruct (delegate_cases u id body now d')
      as [[H _] | (x & toUser & Hx & Hxid & _ & _ & _ & Hd)]; [done|].
    exfalso. assert (Res.status (fst (delegate u id body now d')) = 200) as H
      by by rewrite Hd.
    destruct (delegate_success u id body now d' H)
      as (y & _ & _ & Hy & Hyid & _ & _ & Hya & _). by apply (Hno y).
  - destruct (task_status_cases u id s d')
      as [[_ H] | (? & k1 & x & k2 & _ & Hk & Hxid & _ & Hxa & _)]; [done|].
    exfalso. apply (Hno x); try done. rewrite Hk. apply elem_of_app. right. by left.
  - destruct (task_status_cases u id s d')
      as [[H _] | (? & k1 & x & k2 & _ & Hk & Hxid & _ & Hxa & _)]; [done|].
    exfalso. apply (Hno x); try done. rewrite Hk. apply elem_of_app. right. by left.
  - destruct (task_update_cases u id b d')
      as [[_ H] | (k1 & x & k2 & Hk & Hxid & Hxa & _)]; [done|].
    exfalso. apply (Hno x); try done. rewrite Hk. apply elem_of_app. right. by left.
  - destruct (task_update_cases u id b d')
      as [[H _] | (k1 & x & k2 & Hk & Hxid & Hxa & _)]; [done|].
    exfalso. apply (Hno x); try done. rewrite Hk. apply elem_of_app. right. by left.
  - intros c now. destruct (task_comment_cases u id c now d' Hnd')
      as [H | (k1 & x & k2 & Hk & Hxid & Hxa & _)]; [done|].
    exfalso. apply (Hno x); try done. rewrite Hk. apply elem_of_app. right. by left.
  - destruct (task_show_status u id d') as [[x Hx] | H]; [|done].
    exfalso. apply task_show_Answer in Hx as (Hx & Hxid & Hxa & _). by apply (Hno x).
  - destruct (delete_task_cases u id st')
      as [[_ H] | (k1 & x & k2 & _ & Hk & _ & Hxid & Hxa & _)]; [done|].
    exfalso. apply (Hno x); try done. change (tasks d') with (tasks (base st')).
    rewrite Hk. apply elem_of_app. right. by left.
  - destruct (delete_task_cases u id st')
      as [[H _] | (k1 & x & k2 & _ & Hk & _ & Hxid & Hxa & _)]; [done|].
    exfalso. apply (Hno x); try done. change (tasks d') with (tasks (base st')).
    rewrite Hk. apply elem_of_app. right. by left.
  - destruct (resolve_cases u (DelegationRequest._id r) action d')
      as [[_ H'] | (x & r0 & [Hx Hq]%findOne_Some & _ & Hr0 & _)]; [done|].
    exfalso. apply requests_id_Some in Hr0 as [Hr0 Hr0id].
    unfold resolve_query in Hq. repeat (apply andb_prop in Hq as [Hq ?]).
    assert (x = t0) as ->.
    { apply (request_owner_unique (tasks d') x t0 r0 r); try done. }
    by apply (Hno t0).
  - destruct (resolve_cases u (DelegationRequest._id r) action d')
      as [[H' _] | (x & r0 & [Hx Hq]%findOne_Some & _ & Hr0 & _)]; [done|].
    exfalso. apply requests_id_Some in Hr0 as [Hr0 Hr0id].
    unfold resolve_query in Hq. repeat (apply andb_prop in Hq as [Hq ?]).
    assert (x = t0) as ->.
    { apply (request_owner_unique (tasks d') x t0 r0 r); try done. }
    by apply (Hno t0).
  - intros l Hl' x Hx Hxid.
    destruct (tasks_index_spec u d') as [(_ & _ & H') | (l' & H' & _ & Hmem)]; [congruence|].
    rewrite Hl' in H'. injection H' as <-.
    apply Hmem in Hx as (Hx & Hxa & _). by apply (Hno x).
Qed.

Lemma deleted_task_out_of_reach_witness :
  Res.status (fst (resolve Scenario.bob 1000 "accept"
                     (base (snd (delete_task Scenario2.erin 20 Scenario2.st_admin))))) ≠ 200
  ∧ snd (resolve Scenario.bob 1000 "accept"
           (base (snd (delete_task Scenario2.erin 20 Scenario2.st_admin))))
    = base (snd (delete_task Scenario2.erin 20 Scenario2.st_admin)).
Proof.
  assert (NoDup (Task._id <$> tasks (base Scenario2.st_admin))) as H1.
  { apply (bool_decide_unpack _). vm_compute. reflexivity. }
  assert (NoDup (request_ids (tasks (base Scenario2.st_admin)))) as H2.
  { apply (bool_decide_unpack _). vm_compute. reflexivity. }
  assert (Res.status (fst (delete_task Scenario2.erin 20 Scenario2.st_admin)) = 200) as H3.
  { vm_compute. reflexivity. }
  pose proof (deleted_task_out_of_reach Scenario2.erin 20 Scenario2.st_admin H1 H2 H3
                Scenario.bob) as (_ & _ & _ & _ & _ & _ & Hres & _).
  apply (Hres (task_set_isActive false Scenario.task20_db1) Scenario.request1000 "accept").
  - vm_compute. apply list_elem_of_here.
  - reflexivity.
  - vm_compute. apply list_elem_of_here.
Defined.

Lemma create_task_cases (user : User.t) (b : CreateTask.body) (st : Store) :
  (snd (create_task user b st) = st
   ∧ Res.status (fst (create_task user b st)) ≠ 201)
  ∨ ∃ projectId assignedTo priority deadline companyId project assignee,
      User.role user = admin
      ∧ User.company user = Some companyId
      ∧ CreateTask.projectId b = Some projectId
      ∧ CreateTask.assignedTo b = Some assignedTo
      ∧ CreateTask.deadline b = DateAt deadline
      ∧ match CreateTask.priority b with
        | None => priority = Task.medium
        | Some s => parse_priority s = Some priority
        end
      ∧ project ∈ projects (base st)
      ∧ Project._id project = projectId
      ∧ Project.company project = companyId
      ∧ Project.isActive project = true
      ∧ assignedTo ∈ Project.members project
      ∧ assignee ∈ users (base st)
      ∧ User._id assignee = assignedTo
      ∧ User.company assignee = Some companyId
      ∧ User.isActive assignee = true
      ∧ let task :=
          Task.mk (nextId (base st)) (trim (trim (CreateTask.title b)))
            (trim (trim (CreateTask.description b))) projectId companyId assignedTo
            (User._id user) Task.todo priority deadline [] [] true in
        let d' := bump (with_tasks (tasks (base st) ++ [task]) (base st)) in
        create_task user b st
        = (Res.mk 201 "Task created successfully"
             (findOne (λ t, id_eqb (Task._id t) (nextId (base st))) (tasks d')),
           mkStore d'
             (<[projectId := tasks_of st projectId ++ [nextId (base st)]]> (project_tasks st))).
Proof.
  unfold create_task.
  destruct (authorize [admin] user) eqn:Hauth; simpl; [|left; by split].
  apply authorize_admin in Hauth.
  destruct (CreateTask.projectId b) as [projectId|]; [|left; by split].
  destruct (CreateTask.assignedTo b) as [assignedTo|]; [|left; by split].
  destruct (CreateTask.deadline b) as [| |deadline]; [left; by split|left; by split|].
  destruct (match CreateTask.priority b with
            | Some s => parse_priority s
            | None => Some Task.medium
            end) as [priority|] eqn:Hpr; [|left; by split].
  destruct (text_valid 200 _ && text_valid 1000 _); [|left; by split].
  unfold create_task_try, company_id.
  destruct (User.company user) as [companyId|]; simpl; [|left; by split].
  destruct (findOne _ (projects (base st))) as [project|] eqn:Hproject; [|left; by split].
  apply findOne_Some in Hproject as [Hpin Hpq].
  repeat (apply andb_prop in Hpq as [Hpq ?]).
  destruct (existsb _ (populated_members (base st) project)) eqn:Hmem; simpl;
    [|left; by split].
  destruct (findOne _ (users (base st))) as [assignee|] eqn:Hassignee; [|left; by split].
  apply findOne_Some in Hassignee as [Hain Haq].
  repeat (apply andb_prop in Haq as [Haq ?]).
  apply existsb_exists in Hmem as (m & Hm & ->%id_eqb_eq).
  apply list_elem_of_In, elem_of_List_filter in Hm as [Hm _].
  repeat match goal with H : id_eqb _ _ = true |- _ => apply id_eqb_eq in H end.
  match goal with H : bool_decide _ = true |- _ => apply bool_decide_eq_true in H end.
  right. exists projectId, assignedTo, priority, deadline, companyId, project, assignee.
  repeat split; try done.
  - destruct (CreateTask.priority b); congruence.
  - simpl. unfold push_task, project_exists. simpl.
    destruct (find_is_Some (λ p, id_eqb (Project._id p) projectId) (projects (base st))
                project Hpin) as [p Hp]; [by apply id_eqb_eq|].
    unfold findOne. rewrite Hp. done.
Qed.

(** X13. Creating a task is open to the role admin only, and a creation
    that is answered with 201 appends one task and nothing else: the task
    has a fresh id, taken from the id source, status todo, no comments and
    no delegation requests, is active, of the caller's company, created by
    the caller, in an active project of that company, and assigned to a
    listed member of that project who is an active user of the company;
    its id is appended to the task array of its project. Any other answer
    leaves the store as it was. *)
Theorem create_task_appends_fresh_task (user : User.t) (b : CreateTask.body) (st : Store) :
  let r := create_task user b st in
  (Res.status (fst r) ≠ 201 ∧ snd r = st)
  ∨ ∃ t project assignee,
      Res.status (fst r) = 201
      ∧ User.role user = admin
      ∧ tasks (base (snd r)) = tasks (base st) ++ [t]
      ∧ Task._id t = nextId (base st)
      ∧ nextId (base (snd r)) = S (nextId (base st))
      ∧ Task.status t = Task.todo
      ∧ Task.comments t = []
      ∧ Task.delegationRequests t = []
      ∧ Task.isActive t = true
      ∧ Task.createdBy t = User._id user
      ∧ User.company user = Some (Task.company t)
      ∧ project ∈ projects (base st)
      ∧ Project._id project = Task.project t
      ∧ Project.company project = Task.company t
      ∧ Project.isActive project = true
      ∧ Task.assignedTo t ∈ Project.members project
      ∧ assignee ∈ users (base st)
      ∧ User._id assignee = Task.assignedTo t
      ∧ User.company assignee = Some (Task.company t)
      ∧ User.isActive assignee = true
      ∧ tasks_of (snd r) (Task.project t) = tasks_of st (Task.project t) ++ [Task._id t]
      ∧ (∀ pid, pid ≠ Task.project t → tasks_of (snd r) pid = tasks_of st pid)
      ∧ users (base (snd r)) = users (base st)
      ∧ projects (base (snd r)) = projects (base st)
      ∧ messages (base (snd r)) = messages (base st).
Proof.
  simpl.
  destruct (create_task_cases user b st)
    as [[H1 H2] | (pid & aid & pr & dl & c & project & assignee & Hr & Hc & _ & _ & _ & _
                   & Hpin & Hpid & Hpc & Hpa & Hmem & Hain & Haid & Hac & Haa & Heq)];
    [by left|].
  right. rewrite Heq. eexists. exists project, assignee. simpl.
  repeat split; try done.
  - unfold tasks_of at 1. simpl. by rewrite lookup_insert_eq.
  - intros p Hne. unfold tasks_of at 1. simpl. by rewrite lookup_insert_ne.
Qed.

Lemma findOneAndUpdate_last {A} (q : A → bool) (f : A → A) (l : list A) (t : A) :
  (∀ x, x ∈ l → q x = false) → q t = true →
  findOneAndUpdate q f (l ++ [t]) = (Some (f t), l ++ [f t]).
Proof.
  intros Hl Ht. induction l as [|a l IH]; simpl.
  - by rewrite Ht.
  - rewrite (Hl a) by by left. rewrite IH; [done|]. intros x Hx. apply Hl. by right.
Qed.

Lemma filter_absent (id : ObjId) (l : list ObjId) :
  id ∉ l → List.filter (λ i, negb (id_eqb i id)) l = l.
Proof.
  induction l as [|a l IH]; simpl; [done|].
  intros [Ha Hl]%not_elem_of_cons.
  assert (id_eqb a id = false) as -> by (apply Nat.eqb_neq; congruence).
  simpl. by rewrite IH.
Qed.

Lemma project_exists_elem (d : Db) (p : Project.t) :
  p ∈ projects d → project_exists d (Project._id p) = true.
Proof.
  intros Hp. unfold project_exists.
  destruct (find_is_Some (λ x, id_eqb (Project._id x) (Project._id p)) (projects d) p Hp)
    as [y Hy]; [by apply id_eqb_eq|].
  unfold findOne. by rewrite Hy.
Qed.

(** X14. Creating a task and deleting it again restores the task array of
    every project. In a store where the ids of the tasks and the ids in
    the project arrays were all handed out by the id source, after a
    creation answered with 201 the same administrator's delete of the new
    id is answered with 200, the project arrays are what they were before
    the creation, and the new task stays stored, inactive, behind the tasks
    that were there. *)
Theorem create_then_delete_restores_project (user : User.t) (b : CreateTask.body)
    (st : Store) :
  Forall (λ i, i < nextId (base st)) (Task._id <$> tasks (base st)) →
  (∀ pid, Forall (λ i, i < nextId (base st)) (tasks_of st pid)) →
  Res.status (fst (create_task user b st)) = 201 →
  let id := nextId (base st) in
  let st2 := snd (delete_task user id (snd (create_task user b st))) in
  fst (delete_task user id (snd (create_task user b st)))
  = json 200 "Task deleted successfully"
  ∧ (∀ pid, tasks_of st2 pid = tasks_of st pid)
  ∧ ∃ t, tasks (base st2) = tasks (base st) ++ [t]
         ∧ Task._id t = id
         ∧ Task.isActive t = false.
Proof.
  intros Hids Harr Hok. simpl.
  destruct (create_task_cases user b st)
    as [[_ H] | (pid & aid & pr & dl & c & project & assignee & Hr & Hc & _ & _ & _ & _
                 & Hpin & Hpid & Hpc & Hpa & _ & _ & _ & _ & _ & Heq)]; [done|].
  rewrite Heq. clear Heq Hok. cbv zeta. cbn [snd].
  set (t := Task.mk (nextId (base st)) _ _ pid c aid _ _ pr dl [] [] true).
  unfold delete_task. cbn [base].
  assert (authorize [admin] user = true) as -> by by apply authorize_admin.
  unfold company_id. rewrite Hc. cbn [negb].
  cbn [tasks bump with_tasks].
  rewrite findOneAndUpdate_last.
  - cbn [Task.project Task._id task_set_isActive project_tasks].
    unfold pull_task.
    change (Task.project t) with pid. change (Task._id t) with (nextId (base st)).
    cbn [fst snd base].
    assert (project_exists
              (with_tasks (tasks (base st) ++ [task_set_isActive false t])
                 (bump (with_tasks (tasks (base st) ++ [t]) (base st)))) pid = true) as ->.
    { rewrite <- Hpid. by apply project_exists_elem. }
    rewrite lookup_insert_eq. cbn [default from_option id].
    rewrite List.filter_app. simpl. unfold id_eqb at 2. rewrite Nat.eqb_refl. simpl.
    rewrite app_nil_r, filter_absent.
    2: { intros Hin. specialize (Harr pid). rewrite Forall_forall in Harr.
         specialize (Harr _ Hin). lia. }
    split; [done|]. split.
    + intros p. unfold tasks_of at 1. cbn [project_tasks].
      destruct (decide (pid = p)) as [->|Hne].
      * rewrite lookup_insert_eq. done.
      * rewrite lookup_insert_ne by done. rewrite lookup_insert_ne by done. done.
    + by exists (task_set_isActive false t).
  - intros x Hx. rewrite Forall_forall in Hids.
    assert (Task._id x < nextId (base st)) as Hlt.
    { apply Hids. by apply list_elem_of_fmap_2. }
    assert (id_eqb (Task._id x) (nextId (base st)) = false) as ->; [|done].
    apply Nat.eqb_neq. lia.
  - simpl. unfold id_eqb. by rewrite !Nat.eqb_refl.
Qed.

Lemma create_then_delete_restores_project_witness :
  fst (delete_task Scenario2.erin 1001
         (snd (create_task Scenario2.erin Scenario2.new_task Scenario2.st_admin)))
  = json 200 "Task deleted successfully"
  ∧ tasks_of (snd (delete_task Scenario2.erin 1001
                     (snd (create_task Scenario2.erin Scenario2.new_task Scenario2.st_admin))))
             10
    = [20].
Proof.
  assert (Forall (λ i, i < nextId (base Scenario2.st_admin))
                 (Task._id <$> tasks (base Scenario2.st_admin))) as H1.
  { apply (bool_decide_unpack _). vm_compute. reflexivity. }
  assert (∀ pid, Forall (λ i, i < nextId (base Scenario2.st_admin))
                        (tasks_of Scenario2.st_admin pid)) as H2.
  { intros pid. unfold tasks_of, Scenario2.st_admin. simpl.
    destruct (decide (pid = 10)) as [->|Hne].
    - rewrite lookup_singleton_eq. simpl. constructor; [lia | constructor].
    - rewrite lookup_singleton_ne by done. constructor. }
  assert (Res.status (fst (create_task Scenario2.erin Scenario2.new_task Scenario2.st_admin))
          = 201) as H3.
  { vm_compute. reflexivity. }
  destruct (create_then_delete_restores_project Scenario2.erin Scenario2.new_task
              Scenario2.st_admin H1 H2 H3) as (Ha & Hb & _).
  split; [exact Ha|]. exact (Hb 10).
Defined.
(** ** Invariants of the tasks router *)

(** Replacing one task by a task with the same id and the same delegation
    requests keeps the invariant. *)
Lemma tasks_inv_replace (d : Db) (l1 l2 : list Task.t) (t t' : Task.t) :
  tasks d = l1 ++ t :: l2 →
  Task._id t' = Task._id t →
  Task.delegationRequests t' = Task.delegationRequests t →
  tasks_inv d → tasks_inv (with_tasks (l1 ++ t' :: l2) d).
Proof.
  intros Hl Hid Hdr ((Hnd & Hreq & Hlt) & Hbound & Hone).
  unfold tasks_inv, ids_wf. simpl.
  rewrite Hl in Hnd, Hreq, Hlt, Hbound.
  rewrite request_ids_app, request_ids_cons in *.
  rewrite fmap_app, fmap_cons in *. rewrite Hid, Hdr.
  repeat split; try done.
  intros x u Hx. simpl in Hx.
  assert (∃ y, y ∈ tasks d ∧ Task.delegationRequests x = Task.delegationRequests y)
    as (y & Hy & Heq).
  { rewrite Hl. apply elem_of_app in Hx as [Hx | [-> | Hx]%elem_of_cons].
    - exists x. split; [|done]. apply elem_of_app. by left.
    - exists t. split; [|done]. apply elem_of_app. right. by left.
    - exists x. split; [|done]. apply elem_of_app. right. by right. }
  unfold pending_from. rewrite Heq. by apply (Hone y u).
Qed.

Lemma save_task_ids (t' t : Task.t) (l : list Task.t) :
  Task._id t' = Task._id t → t ∈ l → Task._id <$> save_task t' l = Task._id <$> l.
Proof.
  intros Hid Hin. induction l as [|a l IH]; simpl; [done|].
  destruct (id_eqb (Task._id a) (Task._id t')) eqn:Ha; simpl.
  - apply id_eqb_eq in Ha. by rewrite Ha.
  - f_equal. apply IH. apply elem_of_cons in Hin as [-> | Hin]; [|done].
    rewrite Hid in Ha. unfold id_eqb in Ha. by rewrite Nat.eqb_refl in Ha.
Qed.

Lemma delegate_tasks_inv (user : User.t) (taskId : ObjId) (body : DelegateBody)
    (now : nat) (d : Db) :
  tasks_inv d → tasks_inv (snd (delegate user taskId body now d)).
Proof.
  intros (Hwf & Hbound & Hone). split; [by apply delegate_ids_wf|].
  split; [|by apply delegate_preserves].
  destruct (delegate_cases user taskId body now d)
    as [[-> _] | (task & toUser & Hin & _ & _ & _ & _ & ->)]; [done|].
  unfold delegated. simpl. rewrite (save_task_ids _ task); [|done|done].
  eapply Forall_impl; [exact Hbound|]. simpl. lia.
Qed.

Lemma resolve_tasks_inv (user : User.t) (requestId : ObjId) (action : string) (d : Db) :
  tasks_inv d → tasks_inv (snd (resolve user requestId action d)).
Proof.
  intros (Hwf & Hbound & Hone). split; [by apply resolve_ids_wf|].
  split; [|by apply resolve_preserves].
  destruct (resolve_cases user requestId action d)
    as [[-> _] | (task & request & [Hin _]%findOne_Some & _ & _ & _ & _ & -> & _)]; [done|].
  simpl. rewrite (save_task_ids _ task); [done|apply resolved_id|done].
Qed.

Lemma create_tasks_inv (user : User.t) (b : CreateTask.body) (st : Store) :
  tasks_inv (base st) → tasks_inv (base (snd (create_task user b st))).
Proof.
  intros ((Hnd & Hreq & Hlt) & Hbound & Hone).
  destruct (create_task_cases user b st)
    as [[-> _] | (pid & aid & pr & dl & c & project & assignee & _ & _ & _ & _ & _ & _
                  & _ & _ & _ & _ & _ & _ & _ & _ & _ & ->)]; [done|].
  cbv zeta. cbn [snd base]. unfold tasks_inv, ids_wf. simpl.
  rewrite fmap_app, request_ids_app. simpl. rewrite app_nil_r.
  repeat split.
  - apply NoDup_app. split; [done|]. split; [|apply NoDup_singleton].
    intros i Hi ->%list_elem_of_singleton. rewrite Forall_forall in Hbound.
    specialize (Hbound _ Hi). lia.
  - done.
  - eapply Forall_impl; [exact Hlt|]. simpl. lia.
  - apply Forall_app. split; [|repeat constructor].
    eapply Forall_impl; [exact Hbound|]. simpl. lia.
  - intros x u [Hx | ->%list_elem_of_singleton]%elem_of_app; [by apply Hone|].
    simpl. lia.
Qed.

Lemma task_step_inv (st : Store) (op : TaskOp) :
  tasks_inv (base st) → tasks_inv (base (task_step st op)).
Proof.
  intros Hinv. destruct op as [user b|user id|user id status|user id content now|user id b
                              |user taskId body now|user requestId action]; simpl.
  - by apply create_tasks_inv.
  - destruct (delete_task_cases user id st)
      as [[-> _] | (l1 & t & l2 & _ & Hl & _ & _ & _ & _ & ->)]; [done|].
    simpl. by apply (tasks_inv_replace (base st) l1 l2 t).
  - destruct (task_status_cases user id status (base st))
      as [[-> _] | (s & l1 & t & l2 & _ & Hl & _ & _ & _ & _ & ->)]; [done|].
    simpl. by apply (tasks_inv_replace (base st) l1 l2 t).
  - destruct Hinv as ((Hnd & ?) & ?).
    destruct (task_comment_cases user id content now (base st) Hnd)
      as [(? & ? & _ & ->) | (l1 & t & l2 & Hl & _ & _ & _ & _ & _ & ->)]; [done|].
    simpl. by apply (tasks_inv_replace (base st) l1 l2 t).
  - destruct (task_update_cases user id b (base st))
      as [[-> _] | (l1 & t & l2 & Hl & _ & _ & _ & _ & _ & ->)]; [done|].
    simpl. pose proof (apply_update_frame b t) as (? & _ & _ & _ & _ & _ & _ & ? & _).
    by apply (tasks_inv_replace (base st) l1 l2 t).
  - by apply delegate_tasks_inv.
  - by apply resolve_tasks_inv.
Qed.

(** X15. Whatever sequence of calls the tasks router serves (create,
    delete, status update, comment, update of details, delegate, accept or
    reject, by any callers with any arguments), a store in which task ids
    and request ids are unique and below the id source, and in which every
    task has at most one pending delegation request per requesting user,
    is taken to a store with the same properties. *)
Theorem tasks_router_invariant (ops : list TaskOp) (st : Store) :
  store_wf st →
  one_pending_per_sender (base st) →
  store_wf (task_run ops st) ∧ one_pending_per_sender (base (task_run ops st)).
Proof.
  intros [Hwf Hbound] Hone.
  assert (tasks_inv (base (task_run ops st))) as (? & ? & ?);
    [|split; [split|]; assumption].
  assert (tasks_inv (base st)) as Hinv by (split; [|split]; assumption).
  clear Hwf Hbound Hone. revert st Hinv.
  induction ops as [|op ops IH]; intros st Hinv; simpl; [done|].
  apply IH. by apply task_step_inv.
Qed.

Lemma tasks_router_invariant_witness :
  store_wf (task_run [TCreate Scenario2.erin Scenario2.new_task;
                      TStatus Scenario.carol 1001 "in_progress";
                      TResolve Scenario.bob 1000 "accept";
                      TDelegate Scenario.carol 1001 (mkDelegateBody (Some 2) "swap") 12;
                      TComment Scenario.bob 20 "mine now" 13;
                      TDelete Scenario2.erin 20]
                     Scenario2.st_admin)
  ∧ one_pending_per_sender
      (base (task_run [TCreate Scenario2.erin Scenario2.new_task;
                       TStatus Scenario.carol 1001 "in_progress";
                       TResolve Scenario.bob 1000 "accept";
                       TDelegate Scenario.carol 1001 (mkDelegateBody (Some 2) "swap") 12;
                       TComment Scenario.bob 20 "mine now" 13;
                       TDelete Scenario2.erin 20]
                      Scenario2.st_admin)).
Proof.
  apply tasks_router_invariant.
  - repeat split; apply (bool_decide_unpack _); vm_compute; reflexivity.
  - intros t u Ht. vm_compute in Ht. apply list_elem_of_singleton in Ht as ->.
    unfold pending_from. simpl. destruct u as [|[|u]]; simpl; lia.
Defined.

(** ** Projects: deletion, detail, list *)

(** X16. No deletion of a project ever goes through. Whoever calls DELETE
    /api/projects/:id, on whatever id and store, the store is unchanged and
    the answer is not a success; in particular an administrator's call on an
    active project of the administrator's company whose task array is
    empty, the one case the route is written to delete, is answered with
    500 "Server error while deleting project". *)
Theorem delete_project_never_succeeds (user : User.t) (id : ObjId) (st : Store) :
  snd (delete_project user id st) = st
  ∧ Res.status (fst (delete_project user id st)) ≠ 200
  ∧ ∀ c p, User.role user = admin →
           User.company user = Some c →
           findOne (λ p, id_eqb (Project._id p) id
                         && id_eqb (Project.company p) c
                         && Project.isActive p) (projects (base st)) = Some p →
           tasks_of st (Project._id p) = [] →
           fst (delete_project user id st) = json 500 "Server error while deleting project".
Proof.
  unfold delete_project. split; [|split].
  - destruct (authorize [admin] user); simpl; [|done].
    destruct (company_id user); [|done].
    destruct (findOne _ _); [|done]. by destruct (_ <? _).
  - destruct (authorize [admin] user); simpl; [|done].
    destruct (company_id user); [|done].
    destruct (findOne _ _); [|done]. by destruct (_ <? _).
  - intros c p Hr Hc Hp Hempty.
    assert (authorize [admin] user = true) as -> by by apply authorize_admin.
    unfold company_id. rewrite Hc. simpl. unfold findOne in *. rewrite Hp, Hempty. done.
Qed.

Lemma project_show_Answer (user : User.t) (id : ObjId) (d : Db) :
  (∃ p, project_show user id d = Answer 200 p) ↔
  ∃ c p, User.company user = Some c
         ∧ p ∈ projects d
         ∧ project_rest_query user id c p = true.
Proof.
  unfold project_show. destruct (User.company user) as [c|].
  - destruct (findOne _ (projects d)) as [p|] eqn:Hp.
    + split; [|by eexists]. intros _. exists c, p. split; [done|]. by apply findOne_Some.
    + split; [by intros [? ?]|]. intros (c' & p & [= <-] & Hin & Hq).
      destruct (find_is_Some _ _ p Hin Hq) as [y Hy]. unfold findOne in Hp. congruence.
  - split; [by intros [? ?]|]. by intros (? & ? & ? & _).
Qed.

Lemma project_rest_query_access (user : User.t) (id c : ObjId) (p : Project.t) :
  project_rest_query user id c p
  = project_access_query user id c p && Project.isActive p.
Proof.
  unfold project_rest_query, project_access_query.
  destruct (id_eqb _ id), (id_eqb _ c), (Project.isActive p),
    (if member_tier _ then _ else _); done.
Qed.

(** X17. On active projects the project detail route and join-project
    agree. Whoever is served a project by GET /api/projects/:id is admitted
    to its room by join-project; and whoever is admitted by join-project,
    when every stored project with that id is active, is served the project
    by GET /api/projects/:id. (join-project does not look at [isActive]:
    it also admits to the room of a deleted project.) *)
Theorem project_detail_agrees_with_join (socket : Socket.t) (pid : ObjId) (srv : Server) :
  ((∃ p, project_show (Socket.user socket) pid (db srv) = Answer 200 p) →
   join_admitted socket pid srv)
  ∧ (join_admitted socket pid srv →
     (∀ p, p ∈ projects (db srv) → Project._id p = pid → Project.isActive p = true) →
     ∃ p, project_show (Socket.user socket) pid (db srv) = Answer 200 p).
Proof.
  rewrite project_show_Answer, join_admitted_iff. split.
  - intros (c & p & Hc & Hin & Hq). exists c, p. split; [done|]. split; [done|].
    rewrite project_rest_query_access in Hq. by apply andb_prop in Hq as [? _].
  - intros (c & p & Hc & Hin & Hq) Hactive. exists c, p. split; [done|]. split; [done|].
    rewrite project_rest_query_access, Hq. simpl. apply Hactive; [done|].
    unfold project_access_query in Hq. repeat (apply andb_prop in Hq as [Hq ?]).
    by apply id_eqb_eq.
Qed.

Lemma elem_of_rev {A} (l : list A) (x : A) : x ∈ rev l ↔ x ∈ l.
Proof. rewrite !list_elem_of_In. symmetry. apply in_rev. Qed.

(** X18. The project list and the project detail are coherent: every
    project that GET /api/projects/:id serves is in the list that GET
    /api/projects serves to the same user, every project in that list is
    active, of the user's company and, for a member-tier role, lists the
    user as a member or belongs to one of the user's teams, and asking for
    the detail of a listed project by its id is answered. *)
Theorem project_list_detail_coherent (user : User.t) (d : Db) (l : list Project.t) :
  projects_index user d = Answer 200 l →
  (∀ id p, project_show user id d = Answer 200 p → p ∈ l)
  ∧ (∀ p, p ∈ l →
       p ∈ projects d
       ∧ Project.isActive p = true
       ∧ User.company user = Some (Project.company p)
       ∧ (member_tier (User.role user) = true → member_or_team user p = true)
       ∧ ∃ p', project_show user (Project._id p) d = Answer 200 p').
Proof.
  unfold projects_index. destruct (User.company user) as [c|] eqn:Hc; [|done].
  intros [= <-]. split.
  - intros id p Hp. unfold project_show in Hp. rewrite Hc in Hp.
    destruct (findOne _ (projects d)) as [x|] eqn:Hx; [|done]. injection Hp as ->.
    apply findOne_Some in Hx as [Hin Hq]. unfold project_rest_query in Hq.
    repeat (apply andb_prop in Hq as [Hq ?]).
    rewrite elem_of_rev, elem_of_List_filter. split; [done|].
    repeat (apply andb_true_intro; split); done.
  - intros p [Hin Hq]%elem_of_rev%elem_of_List_filter.
    repeat (apply andb_prop in Hq as [Hq ?]).
    split; [done|]. split; [done|]. split.
    { f_equal. symmetry. by apply id_eqb_eq. }
    split.
    { intros Hm. unfold member_or_team.
      match goal with H : (if member_tier _ then _ else _) = true |- _ =>
        by rewrite Hm in H end. }
    apply project_show_Answer. exists c, p. split; [done|]. split; [done|].
    unfold project_rest_query. unfold id_eqb at 1. rewrite Nat.eqb_refl. simpl.
    repeat (apply andb_true_intro; split); done.
Qed.

Lemma project_list_detail_coherent_witness :
  projects_index Scenario.alice (db Scenario.srv0)
  = Answer 200 [Scenario.billing; Scenario.website]
  ∧ Scenario.billing ∈ [Scenario.billing; Scenario.website].
Proof.
  assert (projects_index Scenario.alice (db Scenario.srv0)
          = Answer 200 [Scenario.billing; Scenario.website]) as H
    by (vm_compute; reflexivity).
  split; [exact H|].
  apply (proj1 (project_list_detail_coherent _ _ _ H) 11 Scenario.billing).
  vm_compute. reflexivity.
Defined.

(** ** GET /api/tasks/project/:projectId *)

(** X19. The task list of a project is refused exactly when the project
    detail is refused to the same user, and when it is answered it is sorted
    by deadline and holds exactly the active tasks of that project, for a
    member-tier role only those assigned to the caller. *)
Theorem tasks_of_project_scope (user : User.t) (pid : ObjId) (d : Db) :
  ((∃ l, tasks_of_project user pid d = Answer 200 l)
   ↔ ∃ p, project_show user pid d = Answer 200 p)
  ∧ ∀ l, tasks_of_project user pid d = Answer 200 l →
         Sorted by_deadline l
         ∧ ∀ t, t ∈ l ↔ t ∈ tasks d
                        ∧ Task.project t = pid
                        ∧ Task.isActive t = true
                        ∧ (member_tier (User.role user) = true →
                           Task.assignedTo t = User._id user).
Proof.
  unfold tasks_of_project, tasks_of_project_try, project_show, company_id.
  destruct (User.company user) as [c|]; simpl.
  2: { split; [|done]. split; by intros [? ?]. }
  destruct (findOne _ (projects d)) as [p|]; simpl.
  2: { split; [|done]. split; by intros [? ?]. }
  split; [split; intros _; by eexists|].
  intros l [= <-]. split; [apply Sorted_merge_sort, _|].
  intros t. rewrite elem_of_sort_by_deadline, elem_of_List_filter, !andb_true_iff.
  unfold id_eqb. rewrite Nat.eqb_eq.
  destruct (member_tier (User.role user)); rewrite ?Nat.eqb_eq; intuition congruence.
Qed.

(** ** Authentication *)

Lemma substring_all (s : string) (n : nat) :
  String.length s ≤ n → String.substring 0 n s = s.
Proof.
  revert n. induction s as [|a s IH]; intros n Hn; simpl.
  - by destruct n.
  - destruct n as [|n]; simpl in *; [lia|]. rewrite IH; [done | lia].
Qed.

Lemma remove_first_unfold (pat s : string) :
  remove_first pat s
  = if String.prefix pat s then String.substring (String.length pat) (String.length s) s
    else match s with
         | EmptyString => EmptyString
         | String c s' => String c (remove_first pat s')
         end.
Proof. by destruct s. Qed.

Lemma prefix_app (pat s : string) : String.prefix pat (pat +:+ s) = true.
Proof.
  induction pat as [|a pat IH]; simpl; [by destruct s|].
  by destruct (Ascii.ascii_dec a a).
Qed.

Lemma substring_skip (pat s : string) (n : nat) :
  String.length s ≤ n → String.substring (String.length pat) n (pat +:+ s) = s.
Proof.
  intros Hn. induction pat as [|a pat IH]; simpl; [by apply substring_all | done].
Qed.

Lemma length_append (s1 s2 : string) :
  String.length (s1 +:+ s2) = String.length s1 + String.length s2.
Proof. induction s1 as [|a s1 IH]; simpl; [done | by rewrite IH]. Qed.

(** Removing the scheme from a header that starts with it gives the token. *)
Lemma remove_first_bearer (token : string) :
  remove_first "Bearer " ("Bearer " +:+ token) = token.
Proof.
  rewrite remove_first_unfold, prefix_app. apply substring_skip.
  rewrite length_append. lia.
Qed.

Lemma admit_user_Authenticated (verify : string → option ObjId) (d : Db)
    (token message : string) (u : User.t) :
  admit_user verify d token message = Authenticated u ↔
  verify token = Some (User._id u) ∧ find_user d (User._id u) = Some u
  ∧ User.isActive u = true.
Proof.
  unfold admit_user. destruct (verify token) as [id|]; [|split; [done | by intros [? _]]].
  destruct (find_user d id) as [x|] eqn:Hx.
  - destruct (User.isActive x) eqn:Ha.
    + pose proof (find_user_id _ _ _ Hx) as [_ Hid]. split.
      * intros [= ->]. by rewrite Hid.
      * intros ([= ->] & Hu & _). congruence.
    + split; [done|]. intros ([= ->] & Hu & Hau). congruence.
  - split; [done|]. intros ([= ->] & Hu & _). congruence.
Qed.

(** X20. Both authentication steps admit only active users of the store.
    Whenever the REST middleware or the connection middleware of the bridge
    attaches a user, that user is a stored user document, is active, and has
    the id for which the presented token verifies;
    for the REST middleware the token is what remains of the Authorization
    header once the first "Bearer " is removed, and is not empty. *)
Theorem authentication_admits_active_users (verify : string → option ObjId)
    (d : Db) (u : User.t) :
  (∀ header, auth verify header d = Authenticated u →
     u ∈ users d ∧ User.isActive u = true
     ∧ ∃ h, header = Some h
            ∧ remove_first "Bearer " h ≠ ""
            ∧ verify (remove_first "Bearer " h) = Some (User._id u))
  ∧ (∀ token, socket_auth verify token d = Authenticated u →
       u ∈ users d ∧ User.isActive u = true ∧ verify token = Some (User._id u)).
Proof.
  split.
  - intros [h|]; [|done]. unfold auth. simpl.
    destruct (String.eqb (remove_first "Bearer " h) "") eqn:He; simpl; [done|].
    intros (Hv & [Hin _]%find_user_id & Ha)%admit_user_Authenticated.
    repeat split; try done. exists h. repeat split; try done.
    by apply String.eqb_neq.
  - intros token (Hv & [Hin _]%find_user_id & Ha)%admit_user_Authenticated. done.
Qed.

(** X21. The REST middleware and the connection middleware of the bridge
    agree on who a token belongs to: for a token that is not empty, the
    bridge attaches a user to a connection presenting the token exactly when
    the REST middleware attaches that user to a request whose Authorization
    header is "Bearer " followed by the token. *)
Theorem rest_and_socket_authentication_agree (verify : string → option ObjId)
    (token : string) (d : Db) (u : User.t) :
  token ≠ "" →
  (socket_auth verify token d = Authenticated u
   ↔ auth verify (Some ("Bearer " +:+ token)) d = Authenticated u).
Proof.
  intros Hne. unfold auth, socket_auth. rewrite remove_first_bearer. simpl.
  apply String.eqb_neq in Hne. rewrite Hne. simpl.
  rewrite !admit_user_Authenticated. done.
Qed.

Lemma rest_and_socket_authentication_agree_witness :
  socket_auth (λ t, if String.eqb t "tok-bob" then Some 2 else None) "tok-bob" Scenario.db0
  = Authenticated Scenario.bob
  ∧ auth (λ t, if String.eqb t "tok-bob" then Some 2 else None)
         (Some "Bearer tok-bob") Scenario.db0
    = Authenticated Scenario.bob.
Proof.
  assert (socket_auth (λ t, if String.eqb t "tok-bob" then Some 2 else None) "tok-bob"
            Scenario.db0 = Authenticated Scenario.bob) as H by (vm_compute; reflexivity).
  split; [exact H|].
  apply (rest_and_socket_authentication_agree _ "tok-bob" Scenario.db0 Scenario.bob);
    [discriminate | exact H].
Defined.

(** ** checkCompanyAccess *)

Lemma pretty_N_go_length (x : N) (s : string) :
  String.length s ≤ String.length (pretty_N_go x s).
Proof.
  revert s. induction (N.lt_wf_0 x) as [x _ IH]; intros s.
  assert (x = 0 ∨ 0 < x)%N as [->|?] by lia; [by rewrite pretty_N_go_0|].
  rewrite pretty_N_go_step by done.
  etrans; [|by eapply IH, N.div_lt]. simpl. lia.
Qed.

(** The rendering of an id is not the empty string. *)
Lemma id_str_truthy (c : ObjId) : truthy (VStr (id_str c)) = true.
Proof.
  simpl. apply negb_true_iff, String.eqb_neq. unfold id_str, pretty, pretty_nat, pretty, pretty_N.
  case_decide as H0; [done|].
  rewrite pretty_N_go_step by lia. intros Heq.
  pose proof (pretty_N_go_length (N.of_nat c `div` 10)
                (String (pretty_N_char (N.of_nat c `mod` 10)) "")) as Hlen.
  rewrite Heq in Hlen. simpl in Hlen. lia.
Qed.

(** X22. The company gate lets a top-level administrator through always,
    and anybody else exactly when the user has a company and the company id
    of the request, taken from the URL or else from the body, either is
    absent (the gate then falls back on the user's own company) or is the
    id of the user's own company. A user without a company is never let
    through. *)
Theorem company_gate_own_company_only (user : User.t) (param body : option string) :
  checkCompanyAccess user param body = Next ↔
  User.role user = masteradmin
  ∨ ∃ c, User.company user = Some c
         ∧ (truthy (str_val (or_else param body)) = false
            ∨ or_else param body = Some (id_str c)).
Proof.
  unfold checkCompanyAccess. case_bool_decide as Hr. { split; [by left | done]. }
  generalize (or_else param body). intros q.
  change (or_else q (id_str <$> User.company user))
    with (if truthy (str_val q) then q else id_str <$> User.company user).
  destruct (User.company user) as [c|]; simpl;
    destruct (truthy (str_val q)) eqn:Ht; simpl.
  - rewrite Ht. simpl. case_bool_decide as Heq; split; try done.
    + intros _. right. exists c. split; [done|]. by right.
    + intros [? | (c' & [= <-] & [? | ?])]; congruence.
  - pose proof (id_str_truthy c) as Hc. simpl in Hc. rewrite Hc. simpl.
    rewrite bool_decide_eq_true_2 by done.
    split; [|done]. intros _. right. exists c. split; [done|]. by left.
  - rewrite Ht. simpl. rewrite bool_decide_eq_false_2.
    + split; [done|]. by intros [? | (c & ? & _)].
    + intros H. rewrite <- H in Ht. done.
  - split; [done|]. by intros [? | (c & ? & _)].
Qed.

Lemma company_gate_own_company_only_witness :
  checkCompanyAccess Scenario.alice (Some "100") None = Next
  ∧ checkCompanyAccess Scenario.alice (Some "101") None ≠ Next.
Proof.
  split.
  - apply company_gate_own_company_only. right. exists 100. split; [reflexivity|].
    right. vm_compute. reflexivity.
  - vm_compute. discriminate.
Defined.

(** ** The bridge: joining, sending, receiving *)

Lemma room_members_join (x : SocketId) (room room' : string)
    (rs : gmap string (gset SocketId)) (s : SocketId) :
  s ∈ room_members (join x room rs) room'
  ↔ s ∈ room_members rs room' ∨ (s = x ∧ room' = room).
Proof.
  unfold join. unfold room_members at 1. destruct (decide (room' = room)) as [->|Hne].
  - rewrite lookup_insert_eq. cbn [default from_option id].
    rewrite elem_of_union, elem_of_singleton. intuition congruence.
  - rewrite lookup_insert_ne by done. fold (room_members rs room'). intuition congruence.
Qed.


(** The rooms after an admitted join, for the project [p] that the lookup
    found. *)
Lemma room_members_joined (x : SocketId) (primary : string) (p : Project.t)
    (rs : gmap string (gset SocketId)) (room : string) (s : SocketId) :
  s ∈ room_members
        (let rooms1 := join x primary rs in
         match Project.chatRoom p with
         | Some room0 => if truthy (VStr room0) then join x room0 rooms1 else rooms1
         | None => rooms1
         end) room
  ↔ s ∈ room_members rs room
    ∨ (s = x ∧ (room = primary
                ∨ (Project.chatRoom p = Some room ∧ truthy (VStr room) = true))).
Proof.
  cbv zeta. destruct (Project.chatRoom p) as [room0|];
    [destruct (truthy (VStr room0)) eqn:Ht|]; rewrite ?room_members_join.
  - split.
    + intros [[? | [-> ->]] | [-> ->]]; [by left | right; split; [done | by left] |].
      right. split; [done|]. by right.
    + intros [? | [-> [-> | [[= ->] _]]]]; [left; by left | left; by right | by right].
  - split.
    + intros [? | [-> ->]]; [by left | right; split; [done | by left]].
    + intros [? | [-> [-> | [[= ->] Ht']]]]; [by left | by right | congruence].
  - split.
    + intros [? | [-> ->]]; [by left | right; split; [done | by left]].
    + intros [? | [-> [-> | [[=] _]]]]; [by left | by right].
Qed.


(** ** The bridge on the id texts of the client *)

Lemma project_room_inj (a b : string) : project_room a = project_room b → a = b.
Proof. unfold project_room. simpl. by intros [=]. Qed.

(** The two ways a join-project call ends. *)
Lemma join_project_text_cases (cast : string → option ObjId) (socket : Socket.t)
    (projectId : string) (srv : Server) :
  (¬ join_admitted_text cast socket projectId srv
   ∧ ∃ text, join_project_text cast socket projectId srv
             = ([ToSocket (Socket.id socket) "error" (ErrorPayload text)], srv))
  ∨ (join_admitted_text cast socket projectId srv
     ∧ ∃ c pid p,
         User.company (Socket.user socket) = Some c
         ∧ cast projectId = Some pid
         ∧ findOne (project_access_query (Socket.user socket) pid c) (projects (db srv))
           = Some p
         ∧ join_project_text cast socket projectId srv
           = ([], mkServer (db srv)
                    (let rooms1 :=
                       join (Socket.id socket) (project_room projectId) (rooms srv) in
                     match Project.chatRoom p with
                     | Some room =>
                         if truthy (VStr room) then join (Socket.id socket) room rooms1
                         else rooms1
                     | None => rooms1
                     end))).
Proof.
  unfold join_admitted_text, join_project_text, join_project_text_try, company_id, cast_id.
  destruct (User.company (Socket.user socket)) as [c|]; simpl;
    [|left; split; [done | by eexists]].
  destruct (cast projectId) as [pid|]; simpl; [|left; split; [done | by eexists]].
  destruct (findOne _ (projects (db srv))) as [p|] eqn:Hfind; simpl.
  - right. split; [done|]. by exists c, pid, p.
  - left. split; [done | by eexists].
Qed.

(** The two ways a send-message call ends. *)
Lemma send_message_text_cases (cast : string → option ObjId) (socket : Socket.t)
    (data : SendText) (srv : Server) :
  (∃ text, send_message_text cast socket data srv
           = ([ToSocket (Socket.id socket) "error" (ErrorPayload text)], srv))
  ∨ ∃ c pid p,
      User.company (Socket.user socket) = Some c
      ∧ cast (text_projectId data) = Some pid
      ∧ p ∈ projects (db srv)
      ∧ project_access_query (Socket.user socket) pid c p = true
      ∧ let message :=
          messageData (User._id (Socket.user socket)) (cast_payload pid data)
                      (nextId (db srv)) in
        let db' := bump (with_messages (messages (db srv) ++ [message]) (db srv)) in
        messageType_valid (ChatMessage.messageType message) = true
        ∧ send_message_text cast socket data srv
          = (ToRoom (project_room (text_projectId data)) "new-message"
               (NewMessage (populate_sender db' message))
             :: match text_chatRoom data with
                | Some room =>
                    if truthy (VStr room)
                    then [ToRoom room "new-message" (NewMessage (populate_sender db' message))]
                    else []
                | None => []
                end,
             mkServer db' (rooms srv)).
Proof.
  unfold send_message_text, send_message_text_try, company_id, cast_id.
  destruct (User.company (Socket.user socket)) as [c|]; simpl; [|left; by eexists].
  destruct (cast (text_projectId data)) as [pid|]; simpl; [|left; by eexists].
  destruct (findOne _ (projects (db srv))) as [p|] eqn:Hfind; simpl; [|left; by eexists].
  apply findOne_Some in Hfind as [Hin Hq].
  unfold validate_message. rewrite content_never_required. simpl.
  destruct (messageType_valid _) eqn:Hty; simpl; [|left; by eexists].
  right. by exists c, pid, p.
Qed.

(** With the id in the rendering the documents give it, the handlers on
    texts are the handlers on ids. *)
Lemma join_project_text_id (cast : string → option ObjId) (socket : Socket.t)
    (pid : ObjId) (srv : Server) :
  cast (id_str pid) = Some pid →
  join_project_text cast socket (id_str pid) srv = join_project socket pid srv.
Proof.
  intros Hc. unfold join_project_text, join_project_text_try, join_project,
    join_project_try, cast_id. rewrite Hc.
  by destruct (company_id (Socket.user socket)).
Qed.

Lemma send_message_text_id (cast : string → option ObjId) (socket : Socket.t)
    (data : SendData) (srv : Server) :
  cast (id_str (projectId data)) = Some (projectId data) →
  send_message_text cast socket
    (mkSendText (id_str (projectId data)) (chatRoom data) (taskId data) (content data)
       (messageType data) (file data) (code data)) srv
  = send_message socket data srv.
Proof.
  intros Hc. unfold send_message_text, send_message_text_try, send_message,
    send_message_try, cast_id. cbn [text_projectId text_chatRoom]. rewrite Hc.
  destruct (company_id (Socket.user socket)); [|done]. cbn [mbind Js_bind].
  unfold cast_payload. cbn [text_chatRoom text_taskId text_content text_messageType
    text_file text_code]. by destruct data.
Qed.

(** X24. A socket that join-project admitted under an id text receives
    every message that is then persisted by a send-message call carrying the
    same text as its [projectId], whoever sends it: the new-message event
    with the stored message goes to the room project-<text>, and the socket
    is in it. *)
Theorem joined_socket_receives_message (cast : string → option ObjId)
    (socket sender : Socket.t) (data : SendText) (srv : Server) (m : ChatMessage.t) :
  join_admitted_text cast socket (text_projectId data) srv →
  let srv1 := snd (join_project_text cast socket (text_projectId data) srv) in
  messages (db (snd (send_message_text cast sender data srv1))) = messages (db srv1) ++ [m] →
  ∃ o, o ∈ fst (send_message_text cast sender data srv1)
       ∧ o = ToRoom ("project-" +:+ text_projectId data) "new-message"
               (NewMessage (m, find_user (db srv) (User._id (Socket.user sender))))
       ∧ cast (text_projectId data) = Some (ChatMessage.project m)
       ∧ Socket.id socket ∈ receivers (rooms srv1) o.
Proof.
  intros Hadm srv1.
  assert (db srv1 = db srv
          ∧ Socket.id socket
            ∈ room_members (rooms srv1) (project_room (text_projectId data)))
    as [Hdb Hroom].
  { subst srv1. destruct (join_project_text_cases cast socket (text_projectId data) srv)
      as [[Hno _] | [_ (c & pid & p & Hc & Hcast & Hfind & ->)]]; [done|].
    cbn [snd db rooms]. split; [done|].
    apply room_members_joined. right. split; [done | by left]. }
  destruct (send_message_text_cases cast sender data srv1)
    as [[text ->] | (c & pid & p & _ & Hcast & _ & _ & Hty & ->)]; cbn [fst snd db messages].
  - intros H. by apply not_appended in H.
  - cbn [bump with_messages messages]. intros [_ <-]%app_inj_tail.
    eexists. split; [apply list_elem_of_here|]. split.
    + unfold populate_sender, find_user, project_room. cbn [bump with_messages users
        messageData ChatMessage.sender]. by rewrite Hdb.
    + split; [done|]. cbn [receivers]. by apply elem_of_elements.
Qed.

Lemma joined_socket_receives_message_witness :
  ∃ o, o ∈ fst (send_message_text Scenario3.cast Scenario.alice_socket Scenario3.hi
                  Scenario3.joined)
       ∧ o = ToRoom "project-11" "new-message"
               (NewMessage (ChatMessage.mk 1000 11 None 1 (Some "hi") "text" None None false,
                            Some Scenario.alice))
       ∧ Socket.id Scenario.alice_socket ∈ receivers (rooms Scenario3.joined) o.
Proof.
  destruct (joined_socket_receives_message Scenario3.cast Scenario.alice_socket
              Scenario.alice_socket Scenario3.hi Scenario.srv0
              (ChatMessage.mk 1000 11 None 1 (Some "hi") "text" None None false))
    as (o & Hin & Ho & _ & Hrecv).
  - vm_compute. reflexivity.
  - vm_compute. reflexivity.
  - exists o. repeat split; assumption.
Defined.

(** X25. A message sent with the project's own chat room as [chatRoom]
    reaches a socket twice that joined under the same id text. join-project
    puts the socket into the room project-<text> and into the project's chat
    room; send-message emits new-message once to project-<text> and once to
    the named room, and both emits reach the socket with the same payload. *)
Theorem chat_room_message_delivered_twice (cast : string → option ObjId)
    (socket sender : Socket.t) (data : SendText) (srv : Server) (c pid : ObjId)
    (p : Project.t) (room : string) (m : ChatMessage.t) :
  User.company (Socket.user socket) = Some c →
  cast (text_projectId data) = Some pid →
  findOne (project_access_query (Socket.user socket) pid c) (projects (db srv)) = Some p →
  Project.chatRoom p = Some room →
  room ≠ "" →
  text_chatRoom data = Some room →
  let srv1 := snd (join_project_text cast socket (text_projectId data) srv) in
  messages (db (snd (send_message_text cast sender data srv1))) = messages (db srv1) ++ [m] →
  ∃ o1 o2 payload,
    fst (send_message_text cast sender data srv1) = [o1; o2]
    ∧ o1 = ToRoom ("project-" +:+ text_projectId data) "new-message" payload
    ∧ o2 = ToRoom room "new-message" payload
    ∧ Socket.id socket ∈ receivers (rooms srv1) o1
    ∧ Socket.id socket ∈ receivers (rooms srv1) o2.
Proof.
  intros Hc Hcast Hfind Hroom Hne Hdata srv1.
  assert (truthy (VStr room) = true) as Ht.
  { simpl. by apply negb_true_iff, String.eqb_neq. }
  assert (Socket.id socket
            ∈ room_members (rooms srv1) (project_room (text_projectId data))
          ∧ Socket.id socket ∈ room_members (rooms srv1) room) as [H1 H2].
  { subst srv1. unfold join_project_text, join_project_text_try, company_id, cast_id.
    rewrite Hc, Hcast. cbn [mbind Js_bind]. rewrite Hfind. cbn [snd rooms].
    split; apply room_members_joined; right; (split; [done|]); [by left | by right]. }
  destruct (send_message_text_cases cast sender data srv1)
    as [[text ->] | (c' & pid' & p' & _ & _ & _ & _ & Hty & ->)]; cbn [fst snd db messages].
  - intros H. by apply not_appended in H.
  - intros _. rewrite Hdata, Ht. do 3 eexists. split; [reflexivity|].
    split; [reflexivity|]. split; [reflexivity|].
    cbn [receivers]. split; by apply elem_of_elements.
Qed.

Lemma chat_room_message_delivered_twice_witness :
  ∃ o1 o2 payload,
    fst (send_message_text Scenario3.cast Scenario.alice_socket Scenario3.hi_chat_room
           Scenario3.joined) = [o1; o2]
    ∧ o1 = ToRoom "project-11" "new-message" payload
    ∧ o2 = ToRoom "project_11_1700000000001" "new-message" payload
    ∧ Socket.id Scenario.alice_socket ∈ receivers (rooms Scenario3.joined) o1
    ∧ Socket.id Scenario.alice_socket ∈ receivers (rooms Scenario3.joined) o2.
Proof.
  apply (chat_room_message_delivered_twice Scenario3.cast Scenario.alice_socket
           Scenario.alice_socket Scenario3.hi_chat_room Scenario.srv0 100 11
           Scenario.billing "project_11_1700000000001"
           (ChatMessage.mk 1000 11 None 1 (Some "hi") "text" None None false)).
  - reflexivity.
  - reflexivity.
  - vm_compute. reflexivity.
  - reflexivity.
  - discriminate.
  - reflexivity.
  - vm_compute. reflexivity.
Defined.

(** X29. The room of a project is named with the id text of the call, not
    with the id. When a socket joined under one text and a message is sent
    under another text that casts to the same id, the message is persisted
    for the same project, but its new-message event goes to the room of the
    other text: when the payload names no chat room, a socket that was not
    in that room before does not receive the message, provided no stored
    project has that room as its chat room. *)
Theorem respelled_project_id_misses_joined_socket (cast : string → option ObjId)
    (socket sender : Socket.t) (joinedAs : string) (data : SendText) (srv : Server)
    (m : ChatMessage.t) :
  join_admitted_text cast socket joinedAs srv →
  cast (text_projectId data) = cast joinedAs →
  text_projectId data ≠ joinedAs →
  text_chatRoom data = None →
  Socket.id socket ∉ room_members (rooms srv) (project_room (text_projectId data)) →
  (∀ p, p ∈ projects (db srv) →
        Project.chatRoom p ≠ Some (project_room (text_projectId data))) →
  let srv1 := snd (join_project_text cast socket joinedAs srv) in
  messages (db (snd (send_message_text cast sender data srv1))) = messages (db srv1) ++ [m] →
  cast joinedAs = Some (ChatMessage.project m)
  ∧ fst (send_message_text cast sender data srv1)
    = [ToRoom ("project-" +:+ text_projectId data) "new-message"
         (NewMessage (m, find_user (db srv) (User._id (Socket.user sender))))]
  ∧ ∀ o, o ∈ fst (send_message_text cast sender data srv1)
         → Socket.id socket ∉ receivers (rooms srv1) o.
Proof.
  intros Hadm Hsame Hne Hnone Hout Hrooms srv1.
  assert (db srv1 = db srv
          ∧ Socket.id socket
            ∉ room_members (rooms srv1) (project_room (text_projectId data)))
    as [Hdb Hroom].
  { subst srv1. destruct (join_project_text_cases cast socket joinedAs srv)
      as [[Hno _] | [_ (c & pid & p & Hc & Hcast & Hfind & ->)]]; [done|].
    cbn [snd db rooms]. split; [done|].
    apply findOne_Some in Hfind as [Hin _].
    intros [? | [_ [Heq%project_room_inj | [Hchat _]]]]%room_members_joined; try done.
    by apply (Hrooms p Hin). }
  destruct (send_message_text_cases cast sender data srv1)
    as [[text ->] | (c & pid & p & _ & Hcast & _ & _ & Hty & ->)]; cbn [fst snd db messages].
  - intros H. by apply not_appended in H.
  - cbn [bump with_messages messages]. intros [_ <-]%app_inj_tail. rewrite Hnone.
    split; [by rewrite <- Hsame|]. split.
    + unfold populate_sender, find_user, project_room. cbn [bump with_messages users
        messageData ChatMessage.sender]. by rewrite Hdb.
    + intros o ->%list_elem_of_singleton. cbn [receivers]. by rewrite elem_of_elements.
Qed.

Lemma respelled_project_id_misses_joined_socket_witness :
  fst (send_message_text Scenario3.cast Scenario.alice_socket Scenario3.hi_respelled
         Scenario3.joined)
  = [ToRoom "project-0011" "new-message"
       (NewMessage (ChatMessage.mk 1000 11 None 1 (Some "hi") "text" None None false,
                    Some Scenario.alice))]
  ∧ ∀ o, o ∈ fst (send_message_text Scenario3.cast Scenario.alice_socket
                    Scenario3.hi_respelled Scenario3.joined)
         → Socket.id Scenario.alice_socket ∉ receivers (rooms Scenario3.joined) o.
Proof.
  refine (proj2 (respelled_project_id_misses_joined_socket Scenario3.cast
                   Scenario.alice_socket Scenario.alice_socket "11" Scenario3.hi_respelled
                   Scenario.srv0
                   (ChatMessage.mk 1000 11 None 1 (Some "hi") "text" None None false)
                   _ _ _ _ _ _ _)).
  - vm_compute. reflexivity.
  - reflexivity.
  - discriminate.
  - reflexivity.
  - apply (bool_decide_unpack _). vm_compute. reflexivity.
  - intros p Hp. vm_compute in Hp.
    apply elem_of_cons in Hp as [-> | Hp]; [discriminate|].
    apply list_elem_of_singleton in Hp as ->. discriminate.
  - vm_compute. reflexivity.
Defined.

(** X26. What send-message persists is what the history route serves next.
    To every user of the sender's company, GET /api/chat/:projectId for the
    message's project answered before the send and answers after it, and
    the answer after it is the answer before it followed by the new message
    with its sender joined in; with a [taskId] filter the new message is
    added exactly when it was sent for that task. *)
Theorem sent_message_ends_history (socket : Socket.t) (data : SendData) (srv : Server)
    (m : ChatMessage.t) (v : User.t) (filterTask : option ObjId) :
  messages (db (snd (send_message socket data srv))) = messages (db srv) ++ [m] →
  User.company v = User.company (Socket.user socket) →
  ∃ l,
    chat_history v (projectId data) filterTask (db srv) = ChatJson l
    ∧ chat_history v (projectId data) filterTask (db (snd (send_message socket data srv)))
      = ChatJson
          (l ++ if match filterTask with
                   | Some t => bool_decide (taskId data = Some t)
                   | None => true
                   end
                then [(m, find_user (db srv) (User._id (Socket.user socket)))]
                else []).
Proof.
  destruct (send_message_cases socket data srv)
    as [[text ->] | (c & p & Hc & Hin & Hq & Hty & ->)]; cbn [fst snd db messages].
  - intros H. by apply not_appended in H.
  - cbn [bump with_messages messages]. intros [_ <-]%app_inj_tail Hv.
    unfold chat_history, chat_history_try, company_id. rewrite Hv, Hc.
    cbn [bump with_messages projects messages mbind Js_bind].
    assert (∃ y, findOne (λ p0, id_eqb (Project._id p0) (projectId data)
                                && id_eqb (Project.company p0) c)
                   (projects (db srv)) = Some y) as [y ->].
    { apply (find_is_Some _ _ p Hin).
      unfold project_access_query in Hq. by apply andb_prop in Hq as [Hq _]. }
    eexists. split; [reflexivity|]. f_equal.
    rewrite filter_app, fmap_app. f_equal.
    rewrite filter_cons, filter_nil.
    cbn [messageData ChatMessage.project ChatMessage.task].
    unfold id_eqb. rewrite Nat.eqb_refl. cbn [andb].
    destruct filterTask as [t|]; [|done].
    case_decide as Hd; case_bool_decide as Hb; done.
Qed.

Lemma sent_message_ends_history_witness :
  chat_history Scenario.dave 11 None
    (db (snd (send_message Scenario.alice_socket Scenario.plain_text Scenario.srv1)))
  = ChatJson [(Scenario.hello, Some Scenario.alice);
              (messageData 1 Scenario.plain_text 1000, Some Scenario.alice)].
Proof.
  destruct (sent_message_ends_history Scenario.alice_socket Scenario.plain_text
              Scenario.srv1 (messageData 1 Scenario.plain_text 1000) Scenario.dave None)
    as (l & Hbefore & Hafter).
  - vm_compute. reflexivity.
  - reflexivity.
  - vm_compute in Hbefore. injection Hbefore as <-. exact Hafter.
Defined.

(** X27. send-message persists a message exactly when join-project would
    admit the sending socket to the payload's project and the payload's
    [messageType], or text when it has none, is one of text, file and code.
    The payload's [content], [file] and [code] play no part in it. *)
Theorem send_message_persists_iff (socket : Socket.t) (data : SendData) (srv : Server) :
  (∃ m, messages (db (snd (send_message socket data srv))) = messages (db srv) ++ [m])
  ↔ join_admitted socket (projectId data) srv
    ∧ messageType_valid
        (if truthy (str_val (messageType data)) then default "text" (messageType data)
         else "text") = true.
Proof.
  rewrite join_admitted_iff. split.
  - intros [m Hm].
    destruct (send_message_cases socket data srv)
      as [[text Heq] | (c & p & Hc & Hin & Hq & Hty & Heq)]; rewrite Heq in Hm.
    + by apply not_appended in Hm.
    + split; [by exists c, p | exact Hty].
  - intros [(c & p & Hc & Hin & Hq) Hty].
    destruct (find_is_Some _ _ p Hin Hq) as [y Hy].
    unfold send_message, send_message_try, company_id. rewrite Hc.
    cbn [mbind Js_bind]. unfold findOne. rewrite Hy.
    unfold validate_message. rewrite content_never_required.
    cbn [andb messageData ChatMessage.messageType]. rewrite Hty. simpl.
    by eexists.
Qed.

(** ** The pre-save hook of the Project schema *)

(** X28. After the pre-save hook a project always has a chat room. A chat
    room that is there is kept, so saving again, at any later time, changes
    nothing; a project without one gets a generated name, which is never
    the name of a primary room of the bridge. Nothing but the chat room is
    touched. *)
Theorem pre_save_sets_chat_room_once (now later : nat) (p : Project.t) :
  let q := pre_save now p in
  truthy (str_val (Project.chatRoom q)) = true
  ∧ pre_save later q = q
  ∧ (truthy (str_val (Project.chatRoom p)) = true → q = p)
  ∧ (∀ s, Project.chatRoom q = Some (project_room s)
          → Project.chatRoom p = Some (project_room s))
  ∧ project_set_chatRoom (Project.chatRoom p) q = p.
Proof.
  unfold pre_save. destruct (truthy (str_val (Project.chatRoom p))) eqn:Ht; cbv zeta.
  - rewrite Ht. split; [done|]. split; [done|]. split; [done|]. split; [done|].
    by destruct p.
  - cbn [project_set_chatRoom Project.chatRoom]. split; [done|]. split; [done|].
    split; [done|]. split; [|by destruct p].
    intros s [=].
Qed.
